(** * Document Center: the record store of [Code.js] and its consistency rules

    A shallow embedding of the Apps Script backend [src/Code.js].  The
    spreadsheet is a finite map from sheet names to grids of cells, the
    functions of the script are state-passing functions over it, and the
    properties of the specification are stated over these functions. *)

From Stdlib Require Import ZArith Lia Ascii String List Bool Sorted.
From stdpp Require Import base option list gmap strings pretty.

Local Open Scope string_scope.
Local Open Scope list_scope.
Local Open Scope Z_scope.

(** ** JavaScript strings

    Strings are sequences of char codes below 256.  The helpers follow the
    methods the script calls: [includes], [split], [trim], [toUpperCase]. *)

Module Js.

(** [s.includes(pat)] *)
Fixpoint includes (s pat : string) : bool :=
  if String.prefix pat s then true
  else match s with
       | EmptyString => false
       | String _ s' => includes s' pat
       end.

(** [s.split(sep)] for a one-character separator: never returns the empty
    list, [''.split(',')] is [['']]. *)
Fixpoint split (sep : ascii) (s : string) : list string :=
  match s with
  | EmptyString => [EmptyString]
  | String c s' =>
      if Ascii.eqb c sep then EmptyString :: split sep s'
      else match split sep s' with
           | [] => [String c EmptyString]
           | p :: ps => String c p :: ps
           end
  end.

(** [parts.join(sep)] *)
Fixpoint join (sep : string) (parts : list string) : string :=
  match parts with
  | [] => EmptyString
  | [p] => p
  | p :: ps => p +:+ sep +:+ join sep ps
  end.

(** White space that [trim] strips, among the char codes below 128: tab,
    line feed, vertical tab, form feed, carriage return and space. *)
Definition is_space (c : ascii) : bool :=
  let n := nat_of_ascii c in
  ((9 <=? n)%nat && (n <=? 13)%nat) || (n =? 32)%nat.

Fixpoint trimStart (s : string) : string :=
  match s with
  | String c s' => if is_space c then trimStart s' else s
  | EmptyString => EmptyString
  end.

Fixpoint trimEnd (s : string) : string :=
  match s with
  | EmptyString => EmptyString
  | String c s' =>
      match trimEnd s' with
      | EmptyString => if is_space c then EmptyString else String c EmptyString
      | t => String c t
      end
  end.

(** [s.trim()] *)
Definition trim (s : string) : string := trimEnd (trimStart s).

Definition upper_char (c : ascii) : ascii :=
  let n := nat_of_ascii c in
  if ((97 <=? n)%nat && (n <=? 122)%nat)%bool then ascii_of_nat (n - 32) else c.

(** [s.toUpperCase()] on the letters a-z. *)
Fixpoint toUpperCase (s : string) : string :=
  match s with
  | EmptyString => EmptyString
  | String c s' => String (upper_char c) (toUpperCase s')
  end.

(** [x | 0]: reduction to a signed 32-bit integer. *)
Definition toInt32 (z : Z) : Z :=
  let m := z mod 4294967296 in
  if 2147483648 <=? m then m - 4294967296 else m.

Definition digit36 (d : Z) : ascii :=
  if d <? 10 then ascii_of_nat (Z.to_nat (48 + d))
  else ascii_of_nat (Z.to_nat (97 + (d - 10))).

Fixpoint toString36_aux (fuel : nat) (n : Z) (acc : string) : string :=
  match fuel with
  | O => acc
  | S fuel' =>
      let acc' := String (digit36 (n mod 36)) acc in
      if n / 36 =? 0 then acc' else toString36_aux fuel' (n / 36) acc'
  end.

(** [n.toString(36)] for an integer [n]. *)
Definition toString36 (n : Z) : string :=
  if n <? 0
  then String "-" (toString36_aux (S (Z.to_nat (Z.log2 (- n)))) (- n) EmptyString)
  else toString36_aux (S (Z.to_nat (Z.log2 n))) n EmptyString.

End Js.

(** ** File-type inference *)

(** [detectFileType(url)]; [None] is an absent url. *)
Definition detectFileType (url : option string) : string :=
  match url with
  | None => "Other"
  | Some EmptyString => "Other"
  | Some url =>
      if Js.includes url "docs.google.com/document" then "Google Doc"
      else if Js.includes url "docs.google.com/spreadsheets" then "Google Sheet"
      else if Js.includes url "docs.google.com/presentation" then "Google Slides"
      else if Js.includes url "docs.google.com/forms" then "Google Form"
      else
        let other :=
          if Js.includes url "sites.google.com" then "Google Site"
          else if Js.includes url "lookerstudio.google.com" then "Looker Studio"
          else if Js.includes url "tableau.com" then "Tableau"
          else "Website" in
        if Js.includes url "drive.google.com/file" then
          if Js.includes url ".pdf" then "PDF"
          else if Js.includes url ".jpg" || Js.includes url ".png"
                  || Js.includes url ".gif" then "Image"
          else other
        else other
  end.

(** The classification as the specification words it: an ordered table of
    substring patterns, the first matching entry wins. *)
Definition fileTypeNames : list string :=
  ["Google Doc"; "Google Sheet"; "Google Slides"; "Google Form"; "PDF";
   "Image"; "Google Site"; "Looker Studio"; "Tableau"; "Website"; "Other"].

Definition fileTypePatterns : list ((string -> bool) * string) :=
  [ (fun u => Js.includes u "docs.google.com/document", "Google Doc");
    (fun u => Js.includes u "docs.google.com/spreadsheets", "Google Sheet");
    (fun u => Js.includes u "docs.google.com/presentation", "Google Slides");
    (fun u => Js.includes u "docs.google.com/forms", "Google Form");
    (fun u => Js.includes u "drive.google.com/file" && Js.includes u ".pdf", "PDF");
    (fun u => Js.includes u "drive.google.com/file"
              && (Js.includes u ".jpg" || Js.includes u ".png" || Js.includes u ".gif"),
     "Image");
    (fun u => Js.includes u "sites.google.com", "Google Site");
    (fun u => Js.includes u "lookerstudio.google.com", "Looker Studio");
    (fun u => Js.includes u "tableau.com", "Tableau") ].

Fixpoint firstMatch (tbl : list ((string -> bool) * string)) (u : string) : option string :=
  match tbl with
  | [] => None
  | (p, ty) :: tbl' => if p u then Some ty else firstMatch tbl' u
  end.

Definition classifyByTable (url : option string) : string :=
  match url with
  | None => "Other"
  | Some EmptyString => "Other"
  | Some u => default "Website" (firstMatch fileTypePatterns u)
  end.

(** ** Cells, rows and sheets *)

(** A value held in a spreadsheet cell or passed by a client: [CUndef] is
    JavaScript's [undefined] (a read outside a row), an empty cell reads as
    the empty string, a date cell as [CDate ms] with [ms] the time in
    milliseconds; numbers are integers. *)
Inductive cell : Type :=
  | CUndef
  | CStr (s : string)
  | CNum (n : Z)
  | CBool (b : bool)
  | CDate (ms : Z).

#[global] Instance cell_eq_dec : EqDecision cell.
Proof. solve_decision. Defined.

(** [a === b]: primitives compare by value, two [Date] objects are never
    the same object. *)
Definition strict_eq (a b : cell) : bool :=
  match a, b with
  | CUndef, CUndef => true
  | CStr s, CStr t => String.eqb s t
  | CNum n, CNum m => Z.eqb n m
  | CBool x, CBool y => Bool.eqb x y
  | _, _ => false
  end.

(** Truthiness, as tested by [if (x)], [!x], [x && ..] and [x || ..]. *)
Definition truthy (c : cell) : bool :=
  match c with
  | CUndef => false
  | CStr s => negb (String.eqb s EmptyString)
  | CNum n => negb (Z.eqb n 0)
  | CBool b => b
  | CDate _ => true
  end.

Definition is_digit (c : ascii) : bool :=
  let n := nat_of_ascii c in ((48 <=? n)%nat && (n <=? 57)%nat)%bool.

Fixpoint parseDigits (s : string) (acc : option Z) : option Z :=
  match s with
  | String c s' =>
      if is_digit c
      then parseDigits s' (Some (10 * default 0 acc + (Z.of_nat (nat_of_ascii c) - 48)))
      else acc
  | EmptyString => acc
  end.

Definition hex_value (c : ascii) : option Z :=
  let n := Z.of_nat (nat_of_ascii c) in
  if (48 <=? n) && (n <=? 57) then Some (n - 48)
  else if (97 <=? n) && (n <=? 102) then Some (n - 87)
  else if (65 <=? n) && (n <=? 70) then Some (n - 55)
  else None.

Fixpoint parseHexDigits (s : string) (acc : option Z) : option Z :=
  match s with
  | String c s' =>
      match hex_value c with
      | Some d => parseHexDigits s' (Some (16 * default 0 acc + d))
      | None => acc
      end
  | EmptyString => acc
  end.

Definition parseUnsigned (s : string) : option Z :=
  match s with
  | String "0" (String "x" s') => parseHexDigits s' None
  | String "0" (String "X" s') => parseHexDigits s' None
  | _ => parseDigits s None
  end.

(** [parseInt(s)]: leading white space, an optional sign, an optional [0x]
    prefix, then the longest run of digits; [None] is [NaN]. *)
Definition parseIntStr (s : string) : option Z :=
  match Js.trimStart s with
  | String "-" s' => Z.opp <$> parseUnsigned s'
  | String "+" s' => parseUnsigned s'
  | s' => parseUnsigned s'
  end.

(** [parseInt(c) || 0] for the contents of a counter cell. *)
Definition parseIntOr0 (c : cell) : Z :=
  match c with
  | CNum n => n
  | CStr s => default 0 (parseIntStr s)
  | _ => 0
  end.

Abbreviation row := (list cell).
Abbreviation sheet := (list (list cell)).

(** [r[k]] on a row read from the sheet. *)
Definition at_ (r : row) (k : nat) : cell := nth k r CUndef.

(** The data range spans the widest stored row; shorter rows are read with
    empty cells up to that width. *)
Definition width (sh : sheet) : nat := foldr (fun r w => Nat.max (length r) w) 0%nat sh.

Definition pad (w : nat) (r : row) : row := r ++ repeat (CStr EmptyString) (w - length r).

Module Sheet.

(** [sheet.getLastRow()] *)
Definition getLastRow (sh : sheet) : nat := length sh.

(** [sheet.getDataRange().getValues()]; the data range of a blank sheet is
    the single empty cell A1. *)
Definition getValues (sh : sheet) : list row :=
  match sh with
  | [] => [[CStr EmptyString]]
  | _ => map (pad (width sh)) sh
  end.

(** [sheet.appendRow(r)] *)
Definition appendRow (r : row) (sh : sheet) : sheet := sh ++ [r].

(** [sheet.deleteRow(n)], rows numbered from 1. *)
Definition deleteRow (n : nat) (sh : sheet) : sheet :=
  match n with
  | O => sh
  | S i => delete i sh
  end.

(** [sheet.getRange(n, k).setValue(v)], rows and columns numbered from 1;
    the grid has blank rows and cells beyond the stored ones. *)
Definition setValue (n k : nat) (v : cell) (sh : sheet) : sheet :=
  match n, k with
  | S i, S j =>
      alter (fun r => <[j := v]> (pad (S j) r)) i (sh ++ repeat [] (S i - length sh))
  | _, _ => sh
  end.

(** [sheet.getRange(n, 1, 1, vs.length).setValues([vs])] *)
Definition setRowValues (n : nat) (vs : row) (sh : sheet) : sheet :=
  match n with
  | S i =>
      alter (fun r => vs ++ drop (length vs) r) i (sh ++ repeat [] (S i - length sh))
  | O => sh
  end.

End Sheet.

(** [data.findIndex(p)]; [None] is the result -1. *)
Fixpoint findIndex {A} (p : A -> bool) (l : list A) : option nat :=
  match l with
  | [] => None
  | x :: l' => if p x then Some O else S <$> findIndex p l'
  end.

(** [headers.indexOf(field)] *)
Definition indexOf (field : string) (headers : row) : option nat :=
  findIndex (fun h => strict_eq h (CStr field)) headers.

(** The guard [rowIndex > 0] on a [findIndex] result. *)
Definition positive_index (i : option nat) : option nat :=
  match i with
  | Some (S i') => Some (S i')
  | _ => None
  end.

(** [arr.sort(cmp)]: a stable sort; [gt a b] says that [cmp(a, b) > 0]. *)
Fixpoint sort_insert {A} (gt : A -> A -> bool) (x : A) (l : list A) : list A :=
  match l with
  | [] => [x]
  | y :: l' => if gt x y then y :: sort_insert gt x l' else x :: l
  end.

Definition sort {A} (gt : A -> A -> bool) (l : list A) : list A :=
  foldr (sort_insert gt) [] l.

(** ** The runtime and the spreadsheet *)

(** What the platform supplies: the clock read by [new Date()] and
    [Date.now()] (in ms), the suffix [Math.random().toString(36).substr(2, 5)],
    [Date] parsing of a non-empty string, [String(date)], [Number(string)]
    and [String.prototype.localeCompare]. *)
Record runtime : Type := Runtime {
  clock : nat -> Z;
  random : nat -> string;
  parseDate : string -> option Z;
  dateToString : Z -> string;
  stringToNumber : string -> option Z;
  localeCompare : string -> string -> Z
}.

(** The active spreadsheet with its named sheets, and the number of clock
    and random reads made so far. *)
Record world : Type := World {
  sheets : gmap string sheet;
  tick : nat
}.

(** Script functions read and write the spreadsheet. *)
Definition M (A : Type) : Type := world -> A * world.

Definition ret {A} (a : A) : M A := fun w => (a, w).

Definition bind {A B} (m : M A) (k : A -> M B) : M B :=
  fun w => let (a, w') := m w in k a w'.

Notation "'do' x <~ m 'in' k" := (bind m (fun x => k))
  (at level 10, x name, m at level 100, k at level 200).
Notation "'run' m 'in' k" := (bind m (fun _ => k))
  (at level 10, m at level 100, k at level 200).

(** [ss.getSheetByName(name)]: the sheet's current contents, [None] for
    [null]. *)
Definition getSheetByName (name : string) : M (option sheet) :=
  fun w => (sheets w !! name, w).

(** A write through the sheet handle [name]. *)
Definition onSheet (name : string) (f : sheet -> sheet) : M unit :=
  fun w => (tt, World (alter f name (sheets w)) (tick w)).

Definition CONFIG_sessionTimeout : Z := 30.
Definition CONFIG_recentActivityLimit : nat := 20.
Definition CONFIG_appName : string := "Document Center".
Definition CONFIG_version : string := "1.0.0".

(** ** Values returned to the client *)

(** A script function returns either an object or the text
    [JSON.stringify(object)]. *)
Inductive returned (A : Type) : Type :=
  | AsObject (a : A)
  | AsJson (a : A).
Arguments AsObject {A} a.
Arguments AsJson {A} a.

(** [r.field] on a returned value: a string has none of the fields the
    script reads ([documents], [users], ...), so the read is [undefined]. *)
Definition field {A B} (r : returned A) (f : A -> option B) : option B :=
  match r with
  | AsObject a => f a
  | AsJson _ => None
  end.

(** [JSON.parse(r)]; [None] when [r] is not JSON text. *)
Definition JSON_parse {A} (r : returned A) : option A :=
  match r with
  | AsJson a => Some a
  | AsObject _ => None
  end.

(** The response object: [success], and when present [error], [message]
    and the field that carries the operation's data. *)
Record reply (A : Type) : Type := Reply {
  success : bool;
  error : option string;
  message : option string;
  payload : option A
}.
Arguments Reply {A} _ _ _ _.
Arguments success {A} _.
Arguments error {A} _.
Arguments message {A} _.
Arguments payload {A} _.

Definition failure {A} (e : string) : reply A := Reply false (Some e) None None.
Definition ok {A} : reply A := Reply true None None None.
Definition okMessage {A} (m : string) : reply A := Reply true None (Some m) None.
Definition okWith {A} (a : A) : reply A := Reply true None None (Some a).

(** The signed-in principal as [getCurrentUser] builds it. *)
Record user : Type := User {
  isSignedIn : bool;
  email : string;
  name : string;
  avatar : cell
}.

Definition notSignedIn : user := User false EmptyString EmptyString CUndef.

(** The argument of [addDocument]; [None] is an absent field. *)
Record documentData : Type := DocumentData {
  DocumentName : option string;
  GoogleDriveURL : option string;
  Description : option string;
  Category : option string;
  Tags : option string
}.

(** The argument of [getDocuments]. *)
Record filters : Type := Filters {
  status : option (list cell);
  categories : option (list cell);
  fileTypes : option (list cell);
  sortBy : option string
}.

Definition noFilters : filters := Filters None None None None.

(** An entry of the online-users listing. *)
Record onlineUser : Type := OnlineUser {
  ou_email : cell;
  ou_name : cell;
  loginTime : cell;
  lastActivity : cell;
  ou_avatar : cell;
  ou_status : cell
}.

Record category : Type := CategoryRow {
  CategoryID : cell;
  CategoryName : cell;
  cat_CreatedBy : cell;
  cat_DateCreated : cell;
  DocumentCount : cell
}.

Record tag : Type := TagRow {
  TagID : cell;
  TagName : cell;
  tag_CreatedBy : cell;
  tag_DateCreated : cell;
  UsageCount : cell
}.

Record activity : Type := Activity {
  ActivityID : cell;
  UserEmail : cell;
  UserName : cell;
  Action : cell;
  DocID : cell;
  Details : cell;
  Timestamp : cell
}.

(** The [analytics] object: [{}] or the summary with its view total. *)
Inductive analytics : Type :=
  | NoAnalytics
  | Summary (totalViews : Z).

(** A document as [getDocuments] lists it: header name to cell. *)
Abbreviation document := (gmap string cell).

(** The response of [getInitialData]. *)
Record initialData : Type := InitialData {
  id_user : user;
  id_documents : list document;
  id_categories : list category;
  id_tags : list tag;
  id_favorites : list cell;
  id_recentActivity : list activity;
  id_onlineUsers : list onlineUser;
  id_analytics : analytics;
  id_config : string * string
}.

Definition animalAvatars : list string :=
  ["🐺"; "🦊"; "🐨"; "🐸"; "🦋"; "🐧"; "🦁"; "🐯"; "🐼"; "🐰"; "🦄"; "🐙"; "🦉";
   "🐢"; "🦆"; "🦅"; "🦜"; "🦩"].

Definition dquote : string := String (ascii_of_nat 34) EmptyString.

(** ** The script *)

Section Script.

Variable rt : runtime.

(** [new Date()] and [Date.now()]: the next clock reading. *)
Definition now : M Z :=
  fun w => (clock rt (tick w), World (sheets w) (S (tick w))).

(** [Math.random().toString(36).substr(2, 5)] *)
Definition randomSuffix : M string :=
  fun w => (random rt (tick w), World (sheets w) (S (tick w))).

(** [arr.forEach(f)] for an effectful [f]. *)
Fixpoint forEach {A} (l : list A) (f : A -> M unit) : M unit :=
  match l with
  | [] => ret tt
  | x :: l' => run f x in forEach l' f
  end.

(** [new Date(c).getTime()]; [None] is an invalid date. *)
Definition toTime (c : cell) : option Z :=
  match c with
  | CDate ms => Some ms
  | CNum n => Some n
  | CBool b => Some (if b then 1 else 0)
  | CStr EmptyString => None
  | CStr s => parseDate rt s
  | CUndef => None
  end.

(** [Number(c)]; [None] is [NaN]. *)
Definition toNumber (c : cell) : option Z :=
  match c with
  | CNum n => Some n
  | CDate ms => Some ms
  | CBool b => Some (if b then 1 else 0)
  | CStr EmptyString => Some 0
  | CStr s => stringToNumber rt s
  | CUndef => None
  end.

(** [a - b > 0] on numbers that may be [NaN]. *)
Definition diff_pos (a b : option Z) : bool :=
  match a, b with
  | Some x, Some y => 0 <? x - y
  | _, _ => false
  end.

(** The name of the property [doc[header]] writes. *)
Definition propertyKey (h : cell) : string :=
  match h with
  | CStr s => s
  | CNum n => pretty n
  | CBool true => "true"
  | CBool false => "false"
  | CDate ms => dateToString rt ms
  | CUndef => "undefined"
  end.

(** [generateId(prefix)] *)
Definition generateId (prefix : string) : M string :=
  do timestamp <~ now in
  do random <~ randomSuffix in
  ret (Js.toUpperCase (prefix +:+ "_" +:+ Js.toString36 timestamp +:+ "_" +:+ random)).

(** The rows [i + 1] pushed by the loop
    [for (let i = data.length - 1; i >= 1; i--) if (p(data[i])) ...]. *)
Definition rowsFromBottom (p : row -> bool) (data : list row) : list nat :=
  map S (List.filter (fun i => p (nth i data [])) (rev (seq 1 (length data - 1)))).

Definition emailHash (email : string) : Z :=
  fold_left (fun acc char =>
      Js.toInt32 (Js.toInt32 (acc * 32) - acc + Z.of_nat (nat_of_ascii char)))
    (list_ascii_of_string email) 0.

(** [getOrAssignUserAvatar(email)] *)
Definition getOrAssignUserAvatar (email : string) : M cell :=
  do sheet <~ getSheetByName "OnlineUsers" in
  let assigned :=
    match sheet with
    | Some sh =>
        if (1 <? Sheet.getLastRow sh)%nat then
          find (fun r => strict_eq (at_ r 1) (CStr email) && truthy (at_ r 5))
               (drop 1 (Sheet.getValues sh))
        else None
    | None => None
    end in
  match assigned with
  | Some r => ret (at_ r 5)
  | None =>
      ret (CStr (nth (Z.to_nat (Z.abs (emailHash email) mod Z.of_nat (length animalAvatars)))
                     animalAvatars EmptyString))
  end.

Definition capitalize (part : string) : string :=
  match part with
  | EmptyString => EmptyString
  | String c rest => String (Js.upper_char c) rest
  end.

(** [getCurrentUser()]; [who] is the email [Session.getActiveUser()]
    reports, empty for a visitor who is not signed in. *)
Definition getCurrentUser (who : string) : M user :=
  if String.eqb who EmptyString then ret notSignedIn
  else
    let name := Js.join " " (map capitalize (Js.split "." (hd EmptyString (Js.split "@" who)))) in
    do avatar <~ getOrAssignUserAvatar who in
    ret (User true who name avatar).

(** [logActivity(user, action, docId, details)] *)
Definition logActivity (u : user) (action docId details : string) : M unit :=
  do sheet <~ getSheetByName "ActivityLog" in
  match sheet with
  | Some _ =>
      do id <~ generateId "ACT" in
      do t <~ now in
      onSheet "ActivityLog"
        (Sheet.appendRow [CStr id; CStr (email u); CStr (name u); CStr action;
                          CStr docId; CStr details; CDate t])
  | None => ret tt
  end.

(** [updateCategoryCount(categoryName, delta)] *)
Definition updateCategoryCount (categoryName : cell) (delta : Z) : M unit :=
  do sheet <~ getSheetByName "Categories" in
  match sheet with
  | None => ret tt
  | Some sh =>
      let data := Sheet.getValues sh in
      match positive_index (findIndex (fun r => strict_eq (at_ r 1) categoryName) data) with
      | Some rowIndex =>
          let currentCount := parseIntOr0 (at_ (nth rowIndex data []) 5) in
          onSheet "Categories"
            (Sheet.setValue (rowIndex + 1) 6 (CNum (Z.max 0 (currentCount + delta))))
      | None => ret tt
      end
  end.

(** [updateTagCounts(tagsString, delta)]; [split] on a value that is not a
    string raises, and the function's own handler ends the call. *)
Definition updateTagCounts (tagsString : cell) (delta : Z) : M unit :=
  if negb (truthy tagsString) then ret tt
  else
    do sheet <~ getSheetByName "Tags" in
    match sheet, tagsString with
    | Some sh, CStr s =>
        let data := Sheet.getValues sh in
        let tags := map Js.trim (Js.split "," s) in
        forEach tags (fun tag =>
          match positive_index (findIndex (fun r => strict_eq (at_ r 1) (CStr tag)) data) with
          | Some rowIndex =>
              let currentCount := parseIntOr0 (at_ (nth rowIndex data []) 4) in
              onSheet "Tags"
                (Sheet.setValue (rowIndex + 1) 5 (CNum (Z.max 0 (currentCount + delta))))
          | None => ret tt
          end)
    | _, _ => ret tt
    end.

(** [cleanupExpiredSessions(sheet)], [sheet] being the handle [name]. *)
Definition cleanupExpiredSessions (name : string) : M unit :=
  do sheet <~ getSheetByName name in
  match sheet with
  | None => ret tt
  | Some sh =>
      if (Sheet.getLastRow sh <=? 1)%nat then ret tt
      else
        do t <~ now in
        let cutoffTime := t - CONFIG_sessionTimeout * 60 * 1000 in
        let data := Sheet.getValues sh in
        let rowsToDelete :=
          rowsFromBottom (fun r => diff_pos (Some cutoffTime) (toTime (at_ r 4))) data in
        forEach rowsToDelete (fun rowNum => onSheet name (Sheet.deleteRow rowNum))
  end.

(** [removeUserSession(sheet, email)] *)
Definition removeUserSession (name : string) (email : string) : M unit :=
  do sheet <~ getSheetByName name in
  match sheet with
  | None => ret tt
  | Some sh =>
      if (Sheet.getLastRow sh <=? 1)%nat then ret tt
      else
        let data := Sheet.getValues sh in
        match positive_index (findIndex (fun r => strict_eq (at_ r 1) (CStr email)) data) with
        | Some rowIndex => onSheet name (Sheet.deleteRow (rowIndex + 1))
        | None => ret tt
        end
  end.

(** [removeFromAllFavorites(docId)] *)
Definition removeFromAllFavorites (docId : string) : M unit :=
  do sheet <~ getSheetByName "UserFavorites" in
  match sheet with
  | None => ret tt
  | Some sh =>
      if (Sheet.getLastRow sh <=? 1)%nat then ret tt
      else
        let data := Sheet.getValues sh in
        let rowsToDelete := rowsFromBottom (fun r => strict_eq (at_ r 2) (CStr docId)) data in
        forEach rowsToDelete (fun rowNum => onSheet "UserFavorites" (Sheet.deleteRow rowNum))
  end.

(** [isDuplicateURL(url)]: column 3 of the rows 2 to the last. *)
Definition isDuplicateURL (url : string) : M bool :=
  do sheet <~ getSheetByName "Documents" in
  match sheet with
  | None => ret false
  | Some sh =>
      if (Sheet.getLastRow sh <=? 1)%nat then ret false
      else
        let urls := map (fun r => nth 2 r (CStr EmptyString)) (drop 1 sh) in
        ret (existsb (fun c => strict_eq c (CStr url)) urls)
  end.

(** The text of a raised exception is the platform's; the embedding keeps
    one text for each place that can raise. *)
Definition typeErrorText : string := "TypeError".
Definition rangeErrorText : string := "Exception: The starting column of the range is too small.".

(** The index found by the loop
    [for (let i = 1; i < data.length; i++) if (p(data[i])) { ...; break }]. *)
Definition findIndexFrom1 (p : row -> bool) (data : list row) : option nat :=
  S <$> findIndex p (drop 1 data).

(** [trackUserSession(user, action)]; [u] is the [user] argument, [None]
    when the caller passes none. *)
Definition trackUserSession (who : string) (u : option user) (action : string)
  : M (returned (reply unit)) :=
  do user <~ match u with Some x => ret x | None => getCurrentUser who end in
  if negb (isSignedIn user) then ret (AsJson (failure "User not authenticated"))
  else
    do sheet <~ getSheetByName "OnlineUsers" in
    match sheet with
    | None => ret (AsJson (failure "Database not initialized"))
    | Some _ =>
        do t <~ now in
        run cleanupExpiredSessions "OnlineUsers" in
        if String.eqb action "logout" then
          run removeUserSession "OnlineUsers" (email user) in
          ret (AsJson ok)
        else
          do swept <~ getSheetByName "OnlineUsers" in
          let data := Sheet.getValues (default [] swept) in
          let sessionRow :=
            S <$> findIndexFrom1 (fun r => strict_eq (at_ r 1) (CStr (email user))) data in
          match (if String.eqb action "login" then None else sessionRow) with
          | None =>
              do id <~ generateId "SES" in
              let sessionData :=
                [CStr id; CStr (email user); CStr (name user); CDate t; CDate t;
                 avatar user; CStr "Online"] in
              run match sessionRow with
                  | Some n => onSheet "OnlineUsers" (Sheet.setRowValues n sessionData)
                  | None => onSheet "OnlineUsers" (Sheet.appendRow sessionData)
                  end in
              ret (AsJson ok)
          | Some n =>
              run onSheet "OnlineUsers" (Sheet.setValue n 5 (CDate t)) in
              run onSheet "OnlineUsers" (Sheet.setValue n 7 (CStr "Online")) in
              ret (AsJson ok)
          end
    end.

Definition userOfRow (r : row) : onlineUser :=
  OnlineUser (at_ r 1) (at_ r 2) (at_ r 3) (at_ r 4) (at_ r 5) (at_ r 6).

(** [getOnlineUsers()] *)
Definition getOnlineUsers : M (returned (reply (list onlineUser))) :=
  do sheet <~ getSheetByName "OnlineUsers" in
  match sheet with
  | None => ret (AsJson (okWith []))
  | Some sh =>
      if (Sheet.getLastRow sh <=? 1)%nat then ret (AsJson (okWith []))
      else
        run cleanupExpiredSessions "OnlineUsers" in
        do swept <~ getSheetByName "OnlineUsers" in
        let data := Sheet.getValues (default [] swept) in
        let users :=
          map userOfRow
              (List.filter (fun r => strict_eq (at_ r 6) (CStr "Online")) (drop 1 data)) in
        ret (AsJson (okWith
          (sort (fun a b => diff_pos (toTime (lastActivity b)) (toTime (lastActivity a)))
                users)))
  end.

(** [doc[header] = data[i][index]] for each header in turn. *)
Fixpoint fillDoc (headers : row) (index : nat) (r : row) (doc : document) : document :=
  match headers with
  | [] => doc
  | header :: rest => fillDoc rest (S index) r (<[propertyKey header := at_ r index]> doc)
  end.

(** [doc.key] *)
Definition prop (doc : document) (key : string) : cell := default CUndef (doc !! key).

(** [list && list.length > 0 && !list.includes(v)] *)
Definition excludes (allowed : option (list cell)) (v : cell) : bool :=
  match allowed with
  | Some l => (0 <? length l)%nat && negb (existsb (fun x => strict_eq x v) l)
  | None => false
  end.

(** [passesFilters(doc, filters)] *)
Definition passesFilters (doc : document) (fl : filters) : bool :=
  if excludes (status fl) (prop doc "Status") then false
  else if excludes (categories fl) (prop doc "Category") then false
  else if excludes (fileTypes fl) (prop doc "FileType") then false
  else true.

Definition isString (c : cell) : bool :=
  match c with CStr _ => true | _ => false end.

(** [a.localeCompare(b) > 0] for a string [a]; [b] is converted to a
    string. *)
Definition localeGt (a b : cell) : bool :=
  match a with
  | CStr s => 0 <? localeCompare rt s (propertyKey b)
  | _ => false
  end.

(** [getSortFunction(sortBy)], as the test [cmp(a, b) > 0]. *)
Definition getSortFunction (sortBy : string) (a b : document) : bool :=
  if String.eqb sortBy "name_asc" then
    localeGt (prop a "DocumentName") (prop b "DocumentName")
  else if String.eqb sortBy "name_desc" then
    localeGt (prop b "DocumentName") (prop a "DocumentName")
  else if String.eqb sortBy "date_asc" then
    diff_pos (toTime (prop a "DateAdded")) (toTime (prop b "DateAdded"))
  else
    diff_pos (toTime (prop b "LastModified")) (toTime (prop a "LastModified")).

(** [x.localeCompare] raises when [x] is not a string.  Which elements a
    sort passes as [a] is the engine's choice; the embedding reports the
    failure when two or more elements are sorted and one is not a string. *)
Definition compareRaises {A} (key : A -> cell) (l : list A) : bool :=
  (2 <=? length l)%nat && existsb (fun x => negb (isString (key x))) l.

(** [getDocuments(filters)] *)
Definition getDocuments (fl : filters) : M (returned (reply (list document))) :=
  do sheet <~ getSheetByName "Documents" in
  match sheet with
  | None => ret (AsObject (okWith []))
  | Some sh =>
      if (Sheet.getLastRow sh <=? 1)%nat then ret (AsObject (okWith []))
      else
        let data := Sheet.getValues sh in
        let headers := hd [] data in
        let documents :=
          List.filter (fun doc => passesFilters doc fl)
                 (map (fun r => fillDoc headers 0 r ∅) (drop 1 data)) in
        let sortBy :=
          match sortBy fl with
          | None | Some EmptyString => "date_desc"
          | Some s => s
          end in
        if (String.eqb sortBy "name_asc" || String.eqb sortBy "name_desc")
           && compareRaises (fun d => prop d "DocumentName") documents
        then ret (AsObject (failure typeErrorText))
        else ret (AsObject (okWith (sort (getSortFunction sortBy) documents)))
  end.

Definition present (o : option string) : bool :=
  match o with
  | None | Some EmptyString => false
  | Some _ => true
  end.

(** [addDocument(documentData)]; the reply carries [docId]. *)
Definition addDocument (who : string) (d : documentData) : M (returned (reply string)) :=
  do user <~ getCurrentUser who in
  if negb (isSignedIn user) then ret (AsJson (failure "User not authenticated"))
  else if negb (present (DocumentName d)) || negb (present (GoogleDriveURL d))
          || negb (present (Category d))
  then ret (AsJson (failure "Missing required fields"))
  else
    do dup <~ isDuplicateURL (default EmptyString (GoogleDriveURL d)) in
    if dup then ret (AsJson (failure "A document with this URL already exists"))
    else
      do sheet <~ getSheetByName "Documents" in
      match sheet with
      | None => ret (AsJson (failure "Database not initialized"))
      | Some _ =>
          do docId <~ generateId "DOC" in
          do t <~ now in
          let fileType := detectFileType (GoogleDriveURL d) in
          let newDocument :=
            [CStr docId; CStr (default EmptyString (DocumentName d));
             CStr (default EmptyString (GoogleDriveURL d));
             CStr (default EmptyString (Description d));
             CStr (default EmptyString (Category d)); CStr fileType; CStr (email user);
             CStr (default EmptyString (Tags d)); CDate t; CDate t; CStr "Active"] in
          run onSheet "Documents" (Sheet.appendRow newDocument) in
          run logActivity user "Created Document" docId
                ("Created " +:+ dquote +:+ default EmptyString (DocumentName d) +:+ dquote) in
          run updateCategoryCount (CStr (default EmptyString (Category d))) 1 in
          run (if present (Tags d)
               then updateTagCounts (CStr (default EmptyString (Tags d))) 1
               else ret tt) in
          ret (AsJson (Reply true None (Some "Document added successfully") (Some docId)))
      end.

(** [updates[field]] on the object [updates], given by its own properties
    in order. *)
Definition lookupField (updates : list (string * cell)) (field : string) : cell :=
  match find (fun kv => String.eqb (fst kv) field) updates with
  | Some kv => snd kv
  | None => CUndef
  end.

(** [data[rowIndex][headers.indexOf(field)]] *)
Definition cellOf (data : list row) (rowIndex : nat) (headers : row) (field : string) : cell :=
  match indexOf field headers with
  | Some colIndex => at_ (nth rowIndex data []) colIndex
  | None => CUndef
  end.

(** [updateDocument(docId, updates)] *)
Definition updateDocument (who : string) (docId : string) (updates : list (string * cell))
  : M (returned (reply unit)) :=
  do user <~ getCurrentUser who in
  if negb (isSignedIn user) then ret (AsJson (failure "User not authenticated"))
  else
    do sheet <~ getSheetByName "Documents" in
    match sheet with
    | None => ret (AsJson (failure "Database not initialized"))
    | Some sh =>
        let data := Sheet.getValues sh in
        let headers := hd [] data in
        match findIndex (fun r => strict_eq (at_ r 0) (CStr docId)) data with
        | None => ret (AsJson (failure "Document not found"))
        | Some rowIndex =>
            let oldCategory := cellOf data rowIndex headers "Category" in
            let oldTags := cellOf data rowIndex headers "Tags" in
            let writes (kv : string * cell) : option nat :=
              match indexOf (fst kv) headers with
              | Some colIndex =>
                  if negb (strict_eq (snd kv) CUndef)
                     && negb (strict_eq (at_ (nth rowIndex data []) colIndex) (snd kv))
                  then Some colIndex else None
              | None => None
              end in
            run forEach updates (fun kv =>
                  match writes kv with
                  | Some colIndex =>
                      onSheet "Documents" (Sheet.setValue (rowIndex + 1) (colIndex + 1) (snd kv))
                  | None => ret tt
                  end) in
            let changes :=
              map (fun kv => fst kv +:+ " updated")
                  (List.filter (fun kv => bool_decide (is_Some (writes kv))) updates) in
            match indexOf "LastModified" headers with
            | None => ret (AsJson (failure rangeErrorText))
            | Some colIndex =>
                do t <~ now in
                run onSheet "Documents" (Sheet.setValue (rowIndex + 1) (colIndex + 1) (CDate t)) in
                run (if truthy (lookupField updates "Category")
                        && negb (strict_eq (lookupField updates "Category") oldCategory)
                     then
                       run updateCategoryCount oldCategory (-1) in
                       updateCategoryCount (lookupField updates "Category") 1
                     else ret tt) in
                run (if negb (strict_eq (lookupField updates "Tags") oldTags)
                     then
                       run updateTagCounts oldTags (-1) in
                       updateTagCounts (lookupField updates "Tags") 1
                     else ret tt) in
                run (if (0 <? length changes)%nat
                     then logActivity user "Updated Document" docId (Js.join ", " changes)
                     else ret tt) in
                ret (AsJson (okMessage "Document updated successfully"))
            end
        end
    end.

(** [archiveDocument(docId)] *)
Definition archiveDocument (who : string) (docId : string) : M (returned (reply unit)) :=
  do user <~ getCurrentUser who in
  do updated <~ updateDocument who docId [("Status", CStr "Archived")] in
  match JSON_parse updated with
  | Some result =>
      run (if success result
           then logActivity user "Archived Document" docId "Document archived"
           else ret tt) in
      ret (AsJson result)
  | None => ret (AsJson (failure typeErrorText))
  end.

(** [restoreDocument(docId)] *)
Definition restoreDocument (who : string) (docId : string) : M (returned (reply unit)) :=
  do user <~ getCurrentUser who in
  do updated <~ updateDocument who docId [("Status", CStr "Active")] in
  match JSON_parse updated with
  | Some result =>
      run (if success result
           then logActivity user "Restored Document" docId "Document restored"
           else ret tt) in
      ret (AsJson result)
  | None => ret (AsJson (failure typeErrorText))
  end.

(** [String(c)] in a template literal. *)
Definition cellText (c : cell) : string := propertyKey c.

(** [deleteDocument(docId)] *)
Definition deleteDocument (who : string) (docId : string) : M (returned (reply unit)) :=
  do user <~ getCurrentUser who in
  if negb (isSignedIn user) then ret (AsJson (failure "User not authenticated"))
  else
    do sheet <~ getSheetByName "Documents" in
    match sheet with
    | None => ret (AsJson (failure "Database not initialized"))
    | Some sh =>
        let data := Sheet.getValues sh in
        match findIndex (fun r => strict_eq (at_ r 0) (CStr docId)) data with
        | None => ret (AsJson (failure "Document not found"))
        | Some rowIndex =>
            let docName := at_ (nth rowIndex data []) 1 in
            let category := at_ (nth rowIndex data []) 4 in
            let tags := at_ (nth rowIndex data []) 7 in
            run onSheet "Documents" (Sheet.deleteRow (rowIndex + 1)) in
            run updateCategoryCount category (-1) in
            run (if truthy tags then updateTagCounts tags (-1) else ret tt) in
            run removeFromAllFavorites docId in
            run logActivity user "Deleted Document" docId
                  ("Permanently deleted " +:+ dquote +:+ cellText docName +:+ dquote) in
            ret (AsJson (okMessage "Document deleted successfully"))
        end
    end.

(** [row[k] || 0] *)
Definition orZero (c : cell) : cell := if truthy c then c else CNum 0.

(** [getCategories()] *)
Definition getCategories : M (returned (reply (list category))) :=
  do sheet <~ getSheetByName "Categories" in
  match sheet with
  | None => ret (AsObject (okWith []))
  | Some sh =>
      if (Sheet.getLastRow sh <=? 1)%nat then ret (AsObject (okWith []))
      else
        let data := Sheet.getValues sh in
        let categories :=
          map (fun r => CategoryRow (at_ r 0) (at_ r 1) (at_ r 2) (at_ r 3) (orZero (at_ r 5)))
              (List.filter (fun r => strict_eq (at_ r 4) (CBool true)) (drop 1 data)) in
        if compareRaises CategoryName categories
        then ret (AsObject (failure typeErrorText))
        else ret (AsObject (okWith
               (sort (fun a b => localeGt (CategoryName a) (CategoryName b)) categories)))
  end.

(** [getTags()] *)
Definition getTags : M (returned (reply (list tag))) :=
  do sheet <~ getSheetByName "Tags" in
  match sheet with
  | None => ret (AsObject (okWith []))
  | Some sh =>
      if (Sheet.getLastRow sh <=? 1)%nat then ret (AsObject (okWith []))
      else
        let data := Sheet.getValues sh in
        let tags :=
          map (fun r => TagRow (at_ r 0) (at_ r 1) (at_ r 2) (at_ r 3) (orZero (at_ r 4)))
              (drop 1 data) in
        ret (AsObject (okWith
          (sort (fun a b => diff_pos (toNumber (UsageCount b)) (toNumber (UsageCount a)))
                tags)))
  end.

(** [getUserFavorites()]; the reply carries [favoriteIds]. *)
Definition getUserFavorites (who : string) : M (returned (reply (list cell))) :=
  do user <~ getCurrentUser who in
  if negb (isSignedIn user) then ret (AsObject (failure "User not authenticated"))
  else
    do sheet <~ getSheetByName "UserFavorites" in
    match sheet with
    | None => ret (AsObject (okWith []))
    | Some sh =>
        if (Sheet.getLastRow sh <=? 1)%nat then ret (AsObject (okWith []))
        else
          let data := Sheet.getValues sh in
          let favoriteIds :=
            map (fun r => at_ r 2)
                (List.filter (fun r => strict_eq (at_ r 1) (CStr (email user))) (drop 1 data)) in
          ret (AsObject (okWith favoriteIds))
    end.

(** [toggleFavorite(docId)]; the reply carries [favorited]. *)
Definition toggleFavorite (who : string) (docId : string) : M (returned (reply bool)) :=
  do user <~ getCurrentUser who in
  if negb (isSignedIn user) then ret (AsJson (failure "User not authenticated"))
  else
    do sheet <~ getSheetByName "UserFavorites" in
    match sheet with
    | None => ret (AsJson (failure "Database not initialized"))
    | Some sh =>
        let data := Sheet.getValues sh in
        let rowIndex :=
          findIndex (fun r => strict_eq (at_ r 1) (CStr (email user))
                              && strict_eq (at_ r 2) (CStr docId)) data in
        match positive_index rowIndex with
        | Some rowIndex =>
            run onSheet "UserFavorites" (Sheet.deleteRow (rowIndex + 1)) in
            run logActivity user "Removed Favorite" docId "Removed from favorites" in
            ret (AsJson (okWith false))
        | None =>
            do id <~ generateId "FAV" in
            do t <~ now in
            run onSheet "UserFavorites"
                  (Sheet.appendRow [CStr id; CStr (email user); CStr docId; CDate t]) in
            run logActivity user "Added Favorite" docId "Added to favorites" in
            ret (AsJson (okWith true))
        end
    end.

(** [getAnalyticsData()] *)
Definition getAnalyticsData : M (returned (reply analytics)) :=
  do sheet <~ getSheetByName "Analytics" in
  match sheet with
  | None => ret (AsObject (okWith (Summary 0)))
  | Some sh =>
      if (Sheet.getLastRow sh <=? 1)%nat then ret (AsObject (okWith (Summary 0)))
      else ret (AsObject (okWith (Summary (Z.of_nat (Sheet.getLastRow sh) - 1))))
  end.

Definition activityOfRow (r : row) : activity :=
  Activity (at_ r 0) (at_ r 1) (at_ r 2) (at_ r 3) (at_ r 4) (at_ r 5) (at_ r 6).

(** [getRecentActivity(limit)] *)
Definition getRecentActivity (limit : nat) : M (returned (reply (list activity))) :=
  do sheet <~ getSheetByName "ActivityLog" in
  match sheet with
  | None => ret (AsObject (okWith []))
  | Some sh =>
      if (Sheet.getLastRow sh <=? 1)%nat then ret (AsObject (okWith []))
      else
        let data := Sheet.getValues sh in
        let activities :=
          map activityOfRow (rev (drop (Nat.max 1 (length data - limit)) data)) in
        ret (AsObject (okWith activities))
  end.

(** [getInitialData()]; [x.f || d] falls back to [d] when the field is
    [undefined]. *)
Definition getInitialData (who : string) : M (returned (reply initialData)) :=
  do user <~ getCurrentUser who in
  if negb (isSignedIn user) then ret (AsJson (failure "User not authenticated"))
  else
    do documents <~ getDocuments noFilters in
    do categories <~ getCategories in
    do tags <~ getTags in
    do favorites <~ getUserFavorites who in
    do recentActivity <~ getRecentActivity CONFIG_recentActivityLimit in
    do onlineUsers <~ getOnlineUsers in
    do analytics <~ getAnalyticsData in
    ret (AsJson (okWith
      (InitialData user
         (default [] (field documents payload))
         (default [] (field categories payload))
         (default [] (field tags payload))
         (default [] (field favorites payload))
         (default [] (field recentActivity payload))
         (default [] (field onlineUsers payload))
         (default NoAnalytics (field analytics payload))
         (CONFIG_appName, CONFIG_version)))).

(** The loop [docIds.forEach(docId => { if (f(docId)) successCount++ })]:
    the number of elements for which [f] answers [true]. *)
Fixpoint forEachCount {A} (l : list A) (f : A -> M bool) : M nat :=
  match l with
  | [] => ret O
  | x :: l' =>
      do counted <~ f x in
      do rest <~ forEachCount l' f in
      ret ((if counted then 1 else 0) + rest)%nat
  end.

(** [bulkArchiveDocuments(docIds)]; the reply carries [summary]. *)
Definition bulkArchiveDocuments (who : string) (docIds : list string)
  : M (returned (reply string)) :=
  do user <~ getCurrentUser who in
  if negb (isSignedIn user) then ret (AsJson (failure "User not authenticated"))
  else
    do successCount <~
      forEachCount docIds (fun docId =>
        do updated <~ updateDocument who docId [("Status", CStr "Archived")] in
        match JSON_parse updated with
        | Some result =>
            if success result then
              run logActivity user "Archived Document" docId "Bulk operation" in
              ret true
            else ret false
        | None => ret false
        end) in
    ret (AsJson (okWith (pretty successCount +:+ " of " +:+ pretty (length docIds)
                         +:+ " documents archived."))).

(** [bulkRestoreDocuments(docIds)]; the reply carries [summary]. *)
Definition bulkRestoreDocuments (who : string) (docIds : list string)
  : M (returned (reply string)) :=
  do user <~ getCurrentUser who in
  if negb (isSignedIn user) then ret (AsJson (failure "User not authenticated"))
  else
    do successCount <~
      forEachCount docIds (fun docId =>
        do updated <~ updateDocument who docId [("Status", CStr "Active")] in
        match JSON_parse updated with
        | Some result =>
            if success result then
              run logActivity user "Restored Document" docId "Bulk operation" in
              ret true
            else ret false
        | None => ret false
        end) in
    ret (AsJson (okWith (pretty successCount +:+ " of " +:+ pretty (length docIds)
                         +:+ " documents restored."))).

(** [addCategory(categoryName)]; the reply carries [categoryId]. *)
Definition addCategory (who : string) (categoryName : string) : M (returned (reply string)) :=
  do user <~ getCurrentUser who in
  if negb (isSignedIn user) then ret (AsJson (failure "User not authenticated"))
  else
    do sheet <~ getSheetByName "Categories" in
    match sheet with
    | None => ret (AsJson (failure "Database not initialized"))
    | Some sh =>
        let data := Sheet.getValues sh in
        match find (fun r => strict_eq (at_ r 1) (CStr categoryName)) data with
        | Some _ => ret (AsJson (failure "Category already exists"))
        | None =>
            do categoryId <~ generateId "CAT" in
            do t <~ now in
            run onSheet "Categories"
                  (Sheet.appendRow [CStr categoryId; CStr categoryName; CStr (email user);
                                    CDate t; CBool true; CNum 0]) in
            run logActivity user "Created Category" categoryId
                  ("Created category " +:+ dquote +:+ categoryName +:+ dquote) in
            ret (AsJson (Reply true None (Some "Category added successfully")
                               (Some categoryId)))
        end
    end.

(** [recordDocumentView(docId)]; reading the data range of a missing
    Documents sheet raises, and the function's handler answers with the
    failure. *)
Definition recordDocumentView (who : string) (docId : string) : M (returned (reply unit)) :=
  do user <~ getCurrentUser who in
  if negb (isSignedIn user) then ret (AsJson (failure "User not authenticated"))
  else
    do sheet <~ getSheetByName "Analytics" in
    match sheet with
    | None => ret (AsJson (failure "Database not initialized"))
    | Some _ =>
        do docSheet <~ getSheetByName "Documents" in
        match docSheet with
        | None => ret (AsJson (failure typeErrorText))
        | Some docs =>
            let docData := Sheet.getValues docs in
            let docName :=
              match find (fun r => strict_eq (at_ r 0) (CStr docId)) docData with
              | Some docRow => at_ docRow 1
              | None => CStr "Unknown Document"
              end in
            do viewId <~ generateId "VIEW" in
            do t <~ now in
            run onSheet "Analytics"
                  (Sheet.appendRow [CStr viewId; CStr docId; CStr (email user); CDate t;
                                    CStr "Web Browser"; docName]) in
            ret (AsJson (okMessage "View recorded"))
        end
    end.

End Script.

(** ** What the claims observe *)

(** The data rows of a sheet, as the script reads them (the first row is
    the header). *)
Definition dataRows (w : world) (name : string) : list row :=
  match sheets w !! name with
  | Some sh => drop 1 (Sheet.getValues sh)
  | None => []
  end.

(** The tag names a document row lists: its Tags string split on commas,
    each entry trimmed. *)
Definition tagsOfRow (r : row) : list string :=
  match at_ r 7 with
  | CStr s => map Js.trim (Js.split "," s)
  | _ => []
  end.

(** The number of document rows whose Tags string lists [t]. *)
Definition documentsWithTag (w : world) (t : string) : nat :=
  length (List.filter (fun r => existsb (String.eqb t) (tagsOfRow r)) (dataRows w "Documents")).

(** The usage counter of the Tags row named [t]. *)
Definition usageCountOf (w : world) (t : string) : option cell :=
  (fun r => at_ r 4) <$> find (fun r => strict_eq (at_ r 1) (CStr t)) (dataRows w "Tags").

(** The number of document rows whose Category is [c]. *)
Definition documentsInCategory (w : world) (c : string) : nat :=
  length (List.filter (fun r => strict_eq (at_ r 4) (CStr c)) (dataRows w "Documents")).

(** The document counter of the Categories row named [c]. *)
Definition documentCountOf (w : world) (c : string) : option cell :=
  (fun r => at_ r 5) <$> find (fun r => strict_eq (at_ r 1) (CStr c)) (dataRows w "Categories").

(** The number of document rows with url [u]. *)
Definition documentsWithUrl (w : world) (u : string) : nat :=
  length (List.filter (fun r => strict_eq (at_ r 2) (CStr u)) (dataRows w "Documents")).

(** ** A sample deployment *)

Definition sampleRuntime : runtime :=
  Runtime (fun n => 5000000 + Z.of_nat n) (fun _ => "k3x9q") (fun _ => None)
          (fun _ => "date") (fun _ => None)
          (fun a b => match String.compare a b with Lt => -1 | Eq => 0 | Gt => 1 end).

(** Modelled from the spec: the setup that writes the header rows is not
    part of the source.  The Documents header has the names the script looks
    up or reads ([DocumentName], [Category], [FileType], [Tags], [DateAdded],
    [LastModified], [Status], and the field names of [addDocument]) in the
    order of the row [addDocument] appends; [DocID] and [AddedBy] stand for
    the two columns the script never names.  The headers of the other
    sheets are never looked up by name. *)
Definition documentsHeader : row :=
  map CStr ["DocID"; "DocumentName"; "GoogleDriveURL"; "Description"; "Category";
            "FileType"; "AddedBy"; "Tags"; "DateAdded"; "LastModified"; "Status"].

Definition budgetRow : row :=
  [CStr "DOC_1"; CStr "Budget"; CStr "https://example.com/b"; CStr EmptyString;
   CStr "Finance"; CStr "Website"; CStr "ann@example.com"; CStr "finance";
   CDate 1000; CDate 1000; CStr "Active"].

Definition favoritesHeader : row :=
  map CStr ["FavoriteID"; "UserEmail"; "DocID"; "DateAdded"].

Definition bobFavorite : row :=
  [CStr "FAV_1"; CStr "bob@example.com"; CStr "DOC_1"; CDate 2000].

Definition onlineUsersHeader : row :=
  map CStr ["SessionID"; "UserEmail"; "UserName"; "LoginTime"; "LastActivity";
            "Avatar"; "Status"].

Definition bobSession : row :=
  [CStr "SES_1"; CStr "bob@example.com"; CStr "Bob"; CDate 4999000; CDate 4999500;
   CStr "B"; CStr "Online"].

Definition carolSession : row :=
  [CStr "SES_2"; CStr "carol@example.com"; CStr "Carol"; CDate 500; CDate 1000;
   CStr "C"; CStr "Online"].

Definition activityHeader : row :=
  map CStr ["ActivityID"; "UserEmail"; "UserName"; "Action"; "DocID"; "Details";
            "Timestamp"].

(** A second document with the url of the first. *)
Definition budgetCopy : documentData :=
  DocumentData (Some "Budget copy") (Some "https://example.com/b") None (Some "Finance")
               None.

(** One Finance document tagged "finance", whose counters agree with it
    and which is a favorite of Bob; Bob's session is live, Carol's was last
    active more than thirty minutes before the clock's first reading. *)
Definition sampleStore : world :=
  World (list_to_map
    [("Documents", [documentsHeader; budgetRow]);
     ("Tags",
      [map CStr ["TagID"; "TagName"; "CreatedBy"; "DateCreated"; "UsageCount"];
       [CStr "TAG_1"; CStr "finance"; CStr "ann@example.com"; CDate 500; CNum 1]]);
     ("Categories",
      [map CStr ["CategoryID"; "CategoryName"; "CreatedBy"; "DateCreated"; "Active";
                 "DocumentCount"];
       [CStr "CAT_1"; CStr "Finance"; CStr "ann@example.com"; CDate 500; CBool true;
        CNum 1]]);
     ("ActivityLog", [activityHeader]);
     ("UserFavorites", [favoritesHeader; bobFavorite]);
     ("OnlineUsers", [onlineUsersHeader; bobSession; carolSession]);
     ("Analytics",
      [map CStr ["ViewID"; "DocID"; "UserEmail"; "Timestamp"; "Source"; "DocumentName"]])])
    0.

(** A favorite row of [who] for [docId], the test [toggleFavorite] makes. *)
Definition favMatch (who docId : string) (r : row) : bool :=
  strict_eq (at_ r 1) (CStr who) && strict_eq (at_ r 2) (CStr docId).

(** Whether [docId] is a favorite of [who]: some favorite row, as the
    script reads it, is theirs. *)
Definition isFavorite (w : world) (who docId : string) : bool :=
  existsb (favMatch who docId) (dataRows w "UserFavorites").

(** No row of [rows] has its LastActivity at the time [a]. *)
Definition noneActiveAt (rt : runtime) (a : Z) (rows : list row) : Prop :=
  Forall (fun r => toTime rt (at_ r 4) <> Some a) rows.

(** The user [trackUserSession] acts for: its argument, else the signed-in
    user. *)
Definition sessionUser (who : string) (u : option user) (w : world) : user :=
  match u with
  | Some x => x
  | None => fst (getCurrentUser who w)
  end.

(** The column that [doc.key] is read from in a listed document: the last
    header cell of that name. *)
Fixpoint columnOf (rt : runtime) (headers : row) (key : string) : option nat :=
  match headers with
  | [] => None
  | c :: rest =>
      match columnOf rt rest key with
      | Some j => Some (S j)
      | None => if String.eqb (propertyKey rt c) key then Some O else None
      end
  end.

(** The document of the specification's example. *)
Definition q1Url : string := "https://docs.google.com/document/d/abc".

Definition q1Report : documentData :=
  DocumentData (Some "Q1 Report") (Some q1Url) None (Some "Finance") None.

(** [keeps k m]: running [m] leaves the sheet named [k] as it is. *)
Definition keeps {A} (k : string) (m : M A) : Prop :=
  forall w, sheets (snd (m w)) !! k = sheets w !! k.

(** The state of a counter sheet, [sh] at the start and [cur] now, while
    the names [done] have been handled: the sheet has kept its size and its
    first row, every name cell reads as at the start, and the counter (cell
    [j]) of the row found for a name has been set from the values read at
    the start if the name has been handled, and is as it was if not. *)
Definition countersSet (j : nat) (delta : Z) (sh : sheet) (done : list string) (cur : sheet) : Prop :=
  let data := Sheet.getValues sh in
  length cur = length sh /\ width cur = width sh /\ hd [] cur = hd [] sh
  /\ (forall i, at_ (nth i (Sheet.getValues cur) []) 1 = at_ (nth i data []) 1)
  /\ (forall t i, findIndex (fun r => strict_eq (at_ r 1) (CStr t)) data = Some (S i) ->
        at_ (nth (S i) (Sheet.getValues cur) []) j
        = if existsb (String.eqb t) done
          then CNum (Z.max 0 (parseIntOr0 (at_ (nth (S i) data []) j) + delta))
          else at_ (nth (S i) data []) j).


(** The sheet [k] moves along [R] in every run of [m]: [R] relates its
    contents before to its contents after. *)
Definition evolves {A} (R : option sheet -> option sheet -> Prop) (k : string) (m : M A) : Prop :=
  forall w, R (sheets w !! k) (sheets (snd (m w)) !! k).

(** A sheet that only grows at its end. *)
Definition appendedTo (before after : option sheet) : Prop :=
  match before, after with
  | Some old, Some new => exists added, new = old ++ added
  | None, None => True
  | _, _ => False
  end.

(** A sheet that keeps its number of rows. *)
Definition sameRows (before after : option sheet) : Prop :=
  length <$> before = length <$> after.


(** A filter list lets the value [v] through: an absent or empty list lets
    every value through, any other list the values it holds. *)
Definition allowedBy (allowed : option (list cell)) (v : cell) : Prop :=
  match allowed with
  | None | Some [] => True
  | Some l => exists x, In x l /\ strict_eq x v = true
  end.


(** A spreadsheet in which no sheet has been created. *)
Definition emptySpreadsheet : world := World ∅ 0.

(** The sample deployment before its Documents sheet got a header row. *)
Definition unpreparedStore : world :=
  World (<["Documents" := []]> (sheets sampleStore)) 0.

(** Ann, as [getCurrentUser] would build her. *)
Definition ann : user := User true "ann@example.com" "Ann" (CStr "A").


(** * Properties *)

(** ** File-type inference *)

(** C9: [detectFileType] classifies every url into one of the eleven file
    types, by the ordered table of substring patterns with the first match
    winning; an absent or empty url is "Other", and a url that matches no
    pattern is "Website". *)
Theorem detectFileType_first_match (url : option string) :
  detectFileType url = classifyByTable url
  /\ In (detectFileType url) fileTypeNames
  /\ ((url = None \/ url = Some EmptyString) -> detectFileType url = "Other")
  /\ (forall u, url = Some u -> u <> EmptyString ->
        firstMatch fileTypePatterns u = None -> detectFileType url = "Website").
Proof.
  assert (Heq : detectFileType url = classifyByTable url).
  { destruct url as [[|c u]|]; try reflexivity.
    unfold detectFileType, classifyByTable, fileTypePatterns, firstMatch.
    generalize (String c u). intros s.
    repeat match goal with
           | |- context [Js.includes s ?p] => destruct (Js.includes s p); simpl
           end; reflexivity. }
  split; [exact Heq|]. split; [|split].
  - rewrite Heq. unfold fileTypeNames.
    destruct url as [[|c u]|];
      [do 10 right; left; reflexivity | | do 10 right; left; reflexivity].
    unfold classifyByTable, fileTypePatterns, firstMatch.
    generalize (String c u). intros s.
    repeat match goal with
           | |- context [Js.includes s ?p] => destruct (Js.includes s p); simpl
           end.
    all: repeat (first [left; reflexivity | right]).
  - intros [-> | ->]; reflexivity.
  - intros u -> Hne Hnone. rewrite Heq. destruct u; [congruence|].
    unfold classifyByTable. rewrite Hnone. reflexivity.
Qed.

(** ** Counters *)

(** C1: archiving a document leaves its Tags string as it is and still
    lowers the counters of its tags.  On the sample store the tag "finance"
    is listed by one document and counted once; after [archiveDocument] the
    document still lists it and the counter reads 0. *)
Theorem archiveDocument_lowers_tag_count :
  let out := archiveDocument sampleRuntime "ann@example.com" "DOC_1" sampleStore in
  (documentsWithTag sampleStore "finance" = 1%nat
   /\ usageCountOf sampleStore "finance" = Some (CNum 1))
  /\ fst out = AsJson (okMessage "Document updated successfully")
  /\ map tagsOfRow (dataRows (snd out) "Documents") = [["finance"]]
  /\ documentsWithTag (snd out) "finance" = 1%nat
  /\ usageCountOf (snd out) "finance" = Some (CNum 0).
Proof. vm_compute. repeat split. Qed.

(** C2: an update that sets Category to the empty string writes the cell
    and adjusts no counter.  On the sample store the Finance counter stays
    at 1 while no document row is in Finance any more. *)
Theorem updateDocument_empty_category_keeps_count :
  let out := updateDocument sampleRuntime "ann@example.com" "DOC_1"
               [("Category", CStr EmptyString)] sampleStore in
  (documentsInCategory sampleStore "Finance" = 1%nat
   /\ documentCountOf sampleStore "Finance" = Some (CNum 1))
  /\ fst out = AsJson (okMessage "Document updated successfully")
  /\ map (fun r => at_ r 4) (dataRows (snd out) "Documents") = [CStr EmptyString]
  /\ documentsInCategory (snd out) "Finance" = 0%nat
  /\ documentCountOf (snd out) "Finance" = Some (CNum 1).
Proof. vm_compute. repeat split. Qed.

(** ** The bootstrap read *)

(** C4: [getOnlineUsers] returns JSON text, so [getInitialData] reads no
    [users] from it.  On the sample store the online-users read lists Bob's
    session and the bootstrap response lists nobody. *)
Theorem getInitialData_drops_online_users :
  (JSON_parse (fst (getOnlineUsers sampleRuntime sampleStore)) ≫= payload)
    = Some [userOfRow bobSession]
  /\ id_onlineUsers <$>
       (JSON_parse (fst (getInitialData sampleRuntime "ann@example.com" sampleStore))
          ≫= payload)
     = Some [].
Proof. vm_compute. split; reflexivity. Qed.

(** ** Running the script: basic facts *)

Section Facts.

Variable rt : runtime.

Lemma bind_run {A B} (m : M A) (k : A -> M B) (w : world) :
  bind m k w = k (fst (m w)) (snd (m w)).
Proof. unfold bind. destruct (m w). reflexivity. Qed.

Lemma getOrAssignUserAvatar_world (e : string) (w : world) :
  snd (getOrAssignUserAvatar e w) = w.
Proof.
  unfold getOrAssignUserAvatar. rewrite bind_run. simpl.
  match goal with |- context [match ?x with Some _ => _ | None => _ end w] => destruct x end;
    reflexivity.
Qed.

Lemma getCurrentUser_world (who : string) (w : world) :
  snd (getCurrentUser who w) = w.
Proof.
  unfold getCurrentUser. destruct (String.eqb who EmptyString); [reflexivity|].
  rewrite bind_run. simpl. apply getOrAssignUserAvatar_world.
Qed.

Lemma getCurrentUser_signed_in (who : string) (w : world) :
  who <> EmptyString ->
  isSignedIn (fst (getCurrentUser who w)) = true
  /\ email (fst (getCurrentUser who w)) = who.
Proof.
  intros Hwho. unfold getCurrentUser.
  destruct (String.eqb_spec who EmptyString) as [|_]; [contradiction|].
  rewrite bind_run. simpl. split; reflexivity.
Qed.

Lemma getCurrentUser_not_signed_in (w : world) :
  getCurrentUser EmptyString w = (notSignedIn, w).
Proof. reflexivity. Qed.

Lemma strict_eq_CStr (c : cell) (s : string) :
  strict_eq c (CStr s) = true <-> c = CStr s.
Proof.
  destruct c; simpl; split; try discriminate; intros H.
  - apply String.eqb_eq in H. congruence.
  - injection H as ->. apply String.eqb_refl.
Qed.

Lemma existsb_elem {A} (p : A -> bool) (l : list A) (x : A) :
  In x l -> p x = true -> existsb p l = true.
Proof. intros Hin Hp. apply existsb_exists. exists x. split; assumption. Qed.

End Facts.

(** [getOnlineUsers] answers with JSON text on every path. *)
Lemma getOnlineUsers_is_text (rt : runtime) (w : world) :
  exists r, fst (getOnlineUsers rt w) = AsJson r.
Proof.
  unfold getOnlineUsers. rewrite bind_run. cbn [getSheetByName fst snd].
  destruct (sheets w !! "OnlineUsers") as [sh|]; [|eexists; reflexivity].
  destruct (Sheet.getLastRow sh <=? 1)%nat; [eexists; reflexivity|].
  rewrite !bind_run. eexists. reflexivity.
Qed.

(** For every signed-in user and every store the bootstrap response is a
    success whose [onlineUsers] is empty. *)
Lemma getInitialData_onlineUsers_nil (rt : runtime) (who : string) (w : world) :
  who <> EmptyString ->
  exists d, fst (getInitialData rt who w) = AsJson (okWith d) /\ id_onlineUsers d = [].
Proof.
  intros Hwho. unfold getInitialData. rewrite bind_run, getCurrentUser_world.
  destruct (getCurrentUser_signed_in who w Hwho) as [-> _]. cbn [negb].
  rewrite !bind_run. cbn [fst ret]. eexists. split; [reflexivity|].
  cbn [id_onlineUsers].
  match goal with |- context [getOnlineUsers rt ?W] =>
    destruct (getOnlineUsers_is_text rt W) as [r ->] end.
  reflexivity.
Qed.

(** ** Which sheets a function writes *)

Section Frame.

Variable rt : runtime.
Variable k : string.

Lemma keeps_ret {A} (a : A) : keeps k (ret a).
Proof. intros w. reflexivity. Qed.

Lemma keeps_bind {A B} (m : M A) (f : A -> M B) :
  keeps k m -> (forall a, keeps k (f a)) -> keeps k (bind m f).
Proof. intros Hm Hf w. rewrite bind_run, Hf, Hm. reflexivity. Qed.

Lemma keeps_getSheetByName (name : string) : keeps k (getSheetByName name).
Proof. intros w. reflexivity. Qed.

Lemma keeps_now : keeps k (now rt).
Proof. intros w. reflexivity. Qed.

Lemma keeps_randomSuffix : keeps k (randomSuffix rt).
Proof. intros w. reflexivity. Qed.

Lemma keeps_onSheet (name : string) (f : sheet -> sheet) :
  name <> k -> keeps k (onSheet name f).
Proof. intros Hne w. simpl. apply lookup_alter_ne. exact Hne. Qed.

Lemma keeps_forEach {A} (l : list A) (f : A -> M unit) :
  (forall x, keeps k (f x)) -> keeps k (forEach l f).
Proof.
  intros Hf. induction l as [|x l IH]; simpl.
  - apply keeps_ret.
  - apply keeps_bind; [apply Hf | intros _; exact IH].
Qed.

Lemma keeps_generateId (prefix : string) : keeps k (generateId rt prefix).
Proof. intros w. reflexivity. Qed.

Lemma keeps_getCurrentUser (who : string) : keeps k (getCurrentUser who).
Proof. intros w. rewrite getCurrentUser_world. reflexivity. Qed.

End Frame.

(** Splits a [keeps] goal along the binds, branches and loops of the
    function. *)
Ltac frame :=
  repeat first
    [ apply keeps_ret
    | apply keeps_getSheetByName
    | apply keeps_now
    | apply keeps_randomSuffix
    | apply keeps_generateId
    | apply keeps_getCurrentUser
    | apply keeps_onSheet; discriminate
    | apply keeps_bind; [|intros ?]
    | apply keeps_forEach; intros ?
    | match goal with
      | |- keeps _ (match ?x with _ => _ end) => destruct x
      | |- keeps _ (if ?x then _ else _) => destruct x
      end ].

Section FrameOps.

Variable rt : runtime.

Lemma keeps_logActivity (k : string) (u : user) (a d det : string) :
  k <> "ActivityLog" -> keeps k (logActivity rt u a d det).
Proof.
  intros Hk. unfold logActivity. frame. apply keeps_onSheet. congruence.
Qed.

Lemma keeps_updateCategoryCount (k : string) (c : cell) (delta : Z) :
  k <> "Categories" -> keeps k (updateCategoryCount c delta).
Proof.
  intros Hk. unfold updateCategoryCount. frame. apply keeps_onSheet. congruence.
Qed.

Lemma keeps_updateTagCounts (k : string) (c : cell) (delta : Z) :
  k <> "Tags" -> keeps k (updateTagCounts c delta).
Proof.
  intros Hk. unfold updateTagCounts. frame. apply keeps_onSheet. congruence.
Qed.

Lemma keeps_removeFromAllFavorites (k : string) (docId : string) :
  k <> "UserFavorites" -> keeps k (removeFromAllFavorites docId).
Proof.
  intros Hk. unfold removeFromAllFavorites. frame. apply keeps_onSheet. congruence.
Qed.

Lemma keeps_cleanupExpiredSessions (k name : string) :
  k <> name -> keeps k (cleanupExpiredSessions rt name).
Proof.
  intros Hk. unfold cleanupExpiredSessions. frame. apply keeps_onSheet. congruence.
Qed.

(** [logActivity] appends one row to an existing activity log: the row
    names the user, the action and the document. *)
Lemma logActivity_appends (u : user) (a d det : string) (w : world) (log : sheet) :
  sheets w !! "ActivityLog" = Some log ->
  exists e,
    sheets (snd (logActivity rt u a d det w)) !! "ActivityLog" = Some (log ++ [e])
    /\ at_ e 1 = CStr (email u) /\ at_ e 3 = CStr a /\ at_ e 4 = CStr d
    /\ at_ e 5 = CStr det.
Proof.
  intros Hlog. unfold logActivity. rewrite bind_run. simpl. rewrite Hlog.
  rewrite bind_run. rewrite bind_run. simpl.
  eexists. split.
  - rewrite lookup_alter_eq. rewrite Hlog. reflexivity.
  - repeat split.
Qed.

(** Without an ActivityLog sheet nothing is logged and nothing is
    written. *)
Lemma logActivity_no_sheet (u : user) (a d det : string) (w : world) :
  sheets w !! "ActivityLog" = None -> logActivity rt u a d det w = (tt, w).
Proof. intros Hlog. unfold logActivity. rewrite bind_run. simpl. rewrite Hlog. reflexivity. Qed.

End FrameOps.

(** ** Duplicate urls *)

(** C3: when a document row of any status already holds the url, an add by
    a signed-in user with the required fields is answered with
    [success: false] and the duplicate-url error, and the whole store, every
    sheet of it, is as before; the number of rows with that url has not
    changed. *)
Theorem addDocument_duplicate_url (rt : runtime) (who u : string) (d : documentData)
    (w : world) (sh : sheet) (r : row) :
  who <> EmptyString ->
  present (DocumentName d) = true ->
  present (Category d) = true ->
  GoogleDriveURL d = Some u -> u <> EmptyString ->
  sheets w !! "Documents" = Some sh ->
  In r (drop 1 sh) -> nth 2 r (CStr EmptyString) = CStr u ->
  addDocument rt who d w
    = (AsJson (failure "A document with this URL already exists"), w)
  /\ documentsWithUrl (snd (addDocument rt who d w)) u = documentsWithUrl w u.
Proof.
  intros Hwho Hname Hcat Hurl Hu Hsh Hin Hr.
  assert (Hrun : addDocument rt who d w
                 = (AsJson (failure "A document with this URL already exists"), w)).
  { unfold addDocument. rewrite bind_run, getCurrentUser_world.
    destruct (getCurrentUser_signed_in who w Hwho) as [-> _]. simpl.
    rewrite Hname, Hcat, Hurl. simpl.
    destruct u as [|c u']; [congruence|]. simpl.
    rewrite bind_run. unfold isDuplicateURL. rewrite bind_run. simpl. rewrite Hsh.
    assert (Hlen : (Sheet.getLastRow sh <=? 1)%nat = false).
    { apply Nat.leb_gt. unfold Sheet.getLastRow.
      destruct sh as [|h [|x rest]]; simpl in *; try contradiction; lia. }
    rewrite Hlen. simpl.
    rewrite (existsb_elem _ _ (CStr (String c u'))); [reflexivity | | ].
    - apply in_map_iff. exists r. split; assumption.
    - apply strict_eq_CStr. reflexivity. }
  split; [exact Hrun|]. rewrite Hrun. reflexivity.
Qed.

(** ** Archiving and restoring *)

Lemma keeps_lookup {A} (k : string) (m : M A) (w : world) (v : option sheet) :
  keeps k m -> sheets w !! k = v -> sheets (snd (m w)) !! k = v.
Proof. intros Hk Hv. rewrite Hk. exact Hv. Qed.

Ltac frames :=
  repeat first
    [ apply keeps_logActivity; discriminate
    | apply keeps_updateCategoryCount; discriminate
    | apply keeps_updateTagCounts; discriminate
    | apply keeps_removeFromAllFavorites; discriminate
    | apply keeps_cleanupExpiredSessions; discriminate
    | progress frame ].

(** Reads a sheet through the steps that do not write it. *)
Ltac kept := repeat (apply keeps_lookup; [solve [frames] |]).

(** Runs the [logActivity] in the goal on the log found in the context. *)
Ltac log_step :=
  match goal with
  | |- context [logActivity ?rt ?u ?a ?d ?det ?W] =>
      let e := fresh "e" in
      let He := fresh "He" in
      edestruct (logActivity_appends rt u a d det W) as (e & He & _ & ? & ? & _);
      [ first [eassumption | kept; eassumption] | ]
  end.

(** Closes a goal about the activity log with the entries at hand. *)
Ltac log_done :=
  repeat eexists;
  [ match goal with
    | H : sheets _ !! "ActivityLog" = Some _ |- _ => rewrite H, <- ?app_assoc; reflexivity
    end
  | assumption .. ].

Section Status.

Variable rt : runtime.

(** An update of the Status field alone: it succeeds, and logs one
    "Updated Document" entry exactly when the stored status differs. *)
Lemma updateDocument_status (who docId s : string) (w : world) (sh log : sheet)
    (rowIndex cs cl : nat) :
  who <> EmptyString ->
  sheets w !! "Documents" = Some sh ->
  sheets w !! "ActivityLog" = Some log ->
  findIndex (fun r => strict_eq (at_ r 0) (CStr docId)) (Sheet.getValues sh) = Some rowIndex ->
  indexOf "Status" (hd [] (Sheet.getValues sh)) = Some cs ->
  indexOf "LastModified" (hd [] (Sheet.getValues sh)) = Some cl ->
  let out := updateDocument rt who docId [("Status", CStr s)] w in
  let current := at_ (nth rowIndex (Sheet.getValues sh) []) cs in
  fst out = AsJson (okMessage "Document updated successfully")
  /\ (strict_eq current (CStr s) = false ->
      exists e, sheets (snd out) !! "ActivityLog" = Some (log ++ [e])
                /\ at_ e 3 = CStr "Updated Document" /\ at_ e 4 = CStr docId)
  /\ (strict_eq current (CStr s) = true ->
      sheets (snd out) !! "ActivityLog" = Some log).
Proof.
  intros Hwho Hsh Hlog Hrow Hcs Hcl out current. subst out.
  unfold updateDocument.
  rewrite bind_run, getCurrentUser_world.
  destruct (getCurrentUser_signed_in who w Hwho) as [-> _].
  cbn [negb]. rewrite bind_run. cbn [getSheetByName fst snd]. rewrite Hsh.
  rewrite Hrow. rewrite Hcl.
  set (data := Sheet.getValues sh) in *.
  change (lookupField [("Status", CStr s)] "Category") with CUndef.
  change (lookupField [("Status", CStr s)] "Tags") with CUndef.
  cbn [truthy andb List.filter map fst snd forEach].
  rewrite Hcs. fold current.
  change (strict_eq (CStr s) CUndef) with false. cbn [negb andb].
  rewrite !bind_run. cbn [fst snd ret].
  split; [reflexivity|]. split; intros Hcur; rewrite Hcur; cbn [negb].
  - change (bool_decide (is_Some (Some cs))) with true.
    cbn [length Nat.ltb Nat.leb map].
    log_step. log_done.
  - change (bool_decide (is_Some None)) with false.
    cbn [map length Nat.ltb Nat.leb ret snd].
    kept. exact Hlog.
Qed.

End Status.

(** Proves the statement of a status wrapper ([archiveDocument],
    [restoreDocument]) from [updateDocument_status]. *)
Ltac status_wrapper rt who docId w Hwho Hsh Hlog Hrow Hcs Hcl s :=
  rewrite bind_run, getCurrentUser_world; rewrite bind_run;
  destruct (updateDocument_status rt who docId s w _ _ _ _ _ Hwho Hsh Hlog Hrow Hcs Hcl)
    as (Hres & Hchanged & Hsame);
  rewrite Hres; cbn [JSON_parse okMessage success];
  rewrite !bind_run; cbn [fst snd ret];
  split; [reflexivity|]; split; intros Hcur;
  [ destruct (Hchanged Hcur) as (e1 & He1 & Ha1 & _);
    log_step; log_done
  | specialize (Hsame Hcur);
    log_step; log_done ].

(** C10: for the row the script finds for [docId], [archiveDocument]
    succeeds; when the stored Status is not yet "Archived" it appends two
    activity entries, "Updated Document" then "Archived Document", and when
    it is already "Archived" it appends the single entry "Archived
    Document".  [restoreDocument] does the same with "Active" and
    "Restored Document". *)
Theorem archive_restore_activity (rt : runtime) (who docId : string) (w : world)
    (sh log : sheet) (rowIndex cs cl : nat) :
  who <> EmptyString ->
  sheets w !! "Documents" = Some sh ->
  sheets w !! "ActivityLog" = Some log ->
  findIndex (fun r => strict_eq (at_ r 0) (CStr docId)) (Sheet.getValues sh) = Some rowIndex ->
  indexOf "Status" (hd [] (Sheet.getValues sh)) = Some cs ->
  indexOf "LastModified" (hd [] (Sheet.getValues sh)) = Some cl ->
  let current := at_ (nth rowIndex (Sheet.getValues sh) []) cs in
  (let out := archiveDocument rt who docId w in
   fst out = AsJson (okMessage "Document updated successfully")
   /\ (strict_eq current (CStr "Archived") = false ->
       exists e1 e2,
         sheets (snd out) !! "ActivityLog" = Some (log ++ [e1; e2])
         /\ at_ e1 3 = CStr "Updated Document" /\ at_ e2 3 = CStr "Archived Document")
   /\ (strict_eq current (CStr "Archived") = true ->
       exists e,
         sheets (snd out) !! "ActivityLog" = Some (log ++ [e])
         /\ at_ e 3 = CStr "Archived Document"))
  /\ (let out := restoreDocument rt who docId w in
      fst out = AsJson (okMessage "Document updated successfully")
      /\ (strict_eq current (CStr "Active") = false ->
          exists e1 e2,
            sheets (snd out) !! "ActivityLog" = Some (log ++ [e1; e2])
            /\ at_ e1 3 = CStr "Updated Document" /\ at_ e2 3 = CStr "Restored Document")
      /\ (strict_eq current (CStr "Active") = true ->
          exists e,
            sheets (snd out) !! "ActivityLog" = Some (log ++ [e])
            /\ at_ e 3 = CStr "Restored Document")).
Proof.
  intros Hwho Hsh Hlog Hrow Hcs Hcl current. split.
  - unfold archiveDocument.
    status_wrapper rt who docId w Hwho Hsh Hlog Hrow Hcs Hcl "Archived".
  - unfold restoreDocument.
    status_wrapper rt who docId w Hwho Hsh Hlog Hrow Hcs Hcl "Active".
Qed.

(** ** Deleting rows from the bottom up *)

Section Rows.

Context {A : Type}.

(** Deleting, from the bottom up, the positions of a segment that satisfy
    a test leaves the segment filtered. *)
Lemma delete_from_bottom (q : A -> bool) (qi : nat -> bool) (d : A) (suf : list A) :
  forall (pre post : list A),
  (forall j, (j < length suf)%nat -> qi (length pre + j)%nat = q (nth j suf d)) ->
  fold_left (fun s i => delete i s)
            (List.filter qi (rev (seq (length pre) (length suf))))
            (pre ++ suf ++ post)
  = pre ++ List.filter (fun x => negb (q x)) suf ++ post.
Proof.
  induction suf as [|x suf' IH] using rev_ind; intros pre post Hq.
  - reflexivity.
  - rewrite length_app in *. simpl length in *.
    rewrite Nat.add_1_r, seq_S, rev_unit. simpl List.filter.
    assert (Hx : qi (length pre + length suf')%nat = q x).
    { rewrite Hq by lia. rewrite app_nth2 by lia. rewrite Nat.sub_diag. reflexivity. }
    assert (Hq' : forall j, (j < length suf')%nat ->
                            qi (length pre + j)%nat = q (nth j suf' d)).
    { intros j Hj. rewrite Hq by lia. rewrite app_nth1 by lia. reflexivity. }
    rewrite Hx, List.filter_app. simpl List.filter.
    destruct (q x) eqn:Hqx; simpl.
    + replace (pre ++ (suf' ++ [x]) ++ post) with ((pre ++ suf') ++ x :: post)
        by (rewrite <- !app_assoc; reflexivity).
      replace (length pre + length suf')%nat with (length (pre ++ suf'))
        by (rewrite length_app; reflexivity).
      rewrite delete_middle. rewrite <- app_assoc.
      rewrite IH by exact Hq'. rewrite app_nil_r. reflexivity.
    + replace (pre ++ (suf' ++ [x]) ++ post) with (pre ++ suf' ++ (x :: post))
        by (rewrite <- !app_assoc; reflexivity).
      rewrite IH by exact Hq'. rewrite <- !app_assoc. reflexivity.
Qed.

End Rows.

Lemma length_pad (w : nat) (r : row) : length (pad w r) = Nat.max w (length r).
Proof. unfold pad. rewrite length_app, repeat_length. lia. Qed.

(** A cell of a padded row: the stored cell, else an empty cell inside the
    width, else nothing. *)
Lemma at_pad (w : nat) (r : row) (k : nat) :
  at_ (pad w r) k
  = if (k <? length r)%nat then at_ r k
    else if (k <? w)%nat then CStr EmptyString else CUndef.
Proof.
  unfold at_, pad. destruct (Nat.ltb_spec k (length r)) as [Hk | Hk].
  - apply app_nth1. exact Hk.
  - rewrite app_nth2 by lia. destruct (Nat.ltb_spec k w) as [Hw | Hw].
    + apply nth_repeat_lt. lia.
    + apply nth_overflow. rewrite repeat_length. lia.
Qed.

Lemma getValues_cons (h : row) (rows : list row) :
  Sheet.getValues (h :: rows) = map (pad (width (h :: rows))) (h :: rows).
Proof. reflexivity. Qed.

Lemma length_getValues (sh : sheet) :
  sh <> [] -> length (Sheet.getValues sh) = length sh.
Proof. destruct sh; [congruence|]. intros _. rewrite getValues_cons. apply length_map. Qed.

(** The rows a bottom-up deletion loop removes: the data rows that pass
    the test as they are read. *)
Lemma deleteRows_filter (p : row -> bool) (h : row) (rows : list row) :
  fold_left (fun s n => Sheet.deleteRow n s)
            (rowsFromBottom p (Sheet.getValues (h :: rows))) (h :: rows)
  = h :: List.filter (fun r => negb (p (pad (width (h :: rows)) r))) rows.
Proof.
  unfold rowsFromBottom. rewrite length_getValues by discriminate.
  set (W := width (h :: rows)).
  assert (Hfold : forall (l : list nat) (s : sheet),
            fold_left (fun s n => Sheet.deleteRow n s) (map S l) s
            = fold_left (fun s i => delete i s) l s).
  { induction l as [|i l IH]; intros s; simpl; [reflexivity | apply IH]. }
  rewrite Hfold.
  replace (length (h :: rows) - 1)%nat with (length rows) by (simpl; lia).
  pose proof (delete_from_bottom (fun r => p (pad W r))
                (fun i => p (nth i (Sheet.getValues (h :: rows)) []))
                [] rows [h] []) as H.
  simpl length in H. rewrite !app_nil_r in H. simpl app in H.
  apply H.
  intros j Hj. rewrite getValues_cons. fold W. simpl.
  rewrite (nth_indep _ [] (pad W [])) by (rewrite length_map; lia).
  rewrite map_nth. reflexivity.
Qed.

Lemma forEach_onSheet {A} (name : string) (g : A -> sheet -> sheet) (l : list A) :
  forall w,
  sheets (snd (forEach l (fun x => onSheet name (g x)) w)) !! name
  = (fun s => fold_left (fun s x => g x s) l s) <$> sheets w !! name.
Proof.
  induction l as [|x l IH]; intros w; simpl.
  - destruct (sheets w !! name); reflexivity.
  - rewrite bind_run, IH. simpl. rewrite lookup_alter_eq.
    destruct (sheets w !! name); reflexivity.
Qed.

Lemma width_cons (r : row) (sh : sheet) : width (r :: sh) = Nat.max (length r) (width sh).
Proof. reflexivity. Qed.

Lemma width_filter (f : row -> bool) (rows : list row) :
  (width (List.filter f rows) <= width rows)%nat.
Proof.
  induction rows as [|r rows IH]; [reflexivity|]. simpl List.filter.
  destruct (f r); rewrite ?width_cons; lia.
Qed.

Lemma width_cons_filter (f : row -> bool) (h : row) (rows : list row) :
  (width (h :: List.filter f rows) <= width (h :: rows))%nat.
Proof. rewrite !width_cons. pose proof (width_filter f rows). lia. Qed.

(** Narrowing the data range cannot make a cell equal to a string it did
    not equal before. *)
Lemma at_pad_narrow (w w' : nat) (r : row) (k : nat) (s : string) :
  (w' <= w)%nat ->
  strict_eq (at_ (pad w r) k) (CStr s) = false ->
  strict_eq (at_ (pad w' r) k) (CStr s) = false.
Proof.
  intros Hw. rewrite !at_pad. destruct (k <? length r)%nat; [auto|].
  destruct (Nat.ltb_spec k w'); [|reflexivity].
  destruct (Nat.ltb_spec k w); [auto | lia].
Qed.

Lemma dataRows_lookup (w : world) (name : string) (h : row) (rows : list row) :
  sheets w !! name = Some (h :: rows) ->
  dataRows w name = map (pad (width (h :: rows))) rows.
Proof. intros H. unfold dataRows. rewrite H. reflexivity. Qed.

(** After the cascade no favorite row names the document. *)
Lemma removeFromAllFavorites_rows (docId : string) (w : world) (r : row) :
  In r (dataRows (snd (removeFromAllFavorites docId w)) "UserFavorites") ->
  strict_eq (at_ r 2) (CStr docId) = false.
Proof.
  unfold removeFromAllFavorites. rewrite bind_run. cbn [getSheetByName fst snd].
  destruct (sheets w !! "UserFavorites") as [sh|] eqn:Hsh.
  - destruct sh as [|h rows].
    + simpl. unfold dataRows. rewrite Hsh. simpl. tauto.
    + destruct rows as [|r1 rows'].
      * simpl. unfold dataRows. rewrite Hsh. simpl. tauto.
      * change (Sheet.getLastRow (h :: r1 :: rows') <=? 1)%nat with false. cbv iota.
        set (rows := r1 :: rows') in *.
        unfold dataRows. rewrite forEach_onSheet, Hsh. cbn [fmap option_fmap option_map].
        rewrite deleteRows_filter. rewrite getValues_cons. cbn [map drop].
        intros Hin. apply in_map_iff in Hin. destruct Hin as (r0 & <- & Hin).
        apply filter_In in Hin. destruct Hin as [_ Hneg].
        apply negb_true_iff in Hneg.
        eapply at_pad_narrow; [|exact Hneg].
        apply width_cons_filter.
  - simpl. unfold dataRows. rewrite Hsh. simpl. tauto.
Qed.

Lemma dataRows_ext (w1 w2 : world) (name : string) :
  sheets w1 !! name = sheets w2 !! name -> dataRows w1 name = dataRows w2 name.
Proof. intros H. unfold dataRows. rewrite H. reflexivity. Qed.

(** The ids [getUserFavorites] lists are read off the favorite rows. *)
Lemma getUserFavorites_from_rows (who : string) (w : world) (ids : list cell) (c : cell) :
  field (fst (getUserFavorites who w)) payload = Some ids ->
  In c ids ->
  exists r, In r (dataRows w "UserFavorites") /\ at_ r 2 = c.
Proof.
  unfold getUserFavorites. rewrite bind_run, getCurrentUser_world.
  destruct (isSignedIn (fst (getCurrentUser who w))); cbn [negb]; [|discriminate].
  rewrite bind_run. cbn [getSheetByName fst snd]. unfold dataRows.
  destruct (sheets w !! "UserFavorites") as [sh|]; cbn [fst ret field okWith payload].
  - destruct (Sheet.getLastRow sh <=? 1)%nat; cbn [fst ret field okWith payload];
      intros [= <-]; [contradiction|].
    intros Hin. apply in_map_iff in Hin. destruct Hin as (r & Hr & Hin).
    apply filter_In in Hin. exists r. tauto.
  - intros [= <-]. contradiction.
Qed.

(** ** Deleting a document *)

(** C5: when the script finds a row for [docId], [deleteDocument] succeeds,
    removes that row from the Documents sheet, and leaves no favorite row
    that names the document: whoever asks afterwards, the ids
    [getUserFavorites] lists do not contain it. *)
Theorem deleteDocument_cascades (rt : runtime) (who docId : string) (w : world)
    (sh : sheet) (rowIndex : nat) :
  who <> EmptyString ->
  sheets w !! "Documents" = Some sh ->
  findIndex (fun r => strict_eq (at_ r 0) (CStr docId)) (Sheet.getValues sh) = Some rowIndex ->
  let out := deleteDocument rt who docId w in
  fst out = AsJson (okMessage "Document deleted successfully")
  /\ sheets (snd out) !! "Documents" = Some (delete rowIndex sh)
  /\ (forall r, In r (dataRows (snd out) "UserFavorites") ->
                strict_eq (at_ r 2) (CStr docId) = false)
  /\ (forall u ids, field (fst (getUserFavorites u (snd out))) payload = Some ids ->
                    ~ In (CStr docId) ids).
Proof.
  intros Hwho Hsh Hrow out. subst out. unfold deleteDocument.
  rewrite bind_run, getCurrentUser_world.
  destruct (getCurrentUser_signed_in who w Hwho) as [-> _].
  cbn [negb]. rewrite bind_run. cbn [getSheetByName fst snd]. rewrite Hsh, Hrow.
  rewrite !bind_run. cbn [fst snd ret].
  match goal with |- _ /\ _ /\ (forall r, In r (dataRows ?W _) -> _) /\ _ =>
    assert (Hrows : forall r, In r (dataRows W "UserFavorites") ->
                              strict_eq (at_ r 2) (CStr docId) = false)
  end.
  { intros r Hin. erewrite dataRows_ext in Hin.
    - eapply removeFromAllFavorites_rows. exact Hin.
    - apply keeps_logActivity. discriminate. }
  split; [reflexivity|]. split; [|split].
  - kept. cbn [onSheet snd sheets]. rewrite lookup_alter_eq, Hsh, Nat.add_1_r. reflexivity.
  - exact Hrows.
  - intros u ids Hids Hin.
    destruct (getUserFavorites_from_rows u _ ids _ Hids Hin) as (r & Hr & Hat).
    apply Hrows in Hr. rewrite Hat in Hr. simpl in Hr. rewrite String.eqb_refl in Hr.
    discriminate.
Qed.

(** ** Favorites *)

Section Find.
Context {A : Type}.

Lemma findIndex_map {B} (f : B -> A) (p : A -> bool) (l : list B) :
  findIndex p (map f l) = findIndex (fun x => p (f x)) l.
Proof. induction l as [|x l IH]; simpl; [reflexivity|]. rewrite IH. reflexivity. Qed.

Lemma findIndex_ext (p q : A -> bool) (l : list A) :
  (forall x, p x = q x) -> findIndex p l = findIndex q l.
Proof. intros H. induction l as [|x l IH]; simpl; [reflexivity|]. rewrite H, IH. reflexivity. Qed.

Lemma findIndex_None (p : A -> bool) (l : list A) :
  findIndex p l = None <-> existsb p l = false.
Proof.
  induction l as [|x l IH]; simpl; [tauto|].
  destruct (p x); simpl; [split; discriminate|].
  rewrite <- IH. destruct (findIndex p l); simpl; split; congruence.
Qed.

(** The row [findIndex] returns is the first that passes the test. *)
Lemma findIndex_Some (p : A -> bool) (l : list A) (i : nat) :
  findIndex p l = Some i ->
  exists l1 x l2, l = l1 ++ x :: l2 /\ length l1 = i /\ p x = true
                  /\ existsb p l1 = false.
Proof.
  revert i. induction l as [|y l IH]; intros i; simpl; [discriminate|].
  destruct (p y) eqn:Hy.
  - intros [= <-]. exists [], y, l. auto.
  - destruct (findIndex p l) as [j|]; simpl; [|discriminate].
    intros [= <-]. destruct (IH j eq_refl) as (l1 & x & l2 & -> & <- & Hx & Hl1).
    exists (y :: l1), x, l2. simpl. rewrite Hy, Hl1. auto.
Qed.

Lemma findIndex_app_last (p : A -> bool) (l : list A) (x : A) :
  existsb p l = false -> p x = true -> findIndex p (l ++ [x]) = Some (length l).
Proof.
  induction l as [|y l IH]; simpl; intros Hl Hx.
  - rewrite Hx. reflexivity.
  - apply orb_false_iff in Hl. destruct Hl as [-> Hl]. rewrite IH by assumption. reflexivity.
Qed.

End Find.

Lemma favMatch_pad (who docId : string) (W : nat) (r : row) :
  who <> EmptyString -> docId <> EmptyString ->
  favMatch who docId (pad W r) = favMatch who docId r.
Proof.
  intros Hw Hd. unfold favMatch. rewrite !at_pad.
  assert (Hs : forall k s, s <> EmptyString ->
            strict_eq (if (k <? length r)%nat then at_ r k
                       else if (k <? W)%nat then CStr EmptyString else CUndef) (CStr s)
            = strict_eq (at_ r k) (CStr s)).
  { intros k s Hne. destruct (Nat.ltb_spec k (length r)) as [|Hk]; [reflexivity|].
    unfold at_ at 1. rewrite nth_overflow by exact Hk.
    destruct (k <? W)%nat; simpl; [|reflexivity].
    destruct s; [congruence | reflexivity]. }
  rewrite !Hs by assumption. reflexivity.
Qed.

Section Toggle.
Variable rt : runtime.

Lemma toggleFavorite_step (who docId : string) (w : world) (h : row) (rows : list row) :
  who <> EmptyString -> docId <> EmptyString ->
  sheets w !! "UserFavorites" = Some (h :: rows) ->
  favMatch who docId h = false ->
  let out := toggleFavorite rt who docId w in
  match findIndex (favMatch who docId) rows with
  | Some i =>
      fst out = AsJson (okWith false)
      /\ sheets (snd out) !! "UserFavorites" = Some (h :: delete i rows)
  | None =>
      fst out = AsJson (okWith true)
      /\ exists id t,
           sheets (snd out) !! "UserFavorites"
           = Some (h :: rows ++ [[CStr id; CStr who; CStr docId; CDate t]])
  end.
Proof.
  intros Hwho Hdoc Hsh Hh out. subst out. unfold toggleFavorite.
  rewrite bind_run, getCurrentUser_world.
  destruct (getCurrentUser_signed_in who w Hwho) as [-> ->].
  cbn [negb]. rewrite bind_run. cbn [getSheetByName fst snd]. rewrite Hsh.
  rewrite getValues_cons.
  change (fun r : row => strict_eq (at_ r 1) (CStr who) && strict_eq (at_ r 2) (CStr docId))
    with (favMatch who docId).
  rewrite findIndex_map.
  rewrite (findIndex_ext (fun x => favMatch who docId (pad (width (h :: rows)) x))
             (favMatch who docId))
    by (intros x; apply favMatch_pad; assumption).
  cbn [findIndex]. rewrite Hh.
  destruct (findIndex (favMatch who docId) rows) as [i|]; cbn [fmap option_fmap option_map positive_index].
  - rewrite !bind_run. cbn [fst snd ret]. split; [reflexivity|].
    kept. cbn [onSheet snd sheets]. rewrite lookup_alter_eq, Hsh, Nat.add_1_r. reflexivity.
  - rewrite !bind_run. cbn [fst snd ret]. split; [reflexivity|].
    do 2 eexists. kept. cbn [onSheet snd sheets].
    rewrite lookup_alter_eq, keeps_now, keeps_generateId, Hsh. reflexivity.
Qed.
End Toggle.

Lemma existsb_map {A B} (f : A -> B) (p : B -> bool) (l : list A) :
  existsb p (map f l) = existsb (fun x => p (f x)) l.
Proof. induction l as [|x l IH]; simpl; [reflexivity|]. rewrite IH. reflexivity. Qed.

Lemma existsb_ext_eq {A} (p q : A -> bool) (l : list A) :
  (forall x, p x = q x) -> existsb p l = existsb q l.
Proof. intros H. induction l as [|x l IH]; simpl; [reflexivity|]. rewrite H, IH. reflexivity. Qed.

Lemma isFavorite_rows (w : world) (who docId : string) (h : row) (rows : list row) :
  who <> EmptyString -> docId <> EmptyString ->
  sheets w !! "UserFavorites" = Some (h :: rows) ->
  isFavorite w who docId = existsb (favMatch who docId) rows.
Proof.
  intros Hw Hd Hsh. unfold isFavorite. rewrite (dataRows_lookup _ _ _ _ Hsh), existsb_map.
  apply existsb_ext_eq. intros x. apply favMatch_pad; assumption.
Qed.

Lemma favMatch_pad3 (u d : string) (W : nat) (r : row) :
  (3 <= W)%nat -> favMatch u d (pad W r) = favMatch u d (pad 3 r).
Proof.
  intros HW. unfold favMatch. rewrite !at_pad.
  destruct (Nat.ltb_spec 1 W); [|lia]. destruct (Nat.ltb_spec 2 W); [|lia].
  reflexivity.
Qed.

Lemma isFavorite_wide (w : world) (u d : string) (h : row) (rows : list row) :
  (3 <= width (h :: rows))%nat ->
  sheets w !! "UserFavorites" = Some (h :: rows) ->
  isFavorite w u d = existsb (fun r => favMatch u d (pad 3 r)) rows.
Proof.
  intros HW Hsh. unfold isFavorite. rewrite (dataRows_lookup _ _ _ _ Hsh), existsb_map.
  apply existsb_ext_eq. intros x. apply favMatch_pad3. exact HW.
Qed.

Lemma width_In (r : row) (sh : sheet) : In r sh -> (length r <= width sh)%nat.
Proof.
  induction sh as [|x sh IH]; simpl; [tauto|].
  intros [-> | Hin]; [lia | specialize (IH Hin); lia].
Qed.

(** A row that is a favorite of [who] for [docId] answers every other
    query by comparing the two names. *)
Lemma favMatch_other (who docId u d : string) (x : row) :
  favMatch who docId x = true ->
  (3 <= length x)%nat
  /\ favMatch u d (pad 3 x) = String.eqb who u && String.eqb docId d.
Proof.
  unfold favMatch. intros H. apply andb_true_iff in H. destruct H as [H1 H2].
  apply strict_eq_CStr in H1, H2.
  assert (Hlen : (3 <= length x)%nat).
  { destruct (Nat.le_gt_cases 3 (length x)) as [|Hlt]; [assumption|].
    unfold at_ in H2. rewrite nth_overflow in H2 by lia. discriminate. }
  split; [exact Hlen|]. rewrite !at_pad.
  destruct (Nat.ltb_spec 1 (length x)); [|lia]. destruct (Nat.ltb_spec 2 (length x)); [|lia].
  rewrite H1, H2. reflexivity.
Qed.

Lemma findIndex_unique {A} (p : A -> bool) (l1 l2 : list A) (x : A) :
  p x = true -> existsb p l1 = false ->
  (length (List.filter p (l1 ++ x :: l2)) <= 1)%nat ->
  existsb p (l1 ++ l2) = false.
Proof.
  intros Hx Hl1 Hcount. rewrite existsb_app, Hl1. simpl.
  rewrite List.filter_app, length_app in Hcount. simpl in Hcount. rewrite Hx in Hcount.
  simpl in Hcount.
  destruct (existsb p l2) eqn:Hl2; [|reflexivity].
  apply existsb_exists in Hl2. destruct Hl2 as (y & Hin & Hy).
  assert (In y (List.filter p l2)) by (apply filter_In; tauto).
  destruct (List.filter p l2); [contradiction | simpl in Hcount; lia].
Qed.

(** C7: for a signed-in user and a document id, on a favorites sheet whose
    header is not itself a row of theirs: when a favorite row for the pair
    exists [toggleFavorite] deletes it and answers [favorited: false],
    otherwise it appends one and answers [favorited: true].  From
    not-favorited, two calls answer true then false and restore the sheet;
    and when the pair has at most one row, two calls leave every user's
    favorites as they were. *)
Theorem toggleFavorite_twice (rt : runtime) (who docId : string) (w : world)
    (h : row) (rows : list row) :
  who <> EmptyString -> docId <> EmptyString ->
  sheets w !! "UserFavorites" = Some (h :: rows) ->
  favMatch who docId h = false ->
  let out1 := toggleFavorite rt who docId w in
  let out2 := toggleFavorite rt who docId (snd out1) in
  (isFavorite w who docId = true ->
     fst out1 = AsJson (okWith false)
     /\ exists i r, rows !! i = Some r /\ favMatch who docId r = true
          /\ sheets (snd out1) !! "UserFavorites" = Some (h :: delete i rows))
  /\ (isFavorite w who docId = false ->
        fst out1 = AsJson (okWith true)
        /\ (exists id t, sheets (snd out1) !! "UserFavorites"
                         = Some (h :: rows ++ [[CStr id; CStr who; CStr docId; CDate t]]))
        /\ fst out2 = AsJson (okWith false)
        /\ sheets (snd out2) !! "UserFavorites" = sheets w !! "UserFavorites")
  /\ ((length (List.filter (favMatch who docId) rows) <= 1)%nat ->
        (isFavorite w who docId = true -> fst out2 = AsJson (okWith true))
        /\ forall u d, isFavorite (snd out2) u d = isFavorite w u d).
Proof.
  intros Hwho Hdoc Hsh Hh out1 out2.
  pose proof (toggleFavorite_step rt who docId w h rows Hwho Hdoc Hsh Hh) as H1.
  cbv zeta in H1. fold out1 in H1.
  rewrite (isFavorite_rows w who docId h rows Hwho Hdoc Hsh).
  destruct (findIndex (favMatch who docId) rows) as [i|] eqn:Hfind.
  - destruct H1 as [Hres1 Hsh1].
    destruct (findIndex_Some _ _ _ Hfind) as (l1 & x & l2 & Hrows & Hlen & Hx & Hl1).
    assert (Hex : existsb (favMatch who docId) rows = true).
    { apply existsb_exists. exists x. split; [|exact Hx]. rewrite Hrows.
      apply in_or_app. right. left. reflexivity. }
    rewrite Hex.
    assert (Hdel : delete i rows = l1 ++ l2).
    { rewrite Hrows, <- Hlen. apply delete_middle. }
    split; [|split].
    + intros _. split; [exact Hres1|]. exists i, x. repeat split; try assumption.
      rewrite Hrows, <- Hlen. apply list_lookup_middle. reflexivity.
    + discriminate.
    + intros Hcount.
      assert (Hnone : existsb (favMatch who docId) (l1 ++ l2) = false).
      { apply (findIndex_unique _ _ _ x); try assumption. rewrite <- Hrows. exact Hcount. }
      rewrite Hdel in Hsh1.
      pose proof (toggleFavorite_step rt who docId (snd out1) h (l1 ++ l2)
                    Hwho Hdoc Hsh1 Hh) as H2.
      cbv zeta in H2. fold out2 in H2.
      apply findIndex_None in Hnone. rewrite Hnone in H2.
      destruct H2 as (Hres2 & id & t & Hsh2).
      split; [intros _; exact Hres2|]. intros u d.
      destruct (favMatch_other who docId u d x Hx) as [Hlx Hgx].
      assert (HW : (3 <= width (h :: rows))%nat).
      { pose proof (width_In x (h :: rows)) as Hw.
        etransitivity; [exact Hlx|]. apply Hw. rewrite Hrows.
        right. apply in_or_app. right. left. reflexivity. }
      assert (HW2 : (3 <= width (h :: (l1 ++ l2)
                                   ++ [[CStr id; CStr who; CStr docId; CDate t]]))%nat).
      { pose proof (width_In [CStr id; CStr who; CStr docId; CDate t]
                      (h :: (l1 ++ l2) ++ [[CStr id; CStr who; CStr docId; CDate t]])) as Hw.
        simpl length in Hw. etransitivity; [|apply Hw]; [lia|].
        right. apply in_or_app. right. left. reflexivity. }
      rewrite (isFavorite_wide _ u d _ _ HW2 Hsh2).
      rewrite (isFavorite_wide _ u d _ _ HW Hsh).
      rewrite Hrows, !existsb_app. simpl.
      rewrite Hgx.
      assert (Hnew : favMatch u d (pad 3 [CStr id; CStr who; CStr docId; CDate t])
                     = String.eqb who u && String.eqb docId d) by reflexivity.
      rewrite Hnew.
      generalize (existsb (fun r => favMatch u d (pad 3 r)) l1),
                 (existsb (fun r => favMatch u d (pad 3 r)) l2),
                 (String.eqb who u && String.eqb docId d).
      intros [] [] []; reflexivity.
  - destruct H1 as (Hres1 & id & t & Hsh1).
    assert (Hex : existsb (favMatch who docId) rows = false) by (apply findIndex_None; exact Hfind).
    rewrite Hex.
    pose proof (toggleFavorite_step rt who docId (snd out1) h _ Hwho Hdoc Hsh1 Hh) as H2.
    cbv zeta in H2. fold out2 in H2.
    rewrite (findIndex_app_last _ _ _ Hex) in H2
      by (unfold favMatch; simpl; rewrite !String.eqb_refl; reflexivity).
    destruct H2 as [Hres2 Hsh2].
    replace (delete (length rows) (rows ++ [[CStr id; CStr who; CStr docId; CDate t]]))
      with rows in Hsh2
      by (rewrite delete_middle, app_nil_r; reflexivity).
    split; [discriminate|]. split.
    + intros _. repeat split; try assumption; [eauto | congruence].
    + intros _. split; [discriminate|]. intros u d. unfold isFavorite.
      f_equal. apply dataRows_ext. congruence.
Qed.

(** ** Session expiry *)

Section Sweep.
Variable rt : runtime.

(** The LastActivity of a row does not depend on the width it is read at. *)
Lemma toTime_pad (W : nat) (r : row) :
  toTime rt (at_ (pad W r) 4) = toTime rt (at_ r 4).
Proof.
  rewrite at_pad. destruct (Nat.ltb_spec 4 (length r)) as [|Hk]; [reflexivity|].
  unfold at_. rewrite nth_overflow by exact Hk. destruct (4 <? W)%nat; reflexivity.
Qed.

Lemma cleanupExpiredSessions_rows (name : string) (w : world) (h : row) (rows : list row) :
  sheets w !! name = Some (h :: rows) ->
  sheets (snd (cleanupExpiredSessions rt name w)) !! name
  = Some (h :: List.filter
                 (fun r => negb (diff_pos (Some (clock rt (tick w)
                                                 - CONFIG_sessionTimeout * 60 * 1000))
                                          (toTime rt (at_ r 4)))) rows).
Proof.
  intros Hsh. unfold cleanupExpiredSessions. rewrite bind_run.
  cbn [getSheetByName fst snd]. rewrite Hsh.
  destruct rows as [|r1 rows'].
  - simpl. exact Hsh.
  - change (Sheet.getLastRow (h :: r1 :: rows') <=? 1)%nat with false. cbv iota.
    set (rows := r1 :: rows') in *.
    rewrite bind_run. cbn [now fst snd].
    rewrite forEach_onSheet. cbn [sheets]. rewrite Hsh. cbn [fmap option_fmap option_map].
    rewrite deleteRows_filter. f_equal. f_equal.
    apply filter_ext. intros r. rewrite toTime_pad. reflexivity.
Qed.

Lemma sweep_noneActiveAt (t a : Z) (rows : list row) :
  t - a > CONFIG_sessionTimeout * 60 * 1000 ->
  noneActiveAt rt a
    (List.filter (fun r => negb (diff_pos (Some (t - CONFIG_sessionTimeout * 60 * 1000))
                                          (toTime rt (at_ r 4)))) rows).
Proof.
  intros Hold. apply List.Forall_forall. intros r Hin Ha.
  apply filter_In in Hin. destruct Hin as [_ Hneg].
  rewrite Ha in Hneg. simpl in Hneg. apply negb_true_iff in Hneg.
  apply Z.ltb_ge in Hneg. lia.
Qed.


Lemma noneActiveAt_filter (a : Z) (f : row -> bool) (rows : list row) :
  noneActiveAt rt a rows -> noneActiveAt rt a (List.filter f rows).
Proof.
  unfold noneActiveAt. rewrite !List.Forall_forall. intros H r Hin.
  apply filter_In in Hin. apply H. tauto.
Qed.

Lemma noneActiveAt_dataRows (a : Z) (w : world) (h : row) (rows : list row) (r : row) :
  sheets w !! "OnlineUsers" = Some (h :: rows) ->
  noneActiveAt rt a rows ->
  In r (dataRows w "OnlineUsers") -> toTime rt (at_ r 4) <> Some a.
Proof.
  intros Hsh Hnone Hin. rewrite (dataRows_lookup _ _ _ _ Hsh) in Hin.
  apply in_map_iff in Hin. destruct Hin as (r0 & <- & Hin).
  rewrite toTime_pad. unfold noneActiveAt in Hnone.
  rewrite List.Forall_forall in Hnone. apply Hnone. exact Hin.
Qed.

Lemma In_sort_insert {A} (gt : A -> A -> bool) (x y : A) (l : list A) :
  In y (sort_insert gt x l) <-> y = x \/ In y l.
Proof.
  induction l as [|z l IH]; simpl.
  - intuition congruence.
  - destruct (gt x z); simpl; rewrite ?IH; intuition congruence.
Qed.

(** Sorting lists the same elements. *)
Lemma In_sort {A} (gt : A -> A -> bool) (y : A) (l : list A) :
  In y (sort gt l) <-> In y l.
Proof.
  induction l as [|x l IH]; simpl; [tauto|].
  rewrite In_sort_insert, IH. intuition congruence.
Qed.

(** [getOnlineUsers] sweeps, then lists rows that survived the sweep. *)
Lemma getOnlineUsers_run (w : world) (h : row) (rows : list row) :
  sheets w !! "OnlineUsers" = Some (h :: rows) ->
  let out := getOnlineUsers rt w in
  let rows' :=
    List.filter (fun r => negb (diff_pos (Some (clock rt (tick w)
                                                - CONFIG_sessionTimeout * 60 * 1000))
                                         (toTime rt (at_ r 4)))) rows in
  sheets (snd out) !! "OnlineUsers" = Some (h :: rows')
  /\ forall users x,
       JSON_parse (fst out) ≫= payload = Some users -> In x users ->
       exists r, In r rows' /\ toTime rt (lastActivity x) = toTime rt (at_ r 4).
Proof.
  intros Hsh out rows'. subst out. unfold getOnlineUsers.
  rewrite bind_run. cbn [getSheetByName fst snd]. rewrite Hsh.
  destruct rows as [|r1 rest].
  - simpl. split; [exact Hsh|]. intros users x [= <-] [].
  - change (Sheet.getLastRow (h :: r1 :: rest) <=? 1)%nat with false. cbv iota.
    set (rows := r1 :: rest) in *.
    rewrite !bind_run. cbn [getSheetByName fst snd ret].
    rewrite (cleanupExpiredSessions_rows "OnlineUsers" w h rows Hsh). fold rows'.
    split; [reflexivity|].
    cbn [default JSON_parse mbind option_bind payload okWith].
    intros users x [= <-] Hin. apply In_sort in Hin.
    apply in_map_iff in Hin. destruct Hin as (r & <- & Hin).
    apply filter_In in Hin. destruct Hin as [Hin _].
    rewrite ?getValues_cons in Hin. cbn [map drop] in Hin.
    apply in_map_iff in Hin. destruct Hin as (r0 & <- & Hin).
    exists r0. split; [exact Hin|]. cbn [userOfRow lastActivity]. apply toTime_pad.
Qed.


Lemma removeUserSession_rows (name email : string) (w : world) (h : row) (rows : list row) :
  sheets w !! name = Some (h :: rows) ->
  exists rows',
    sheets (snd (removeUserSession name email w)) !! name = Some (h :: rows')
    /\ (rows' = rows \/ exists i, rows' = delete i rows).
Proof.
  intros Hsh. unfold removeUserSession. rewrite bind_run.
  cbn [getSheetByName fst snd]. rewrite Hsh.
  destruct (Sheet.getLastRow (h :: rows) <=? 1)%nat; [solve [exists rows; auto]|].
  match goal with |- context [positive_index ?x] => destruct x as [[|i]|] end;
    cbn [positive_index]; try solve [exists rows; auto].
  eexists. split.
  - cbn [onSheet snd sheets]. rewrite lookup_alter_eq, Hsh, Nat.add_1_r. reflexivity.
  - right. eexists. reflexivity.
Qed.

Lemma noneActiveAt_nil_row (a : Z) : toTime rt (at_ [] 4) <> Some a.
Proof. discriminate. Qed.

(** Writing a cell of a data row keeps the rows clear of [a], unless the
    cell is the LastActivity and the value written is [a] itself. *)
Lemma noneActiveAt_setValue (a : Z) (h : row) (rows : list row) (i j : nat) (v : cell) :
  noneActiveAt rt a rows ->
  (j = 4%nat -> toTime rt v <> Some a) ->
  exists rows',
    Sheet.setValue (S (S i)) (S j) v (h :: rows) = h :: rows' /\ noneActiveAt rt a rows'.
Proof.
  intros Hrows Hv. eexists. split; [reflexivity|].
  unfold noneActiveAt. apply Forall_alter.
  - apply Forall_app. split; [exact Hrows|].
    apply List.Forall_forall. intros x Hx. apply repeat_spec in Hx. subst x.
    apply noneActiveAt_nil_row.
  - intros r _ Hr. unfold at_. rewrite nth_lookup.
    destruct (decide (j = 4%nat)) as [-> | Hne].
    + rewrite list_lookup_insert_eq by (rewrite length_pad; lia). simpl. auto.
    + rewrite list_lookup_insert_ne by exact Hne. rewrite <- nth_lookup.
      fold (at_ (pad (S j) r) 4). rewrite toTime_pad. exact Hr.
Qed.

Lemma noneActiveAt_setRowValues (a t : Z) (h : row) (rows : list row) (i : nat)
    (c0 c1 c2 c3 c5 c6 : cell) :
  noneActiveAt rt a rows -> a <> t ->
  exists rows',
    Sheet.setRowValues (S (S i)) [c0; c1; c2; c3; CDate t; c5; c6] (h :: rows) = h :: rows'
    /\ noneActiveAt rt a rows'.
Proof.
  intros Hrows Hne. eexists. split; [reflexivity|].
  unfold noneActiveAt. apply Forall_alter.
  - apply Forall_app. split; [exact Hrows|].
    apply List.Forall_forall. intros x Hx. apply repeat_spec in Hx. subst x.
    apply noneActiveAt_nil_row.
  - intros r _ _. simpl. congruence.
Qed.


Lemma noneActiveAt_app (a : Z) (rows : list row) (r : row) :
  noneActiveAt rt a rows -> toTime rt (at_ r 4) <> Some a -> noneActiveAt rt a (rows ++ [r]).
Proof.
  intros Hrows Hr. unfold noneActiveAt. apply Forall_app. split; [exact Hrows|].
  constructor; [exact Hr | constructor].
Qed.

Lemma trackUserSession_sweeps (who : string) (u : option user) (action : string)
    (w : world) (h : row) (rows : list row) (a : Z) :
  sheets w !! "OnlineUsers" = Some (h :: rows) ->
  isSignedIn (sessionUser who u w) = true ->
  clock rt (S (tick w)) - a > CONFIG_sessionTimeout * 60 * 1000 ->
  (action = "logout" \/ a <> clock rt (tick w)) ->
  let out := trackUserSession rt who u action w in
  fst out = AsJson ok
  /\ exists rows', sheets (snd out) !! "OnlineUsers" = Some (h :: rows')
                   /\ noneActiveAt rt a rows'.
Proof.
  intros Hsh Hsigned Hold Hstamp out. subst out. unfold trackUserSession.
  rewrite bind_run.
  assert (Huser : (match u with Some x => ret x | None => getCurrentUser who end) w
                  = (sessionUser who u w, w)).
  { destruct u; [reflexivity|]. simpl. rewrite (surjective_pairing (getCurrentUser who w)).
    rewrite getCurrentUser_world. reflexivity. }
  rewrite Huser. cbn [fst snd]. rewrite Hsigned. cbn [negb].
  rewrite bind_run. cbn [getSheetByName fst snd]. rewrite Hsh.
  rewrite bind_run. cbn [now fst snd]. rewrite bind_run.
  set (w1 := World (sheets w) (S (tick w))).
  pose proof (cleanupExpiredSessions_rows "OnlineUsers" w1 h rows Hsh) as Hswept.
  cbn [tick w1] in Hswept.
  pose proof (sweep_noneActiveAt (clock rt (S (tick w))) a rows Hold) as Hnone.
  set (rows1 := List.filter _ rows) in *.
  set (w2 := snd (cleanupExpiredSessions rt "OnlineUsers" w1)) in *.
  destruct (String.eqb_spec action "logout") as [Hlogout | Hlogout].
  - rewrite bind_run. cbn [fst snd ret]. split; [reflexivity|].
    destruct (removeUserSession_rows "OnlineUsers" (email (sessionUser who u w)) w2 h rows1
                Hswept) as (rows2 & Hsh2 & Hrows2).
    exists rows2. split; [exact Hsh2|].
    destruct Hrows2 as [-> | [i ->]]; [exact Hnone | apply Forall_delete; exact Hnone].
  - destruct Hstamp as [Hstamp | Hstamp]; [contradiction|].
    rewrite bind_run. cbn [getSheetByName fst snd]. rewrite Hswept. cbn [default].
    unfold findIndexFrom1.
    match goal with |- context [findIndex ?p (drop 1 ?d)] =>
      destruct (findIndex p (drop 1 d)) as [j|] end;
      cbn [fmap option_fmap option_map]; destruct (String.eqb action "login").
    + rewrite !bind_run. cbn [fst snd ret]. split; [reflexivity|].
      cbn [onSheet snd sheets]. rewrite lookup_alter_eq, keeps_generateId, Hswept.
      cbn [fmap option_fmap option_map].
      edestruct (noneActiveAt_setRowValues a (clock rt (tick w)) h rows1 j) as (rows' & -> & Hrows');
        eauto.
    + rewrite !bind_run. cbn [fst snd ret]. split; [reflexivity|].
      cbn [onSheet snd sheets]. rewrite lookup_alter_eq, lookup_alter_eq, Hswept.
      cbn [fmap option_fmap option_map].
      edestruct (noneActiveAt_setValue a h rows1 j 4 (CDate (clock rt (tick w))))
        as (rows' & -> & Hrows'); [exact Hnone | simpl; congruence |].
      edestruct (noneActiveAt_setValue a h rows' j 6 (CStr "Online"))
        as (rows'' & -> & Hrows''); [exact Hrows' | discriminate |].
      eauto.
    + rewrite !bind_run. cbn [fst snd ret]. split; [reflexivity|].
      cbn [onSheet snd sheets]. rewrite lookup_alter_eq, keeps_generateId, Hswept.
      cbn [fmap option_fmap option_map]. eexists. split; [reflexivity|].
      apply noneActiveAt_app; [exact Hnone | simpl; congruence].
    + rewrite !bind_run. cbn [fst snd ret]. split; [reflexivity|].
      cbn [onSheet snd sheets]. rewrite lookup_alter_eq, keeps_generateId, Hswept.
      cbn [fmap option_fmap option_map]. eexists. split; [reflexivity|].
      apply noneActiveAt_app; [exact Hnone | simpl; congruence].
Qed.

End Sweep.

(** C6: take a time [a] older than the timeout at the clock reading of the
    sweep.  After [getOnlineUsers] no session row with that LastActivity is
    left and none is listed.  After a [trackUserSession] call by a signed-in
    user (login, heartbeat or logout) no such row is left either, apart from
    the row the call itself stamps with its own reading, and the
    online-users listing read next lists none. *)
Theorem expired_sessions_swept (rt : runtime) (w : world) (h : row) (rows : list row)
    (a : Z) :
  sheets w !! "OnlineUsers" = Some (h :: rows) ->
  (clock rt (tick w) - a > CONFIG_sessionTimeout * 60 * 1000 ->
   let out := getOnlineUsers rt w in
   (forall r, In r (dataRows (snd out) "OnlineUsers") -> toTime rt (at_ r 4) <> Some a)
   /\ (forall users x, JSON_parse (fst out) ≫= payload = Some users -> In x users ->
                       toTime rt (lastActivity x) <> Some a))
  /\ (forall who u action,
        isSignedIn (sessionUser who u w) = true ->
        clock rt (S (tick w)) - a > CONFIG_sessionTimeout * 60 * 1000 ->
        (action = "logout" \/ a <> clock rt (tick w)) ->
        let out := trackUserSession rt who u action w in
        let listing := getOnlineUsers rt (snd out) in
        fst out = AsJson ok
        /\ (forall r, In r (dataRows (snd out) "OnlineUsers") ->
                      toTime rt (at_ r 4) <> Some a)
        /\ (forall users x, JSON_parse (fst listing) ≫= payload = Some users ->
                            In x users -> toTime rt (lastActivity x) <> Some a)).
Proof.
  intros Hsh. split.
  - intros Hold out.
    destruct (getOnlineUsers_run rt w h rows Hsh) as [Hsh' Husers]. fold out in Hsh', Husers.
    pose proof (sweep_noneActiveAt rt (clock rt (tick w)) a rows Hold) as Hnone.
    split.
    + intros r. apply (noneActiveAt_dataRows rt a _ h _ r Hsh' Hnone).
    + intros users x Hu Hin. destruct (Husers users x Hu Hin) as (r & Hr & ->).
      unfold noneActiveAt in Hnone. rewrite List.Forall_forall in Hnone. apply Hnone, Hr.
  - intros who u action Hsigned Hold Hstamp out listing.
    destruct (trackUserSession_sweeps rt who u action w h rows a Hsh Hsigned Hold Hstamp)
      as (Hres & rows' & Hsh' & Hnone).
    fold out in Hres, Hsh'. split; [exact Hres|]. split.
    + intros r. apply (noneActiveAt_dataRows rt a _ h _ r Hsh' Hnone).
    + destruct (getOnlineUsers_run rt (snd out) h rows' Hsh') as [_ Husers].
      fold listing in Husers.
      intros users x Hu Hin. destruct (Husers users x Hu Hin) as (r & Hr & ->).
      apply (noneActiveAt_filter rt a) with (f := fun r =>
               negb (diff_pos (Some (clock rt (tick (snd out))
                                     - CONFIG_sessionTimeout * 60 * 1000))
                              (toTime rt (at_ r 4)))) in Hnone.
      unfold noneActiveAt in Hnone. rewrite List.Forall_forall in Hnone. apply Hnone, Hr.
Qed.

(** ** Adding and listing *)

Section Listing.
Variable rt : runtime.

(** What [fillDoc] leaves under a key: the cell of the key's column. *)
Lemma fillDoc_lookup (headers : row) (r : row) (key : string) :
  forall (index : nat) (doc : gmap string cell),
  fillDoc rt headers index r doc !! key
  = match columnOf rt headers key with
    | Some j => Some (at_ r (index + j))
    | None => doc !! key
    end.
Proof.
  induction headers as [|c rest IH]; intros index doc; simpl; [reflexivity|].
  rewrite IH. destruct (columnOf rt rest key) as [j|].
  - f_equal. f_equal. lia.
  - destruct (String.eqb_spec (propertyKey rt c) key) as [<- | Hne].
    + rewrite lookup_insert_eq, Nat.add_0_r. reflexivity.
    + rewrite lookup_insert_ne by exact Hne. reflexivity.
Qed.

Lemma columnOf_app_empty (headers : row) (key : string) (n : nat) :
  key <> EmptyString ->
  columnOf rt (headers ++ repeat (CStr EmptyString) n) key = columnOf rt headers key.
Proof.
  intros Hkey. induction headers as [|c rest IH]; simpl.
  - induction n as [|n IHn]; simpl; [reflexivity|]. rewrite IHn.
    destruct key; [congruence | reflexivity].
  - rewrite IH. reflexivity.
Qed.

Lemma prop_fillDoc (h : row) (W : nat) (r : row) (key : string) (j : nat) :
  key <> EmptyString ->
  columnOf rt h key = Some j ->
  prop (fillDoc rt (pad W h) 0 r ∅) key = at_ r j.
Proof.
  intros Hkey Hcol. unfold prop. rewrite fillDoc_lookup. unfold pad.
  rewrite columnOf_app_empty by exact Hkey. rewrite Hcol. reflexivity.
Qed.

Lemma length_filter_sort_insert {A} (gt : A -> A -> bool) (p : A -> bool) (x : A) (l : list A) :
  length (List.filter p (sort_insert gt x l)) = length (List.filter p (x :: l)).
Proof.
  induction l as [|y l IH]; [reflexivity|]. simpl sort_insert.
  destruct (gt x y); [|reflexivity]. simpl in *. destruct (p y), (p x); simpl in *; lia.
Qed.

Lemma length_filter_sort {A} (gt : A -> A -> bool) (p : A -> bool) (l : list A) :
  length (List.filter p (sort gt l)) = length (List.filter p l).
Proof.
  induction l as [|x l IH]; [reflexivity|]. simpl sort.
  rewrite length_filter_sort_insert. simpl. destruct (p x); simpl; rewrite IH; reflexivity.
Qed.

(** Sorting keeps a lone match of a test. *)
Lemma filter_sort_singleton {A} (gt : A -> A -> bool) (p : A -> bool) (l : list A) (x : A) :
  List.filter p l = [x] -> List.filter p (sort gt l) = [x].
Proof.
  intros H. pose proof (length_filter_sort gt p l) as Hlen. rewrite H in Hlen.
  destruct (List.filter p (sort gt l)) as [|y [|z rest]] eqn:Hf; try discriminate.
  assert (Hy : In y (List.filter p (sort gt l))) by (rewrite Hf; left; reflexivity).
  apply filter_In in Hy. destruct Hy as [Hy Hp]. apply In_sort in Hy.
  assert (Hy' : In y (List.filter p l)) by (apply filter_In; tauto).
  rewrite H in Hy'. destruct Hy' as [-> | []]. reflexivity.
Qed.


Lemma passesFilters_none (doc : gmap string cell) : passesFilters doc noFilters = true.
Proof. reflexivity. Qed.

Lemma filter_all {A} (p : A -> bool) (l : list A) :
  (forall x, p x = true) -> List.filter p l = l.
Proof. intros H. induction l as [|x l IH]; simpl; [reflexivity|]. rewrite H, IH. reflexivity. Qed.

Lemma filter_none {A} (p : A -> bool) (l : list A) :
  (forall x, In x l -> p x = false) -> List.filter p l = [].
Proof.
  intros H. induction l as [|x l IH]; simpl; [reflexivity|].
  rewrite H by (left; reflexivity). apply IH. intros y Hy. apply H. right. exact Hy.
Qed.

Lemma addDocument_q1 (who : string) (w : world) (h : row) (rows : list row) :
  who <> EmptyString ->
  sheets w !! "Documents" = Some (h :: rows) ->
  (forall r, In r rows -> nth 2 r (CStr EmptyString) <> CStr q1Url) ->
  let out := addDocument rt who q1Report w in
  let t := clock rt (tick w + 2) in
  exists docId,
    fst out = AsJson (Reply true None (Some "Document added successfully") (Some docId))
    /\ sheets (snd out) !! "Documents"
       = Some (h :: rows ++ [[CStr docId; CStr "Q1 Report"; CStr q1Url; CStr EmptyString;
                              CStr "Finance"; CStr "Google Doc"; CStr who;
                              CStr EmptyString; CDate t; CDate t; CStr "Active"]]).
Proof.
  intros Hwho Hsh Hurl out t. subst out. unfold addDocument.
  rewrite bind_run, getCurrentUser_world.
  destruct (getCurrentUser_signed_in who w Hwho) as [-> ->].
  change (present (DocumentName q1Report)) with true.
  change (present (GoogleDriveURL q1Report)) with true.
  change (present (Category q1Report)) with true.
  change (present (Tags q1Report)) with false.
  change (detectFileType (GoogleDriveURL q1Report)) with "Google Doc".
  cbn [negb orb q1Report DocumentName GoogleDriveURL Category Tags Description].
  rewrite bind_run.
  assert (Hdup : isDuplicateURL (default EmptyString (Some q1Url)) w = (false, w)).
  { unfold isDuplicateURL. rewrite bind_run. cbn [getSheetByName fst snd]. rewrite Hsh.
    destruct (Sheet.getLastRow (h :: rows) <=? 1)%nat; [reflexivity|].
    unfold ret. f_equal. cbn [drop default].
    apply not_true_is_false. intros Hex. apply existsb_exists in Hex.
    destruct Hex as (c & Hin & Hc). apply in_map_iff in Hin.
    destruct Hin as (r & <- & Hin). apply strict_eq_CStr in Hc.
    exact (Hurl r Hin Hc). }
  rewrite Hdup. cbn [fst snd]. rewrite bind_run. cbn [getSheetByName fst snd]. rewrite Hsh.
  rewrite !bind_run. cbn [fst snd ret default].
  eexists. split; [reflexivity|].
  kept. cbn [onSheet snd sheets]. rewrite lookup_alter_eq.
  rewrite keeps_now, keeps_generateId, Hsh. unfold t.
  replace (tick w + 2)%nat with (S (S (tick w))) by lia. reflexivity.
Qed.


Lemma strict_eq_CStr_false (c : cell) (s : string) :
  c <> CStr s -> strict_eq c (CStr s) = false.
Proof.
  intros Hne. apply not_true_is_false. intros H. apply strict_eq_CStr in H. contradiction.
Qed.

(** A cell of a padded row that holds a non-empty string is a stored
    cell. *)
Lemma at_pad_CStr (W : nat) (r : row) (k : nat) (s : string) :
  s <> EmptyString -> at_ (pad W r) k = CStr s -> at_ r k = CStr s.
Proof.
  intros Hs. rewrite at_pad. destruct (k <? length r)%nat; [auto|].
  destruct (k <? W)%nat; [congruence | discriminate].
Qed.

End Listing.

(** C8: a signed-in user adds the example document to a store with no
    document named "Q1 Report" and none with its url.  The add succeeds and
    appends exactly one row, stamped twice with the time of the add; the
    unfiltered list read next holds exactly one document named "Q1 Report",
    with file type "Google Doc", status "Active", and both dates equal to
    that time. *)
Theorem addDocument_then_list (rt : runtime) (who : string) (w : world) (h : row)
    (rows : list row) :
  who <> EmptyString ->
  sheets w !! "Documents" = Some (h :: rows) ->
  columnOf rt h "DocumentName" = Some 1%nat ->
  columnOf rt h "FileType" = Some 5%nat ->
  columnOf rt h "DateAdded" = Some 8%nat ->
  columnOf rt h "LastModified" = Some 9%nat ->
  columnOf rt h "Status" = Some 10%nat ->
  (forall r, In r rows -> at_ r 1 <> CStr "Q1 Report") ->
  (forall r, In r rows -> nth 2 r (CStr EmptyString) <> CStr q1Url) ->
  let out := addDocument rt who q1Report w in
  let listed := getDocuments rt noFilters (snd out) in
  let t := clock rt (tick w + 2) in
  (exists docId,
     fst out = AsJson (Reply true None (Some "Document added successfully") (Some docId))
     /\ sheets (snd out) !! "Documents"
        = Some (h :: rows ++ [[CStr docId; CStr "Q1 Report"; CStr q1Url; CStr EmptyString;
                               CStr "Finance"; CStr "Google Doc"; CStr who;
                               CStr EmptyString; CDate t; CDate t; CStr "Active"]]))
  /\ exists docs doc,
       fst listed = AsObject (okWith docs)
       /\ List.filter (fun x => strict_eq (prop x "DocumentName") (CStr "Q1 Report")) docs
          = [doc]
       /\ prop doc "FileType" = CStr "Google Doc"
       /\ prop doc "Status" = CStr "Active"
       /\ prop doc "DateAdded" = CDate t
       /\ prop doc "LastModified" = CDate t.
Proof.
  intros Hwho Hsh Hname Htype Hadded Hmod Hstatus Hfresh Hurl out listed t.
  destruct (addDocument_q1 rt who w h rows Hwho Hsh Hurl) as (docId & Hres & Hsh').
  fold out in Hres, Hsh'. fold t in Hsh'.
  split; [exists docId; split; assumption|].
  set (new := [CStr docId; CStr "Q1 Report"; CStr q1Url; CStr EmptyString;
               CStr "Finance"; CStr "Google Doc"; CStr who; CStr EmptyString;
               CDate t; CDate t; CStr "Active"]) in *.
  subst listed. unfold getDocuments. rewrite bind_run.
  cbn [getSheetByName fst snd]. rewrite Hsh'.
  assert (Hlen : (Sheet.getLastRow (h :: rows ++ [new]) <=? 1)%nat = false).
  { apply Nat.leb_gt. unfold Sheet.getLastRow. simpl. rewrite length_app. simpl. lia. }
  rewrite Hlen. rewrite getValues_cons.
  set (W := width (h :: rows ++ [new])).
  cbn [map hd drop sortBy noFilters].
  change (String.eqb "date_desc" "name_asc" || String.eqb "date_desc" "name_desc") with false.
  cbn [andb fst ret].
  rewrite (filter_all _ _ (passesFilters_none)).
  do 2 eexists. split; [reflexivity|].
  assert (Hat : forall k, (k < 11)%nat -> at_ (pad W new) k = at_ new k).
  { intros k Hk. rewrite at_pad. destruct (Nat.ltb_spec k (length new)) as [|Hge];
      [reflexivity | simpl in Hge; lia]. }
  split; [|repeat split].
  - apply filter_sort_singleton. rewrite drop_0, !map_app, List.filter_app.
    cbn [map List.filter].
    rewrite (prop_fillDoc rt h W _ "DocumentName" 1) by (discriminate || assumption).
    rewrite Hat by lia. cbn [at_ nth new strict_eq]. rewrite String.eqb_refl.
    rewrite filter_none; [reflexivity|].
    intros x Hx. apply in_map_iff in Hx. destruct Hx as (r' & <- & Hx).
    apply in_map_iff in Hx. destruct Hx as (r & <- & Hx).
    rewrite (prop_fillDoc rt h W _ "DocumentName" 1) by (discriminate || assumption).
    apply strict_eq_CStr_false. intros Hc. apply at_pad_CStr in Hc; [|discriminate].
    exact (Hfresh r Hx Hc).
  - rewrite (prop_fillDoc rt h W _ "FileType" 5) by (discriminate || assumption).
    rewrite Hat by lia. reflexivity.
  - rewrite (prop_fillDoc rt h W _ "Status" 10) by (discriminate || assumption).
    rewrite Hat by lia. reflexivity.
  - rewrite (prop_fillDoc rt h W _ "DateAdded" 8) by (discriminate || assumption).
    rewrite Hat by lia. reflexivity.
  - rewrite (prop_fillDoc rt h W _ "LastModified" 9) by (discriminate || assumption).
    rewrite Hat by lia. reflexivity.
Qed.

(** * The theorems on the sample deployment *)

Lemma addDocument_duplicate_url_witness :
  In budgetRow (drop 1 [documentsHeader; budgetRow])
  /\ addDocument sampleRuntime "ann@example.com" budgetCopy sampleStore
     = (AsJson (failure "A document with this URL already exists"), sampleStore).
Proof.
  split; [left; reflexivity|].
  apply (addDocument_duplicate_url sampleRuntime "ann@example.com" "https://example.com/b"
           budgetCopy sampleStore [documentsHeader; budgetRow] budgetRow);
    first [discriminate | reflexivity | left; reflexivity].
Defined.

Lemma deleteDocument_cascades_witness :
  sheets sampleStore !! "Documents" = Some [documentsHeader; budgetRow]
  /\ sheets (snd (deleteDocument sampleRuntime "ann@example.com" "DOC_1" sampleStore))
       !! "Documents" = Some [documentsHeader].
Proof.
  split; [reflexivity|].
  apply (deleteDocument_cascades sampleRuntime "ann@example.com" "DOC_1" sampleStore
           [documentsHeader; budgetRow] 1);
    first [discriminate | reflexivity].
Defined.

Lemma expired_sessions_swept_witness :
  sheets sampleStore !! "OnlineUsers" = Some [onlineUsersHeader; bobSession; carolSession]
  /\ clock sampleRuntime (tick sampleStore) - 1000 > CONFIG_sessionTimeout * 60 * 1000
  /\ forall r, In r (dataRows (snd (getOnlineUsers sampleRuntime sampleStore)) "OnlineUsers") ->
               toTime sampleRuntime (at_ r 4) <> Some 1000.
Proof.
  split; [reflexivity|]. split; [reflexivity|].
  apply (expired_sessions_swept sampleRuntime sampleStore onlineUsersHeader
           [bobSession; carolSession] 1000); reflexivity.
Defined.

Lemma toggleFavorite_twice_witness :
  isFavorite sampleStore "ann@example.com" "DOC_1" = false
  /\ fst (toggleFavorite sampleRuntime "ann@example.com" "DOC_1" sampleStore)
     = AsJson (okWith true).
Proof.
  split; [reflexivity|].
  apply (toggleFavorite_twice sampleRuntime "ann@example.com" "DOC_1" sampleStore
           favoritesHeader [bobFavorite]);
    first [discriminate | reflexivity].
Defined.

Lemma addDocument_then_list_witness :
  sheets sampleStore !! "Documents" = Some [documentsHeader; budgetRow]
  /\ exists docId,
       fst (addDocument sampleRuntime "ann@example.com" q1Report sampleStore)
       = AsJson (Reply true None (Some "Document added successfully") (Some docId)).
Proof.
  split; [reflexivity|].
  destruct (addDocument_then_list sampleRuntime "ann@example.com" sampleStore
              documentsHeader [budgetRow]) as [(docId & Hres & _) _];
    try first [discriminate | reflexivity].
  - intros r [<- | []]. discriminate.
  - intros r [<- | []]. discriminate.
  - exists docId. exact Hres.
Defined.

Lemma archive_restore_activity_witness :
  findIndex (fun r => strict_eq (at_ r 0) (CStr "DOC_1"))
            (Sheet.getValues [documentsHeader; budgetRow]) = Some 1%nat
  /\ fst (archiveDocument sampleRuntime "ann@example.com" "DOC_1" sampleStore)
     = AsJson (okMessage "Document updated successfully").
Proof.
  split; [reflexivity|].
  apply (archive_restore_activity sampleRuntime "ann@example.com" "DOC_1" sampleStore
           [documentsHeader; budgetRow] [activityHeader] 1 10 9);
    first [discriminate | reflexivity].
Defined.

(** * Further properties of the script *)

(** ** Calls that change nothing *)

(** X1: a visitor who is not signed in cannot write: every operation that
    checks the user answers "User not authenticated" and leaves the
    spreadsheet and the clock position as they are. *)
Theorem unauthenticated_calls_change_nothing (rt : runtime) (w : world) :
  let denied {A} : returned (reply A) := AsJson (failure "User not authenticated") in
  (forall d, addDocument rt EmptyString d w = (denied, w))
  /\ (forall docId updates, updateDocument rt EmptyString docId updates w = (denied, w))
  /\ (forall docId, archiveDocument rt EmptyString docId w = (denied, w))
  /\ (forall docId, restoreDocument rt EmptyString docId w = (denied, w))
  /\ (forall docId, deleteDocument rt EmptyString docId w = (denied, w))
  /\ (forall docIds, bulkArchiveDocuments rt EmptyString docIds w = (denied, w))
  /\ (forall docIds, bulkRestoreDocuments rt EmptyString docIds w = (denied, w))
  /\ (forall name, addCategory rt EmptyString name w = (denied, w))
  /\ (forall docId, toggleFavorite rt EmptyString docId w = (denied, w))
  /\ (forall docId, recordDocumentView rt EmptyString docId w = (denied, w))
  /\ (forall action, trackUserSession rt EmptyString None action w = (denied, w))
  /\ getInitialData rt EmptyString w = (denied, w)
  /\ getUserFavorites EmptyString w = (AsObject (failure "User not authenticated"), w).
Proof. cbv zeta. repeat split. Qed.

Lemma getCurrentUser_run (who : string) (w : world) :
  getCurrentUser who w = (fst (getCurrentUser who w), w).
Proof.
  rewrite (surjective_pairing (getCurrentUser who w)) at 1.
  rewrite getCurrentUser_world. reflexivity.
Qed.

(** Steps a public function past its sign-in check. *)
Ltac signed_in who w Hwho :=
  rewrite bind_run, getCurrentUser_world;
  destruct (getCurrentUser_signed_in who w Hwho) as [-> _]; cbn [negb].

(** X2: for a signed-in user, an add that lacks the name, the url or the
    category (absent or empty) is answered with "Missing required fields"
    before anything else is looked at, and changes nothing. *)
Theorem addDocument_missing_fields (rt : runtime) (who : string) (d : documentData)
    (w : world) :
  who <> EmptyString ->
  present (DocumentName d) = false \/ present (GoogleDriveURL d) = false
    \/ present (Category d) = false ->
  addDocument rt who d w = (AsJson (failure "Missing required fields"), w).
Proof.
  intros Hwho Hmissing. unfold addDocument. signed_in who w Hwho.
  destruct Hmissing as [-> | [-> | ->]]; cbn [negb orb];
    rewrite ?orb_true_r; reflexivity.
Qed.

(** X3: for a signed-in user, an id that no row of the Documents sheet
    carries in its first column makes [updateDocument], [archiveDocument],
    [restoreDocument] and [deleteDocument] answer "Document not found";
    nothing is written and nothing is logged. *)
Theorem unknown_document_changes_nothing (rt : runtime) (who docId : string) (w : world)
    (sh : sheet) :
  who <> EmptyString ->
  sheets w !! "Documents" = Some sh ->
  findIndex (fun r => strict_eq (at_ r 0) (CStr docId)) (Sheet.getValues sh) = None ->
  (forall updates,
     updateDocument rt who docId updates w = (AsJson (failure "Document not found"), w))
  /\ archiveDocument rt who docId w = (AsJson (failure "Document not found"), w)
  /\ restoreDocument rt who docId w = (AsJson (failure "Document not found"), w)
  /\ deleteDocument rt who docId w = (AsJson (failure "Document not found"), w).
Proof.
  intros Hwho Hsh Hnone.
  assert (Hupd : forall updates,
            updateDocument rt who docId updates w
            = (AsJson (failure "Document not found"), w)).
  { intros updates. unfold updateDocument. signed_in who w Hwho.
    rewrite bind_run. cbn [getSheetByName fst snd]. rewrite Hsh, Hnone. reflexivity. }
  split; [exact Hupd|]. split; [|split].
  - unfold archiveDocument. rewrite bind_run, getCurrentUser_world, bind_run, Hupd.
    reflexivity.
  - unfold restoreDocument. rewrite bind_run, getCurrentUser_world, bind_run, Hupd.
    reflexivity.
  - unfold deleteDocument. signed_in who w Hwho.
    rewrite bind_run. cbn [getSheetByName fst snd]. rewrite Hsh, Hnone. reflexivity.
Qed.

Lemma forEachCount_none {A} (f : A -> M bool) (l : list A) (w : world) :
  (forall x, In x l -> f x w = (false, w)) -> forEachCount l f w = (O, w).
Proof.
  induction l as [|x l IH]; intros Hf; [reflexivity|].
  cbn [forEachCount]. rewrite bind_run, Hf by (left; reflexivity).
  cbn [fst snd]. rewrite bind_run, IH by (intros y Hy; apply Hf; right; exact Hy).
  reflexivity.
Qed.

(** X4: a bulk archive or restore of ids that the Documents sheet does not
    hold still succeeds: it reports 0 of the number of ids given, writes
    nothing and logs nothing. *)
Theorem bulk_skips_unknown_documents (rt : runtime) (who : string) (docIds : list string)
    (w : world) (sh : sheet) :
  who <> EmptyString ->
  sheets w !! "Documents" = Some sh ->
  (forall docId, In docId docIds ->
     findIndex (fun r => strict_eq (at_ r 0) (CStr docId)) (Sheet.getValues sh) = None) ->
  bulkArchiveDocuments rt who docIds w
    = (AsJson (okWith ("0 of " +:+ pretty (length docIds) +:+ " documents archived.")), w)
  /\ bulkRestoreDocuments rt who docIds w
     = (AsJson (okWith ("0 of " +:+ pretty (length docIds) +:+ " documents restored.")), w).
Proof.
  intros Hwho Hsh Hnone.
  assert (Hupd : forall status docId, In docId docIds ->
            updateDocument rt who docId [("Status", CStr status)] w
            = (AsJson (failure "Document not found"), w)).
  { intros status docId Hin. unfold updateDocument. signed_in who w Hwho.
    rewrite bind_run. cbn [getSheetByName fst snd].
    rewrite Hsh, (Hnone docId Hin). reflexivity. }
  split.
  - unfold bulkArchiveDocuments. signed_in who w Hwho.
    rewrite bind_run, forEachCount_none; [reflexivity|].
    intros docId Hin. rewrite bind_run, Hupd by exact Hin. reflexivity.
  - unfold bulkRestoreDocuments. signed_in who w Hwho.
    rewrite bind_run, forEachCount_none; [reflexivity|].
    intros docId Hin. rewrite bind_run, Hupd by exact Hin. reflexivity.
Qed.

(** The reads leave the world as it is. *)
Lemma reads_keep_world (rt : runtime) (w : world) :
  (forall fl, snd (getDocuments rt fl w) = w)
  /\ snd (getCategories rt w) = w
  /\ snd (getTags rt w) = w
  /\ (forall who, snd (getUserFavorites who w) = w)
  /\ (forall limit, snd (getRecentActivity limit w) = w)
  /\ snd (getAnalyticsData w) = w
  /\ (forall url, snd (isDuplicateURL url w) = w).
Proof.
  repeat split; intros.
  - unfold getDocuments. rewrite bind_run. cbn [getSheetByName fst snd].
    destruct (sheets w !! "Documents"); [|reflexivity].
    destruct (Sheet.getLastRow _ <=? 1)%nat; [reflexivity|].
    match goal with |- context [if ?c then _ else _] => destruct c end; reflexivity.
  - unfold getCategories. rewrite bind_run. cbn [getSheetByName fst snd].
    destruct (sheets w !! "Categories"); [|reflexivity].
    destruct (Sheet.getLastRow _ <=? 1)%nat; [reflexivity|].
    match goal with |- context [if ?c then _ else _] => destruct c end; reflexivity.
  - unfold getTags. rewrite bind_run. cbn [getSheetByName fst snd].
    destruct (sheets w !! "Tags"); [|reflexivity].
    destruct (Sheet.getLastRow _ <=? 1)%nat; reflexivity.
  - unfold getUserFavorites. rewrite bind_run, getCurrentUser_world.
    destruct (negb _); [reflexivity|].
    rewrite bind_run. cbn [getSheetByName fst snd].
    destruct (sheets w !! "UserFavorites"); [|reflexivity].
    destruct (Sheet.getLastRow _ <=? 1)%nat; reflexivity.
  - unfold getRecentActivity. rewrite bind_run. cbn [getSheetByName fst snd].
    destruct (sheets w !! "ActivityLog"); [|reflexivity].
    destruct (Sheet.getLastRow _ <=? 1)%nat; reflexivity.
  - unfold getAnalyticsData. rewrite bind_run. cbn [getSheetByName fst snd].
    destruct (sheets w !! "Analytics"); [|reflexivity].
    destruct (Sheet.getLastRow _ <=? 1)%nat; reflexivity.
  - unfold isDuplicateURL. rewrite bind_run. cbn [getSheetByName fst snd].
    destruct (sheets w !! "Documents"); [|reflexivity].
    destruct (Sheet.getLastRow _ <=? 1)%nat; reflexivity.
Qed.

(** X5: the reads [getDocuments], [getCategories], [getTags],
    [getUserFavorites], [getRecentActivity], [getAnalyticsData] and the
    duplicate-url check never write: the spreadsheet and the clock position
    are as before, whatever they answer. *)
Theorem reads_change_nothing (rt : runtime) (w : world) :
  (forall fl, snd (getDocuments rt fl w) = w)
  /\ snd (getCategories rt w) = w
  /\ snd (getTags rt w) = w
  /\ (forall who, snd (getUserFavorites who w) = w)
  /\ (forall limit, snd (getRecentActivity limit w) = w)
  /\ snd (getAnalyticsData w) = w
  /\ (forall url, snd (isDuplicateURL url w) = w).
Proof. exact (reads_keep_world rt w). Qed.

(** X6: with the sheet it needs missing, a write by a signed-in user is
    answered with "Database not initialized" and changes nothing, while the
    reads answer with an empty result: no documents, categories, favorites,
    activities, online users, and zero views. *)
Theorem missing_sheet_behaviour (rt : runtime) (who : string) (w : world) :
  who <> EmptyString ->
  let uninitialized {A} : returned (reply A) := AsJson (failure "Database not initialized") in
  (sheets w !! "Documents" = None ->
     (forall d, present (DocumentName d) = true -> present (GoogleDriveURL d) = true ->
                present (Category d) = true -> addDocument rt who d w = (uninitialized, w))
     /\ (forall docId updates, updateDocument rt who docId updates w = (uninitialized, w))
     /\ (forall docId, deleteDocument rt who docId w = (uninitialized, w))
     /\ (forall docId, exists r, recordDocumentView rt who docId w = (AsJson r, w)
                                 /\ success r = false)
     /\ (forall fl, getDocuments rt fl w = (AsObject (okWith []), w)))
  /\ (sheets w !! "Categories" = None ->
        (forall name, addCategory rt who name w = (uninitialized, w))
        /\ getCategories rt w = (AsObject (okWith []), w))
  /\ (sheets w !! "UserFavorites" = None ->
        (forall docId, toggleFavorite rt who docId w = (uninitialized, w))
        /\ getUserFavorites who w = (AsObject (okWith []), w))
  /\ (sheets w !! "OnlineUsers" = None ->
        (forall action, trackUserSession rt who None action w = (uninitialized, w))
        /\ getOnlineUsers rt w = (AsJson (okWith []), w))
  /\ (sheets w !! "Analytics" = None ->
        (forall docId, recordDocumentView rt who docId w = (uninitialized, w))
        /\ getAnalyticsData w = (AsObject (okWith (Summary 0)), w))
  /\ (sheets w !! "ActivityLog" = None ->
        forall limit, getRecentActivity limit w = (AsObject (okWith []), w)).
Proof.
  intros Hwho. cbv zeta.
  repeat split; intros.
  - unfold addDocument. signed_in who w Hwho.
    repeat match goal with H : present _ = true |- _ => rewrite H; clear H end.
    cbn [negb orb]. rewrite bind_run. unfold isDuplicateURL at 1 2.
    rewrite !bind_run. cbn [getSheetByName fst snd]. rewrite H.
    cbn [ret fst snd]. rewrite bind_run. cbn [getSheetByName fst snd]. rewrite H.
    reflexivity.
  - unfold updateDocument. signed_in who w Hwho.
    rewrite bind_run. cbn [getSheetByName fst snd]. rewrite H. reflexivity.
  - unfold deleteDocument. signed_in who w Hwho.
    rewrite bind_run. cbn [getSheetByName fst snd]. rewrite H. reflexivity.
  - unfold recordDocumentView. signed_in who w Hwho.
    rewrite bind_run. cbn [getSheetByName fst snd].
    destruct (sheets w !! "Analytics"); [|eexists; split; reflexivity].
    rewrite bind_run. cbn [getSheetByName fst snd]. rewrite H.
    eexists; split; reflexivity.
  - unfold getDocuments. rewrite bind_run. cbn [getSheetByName fst snd]. rewrite H.
    reflexivity.
  - unfold addCategory. signed_in who w Hwho.
    rewrite bind_run. cbn [getSheetByName fst snd]. rewrite H. reflexivity.
  - unfold getCategories. rewrite bind_run. cbn [getSheetByName fst snd]. rewrite H.
    reflexivity.
  - unfold toggleFavorite. signed_in who w Hwho.
    rewrite bind_run. cbn [getSheetByName fst snd]. rewrite H. reflexivity.
  - unfold getUserFavorites. signed_in who w Hwho.
    rewrite bind_run. cbn [getSheetByName fst snd]. rewrite H. reflexivity.
  - unfold trackUserSession. rewrite bind_run, getCurrentUser_world.
    destruct (getCurrentUser_signed_in who w Hwho) as [-> _]. cbn [negb].
    rewrite bind_run. cbn [getSheetByName fst snd]. rewrite H. reflexivity.
  - unfold getOnlineUsers. rewrite bind_run. cbn [getSheetByName fst snd]. rewrite H.
    reflexivity.
  - unfold recordDocumentView. signed_in who w Hwho.
    rewrite bind_run. cbn [getSheetByName fst snd]. rewrite H. reflexivity.
  - unfold getAnalyticsData. rewrite bind_run. cbn [getSheetByName fst snd]. rewrite H.
    reflexivity.
  - unfold getRecentActivity. rewrite bind_run. cbn [getSheetByName fst snd]. rewrite H.
    reflexivity.
Qed.

(** ** The activity log *)

(** A cell of a stored row reads the same at every width. *)
Lemma at_pad_stored (W : nat) (r : row) (k : nat) :
  (k < length r)%nat -> at_ (pad W r) k = at_ r k.
Proof. intros Hk. rewrite at_pad. destruct (Nat.ltb_spec k (length r)); [reflexivity | lia]. Qed.

(** X7: on an activity log with its header row, the entry [logActivity]
    writes is the first that [getRecentActivity] returns next, for any
    limit of at least one; the list has the limit's length, or that of the
    whole log when the log is shorter. *)
Theorem logged_activity_is_most_recent (rt : runtime) (u : user) (a d det : string)
    (limit : nat) (w : world) (h : row) (rows : list row) :
  sheets w !! "ActivityLog" = Some (h :: rows) ->
  (1 <= limit)%nat ->
  let w' := snd (logActivity rt u a d det w) in
  exists entry older,
    fst (getRecentActivity limit w') = AsObject (okWith (entry :: older))
    /\ UserEmail entry = CStr (email u) /\ UserName entry = CStr (name u)
    /\ Action entry = CStr a /\ DocID entry = CStr d /\ Details entry = CStr det
    /\ length (entry :: older) = Nat.min limit (S (length rows)).
Proof.
  intros Hlog Hlimit w'.
  assert (Hlog' : exists id t,
            sheets w' !! "ActivityLog"
            = Some (h :: rows ++ [[CStr id; CStr (email u); CStr (name u); CStr a; CStr d;
                                   CStr det; CDate t]])).
  { subst w'. unfold logActivity. rewrite bind_run. cbn [getSheetByName fst snd].
    rewrite Hlog. rewrite !bind_run. cbn [onSheet snd sheets].
    rewrite lookup_alter_eq, keeps_now, keeps_generateId, Hlog. eauto. }
  destruct Hlog' as (id & t & Hlog').
  set (e := [CStr id; CStr (email u); CStr (name u); CStr a; CStr d; CStr det; CDate t]) in *.
  unfold getRecentActivity. rewrite bind_run. cbn [getSheetByName fst snd]. rewrite Hlog'.
  assert (Hlast : (Sheet.getLastRow (h :: rows ++ [e]) <=? 1)%nat = false).
  { apply Nat.leb_gt. unfold Sheet.getLastRow. simpl. rewrite length_app. simpl. lia. }
  rewrite Hlast. rewrite getValues_cons. set (W := width (h :: rows ++ [e])).
  cbn [fst ret].
  assert (Hlen : length (map (pad W) (h :: rows ++ [e])) = S (S (length rows))).
  { rewrite List.length_map. simpl. rewrite length_app. simpl. lia. }
  set (n := Nat.max 1 (length (map (pad W) (h :: rows ++ [e])) - limit)).
  assert (Hn : (n <= S (length rows))%nat) by (unfold n; lia).
  assert (Hlist : map activityOfRow (rev (drop n (map (pad W) (h :: rows ++ [e]))))
                  = activityOfRow (pad W e)
                    :: map activityOfRow (rev (drop n (map (pad W) (h :: rows))))).
  { change (h :: rows ++ [e]) with ((h :: rows) ++ [e]).
    rewrite map_app. cbn [map].
    rewrite drop_app_le by (simpl; rewrite List.length_map; lia).
    rewrite rev_unit. reflexivity. }
  rewrite Hlist. do 2 eexists. split; [reflexivity|].
  unfold activityOfRow at 1 2 3 4 5.
  cbn [UserEmail UserName Action DocID Details].
  rewrite !at_pad_stored by (simpl; lia).
  repeat split.
  cbn [length]. rewrite List.length_map, length_rev, length_drop, List.length_map.
  simpl length. unfold n. rewrite Hlen. lia.
Qed.

(** ** Views *)

(** X8: on an Analytics sheet with its header row, a view recorded by a
    signed-in user raises the total that [getAnalyticsData] reports by
    one.  The appended row names the viewer and keeps the name the first row
    with that id has at that moment, or "Unknown Document" when there is no
    such row. *)
Theorem recorded_view_is_counted (rt : runtime) (who docId : string) (w : world)
    (h : row) (rows : list row) (docs : sheet) :
  who <> EmptyString ->
  sheets w !! "Analytics" = Some (h :: rows) ->
  sheets w !! "Documents" = Some docs ->
  let out := recordDocumentView rt who docId w in
  let snapshot :=
    match find (fun r => strict_eq (at_ r 0) (CStr docId)) (Sheet.getValues docs) with
    | Some r => at_ r 1
    | None => CStr "Unknown Document"
    end in
  fst out = AsJson (okMessage "View recorded")
  /\ fst (getAnalyticsData w) = AsObject (okWith (Summary (Z.of_nat (length rows))))
  /\ fst (getAnalyticsData (snd out))
     = AsObject (okWith (Summary (Z.of_nat (length rows) + 1)))
  /\ exists id t,
       sheets (snd out) !! "Analytics"
       = Some (h :: rows ++ [[CStr id; CStr docId; CStr who; CDate t; CStr "Web Browser";
                              snapshot]]).
Proof.
  intros Hwho Hsh Hdocs out snapshot.
  assert (Hout : fst out = AsJson (okMessage "View recorded")
                 /\ exists id t,
                      sheets (snd out) !! "Analytics"
                      = Some (h :: rows ++ [[CStr id; CStr docId; CStr who; CDate t;
                                             CStr "Web Browser"; snapshot]])).
  { subst out. unfold recordDocumentView. rewrite bind_run, getCurrentUser_world.
    destruct (getCurrentUser_signed_in who w Hwho) as [-> ->]. cbn [negb].
    rewrite bind_run. cbn [getSheetByName fst snd]. rewrite Hsh.
    rewrite bind_run. cbn [getSheetByName fst snd]. rewrite Hdocs.
    rewrite !bind_run. cbn [fst snd ret]. split; [reflexivity|].
    cbn [onSheet snd sheets]. rewrite lookup_alter_eq, keeps_now, keeps_generateId, Hsh.
    eauto. }
  destruct Hout as (Hres & id & t & Hsh').
  split; [exact Hres|]. split; [|split; [|eauto]].
  - unfold getAnalyticsData. rewrite bind_run. cbn [getSheetByName fst snd]. rewrite Hsh.
    unfold Sheet.getLastRow. destruct rows as [|r rows']; [reflexivity|].
    change (length (h :: r :: rows') <=? 1)%nat with false. cbn [fst ret].
    do 3 f_equal. simpl length. lia.
  - unfold getAnalyticsData. rewrite bind_run. cbn [getSheetByName fst snd]. rewrite Hsh'.
    unfold Sheet.getLastRow.
    assert (Hlen : length (h :: rows ++ [[CStr id; CStr docId; CStr who; CDate t;
                                          CStr "Web Browser"; snapshot]])
                   = S (S (length rows))) by (simpl; rewrite length_app; simpl; lia).
    rewrite Hlen. change (S (S (length rows)) <=? 1)%nat with false. cbn [fst ret].
    do 3 f_equal. lia.
Qed.

(** ** Categories *)

Lemma find_exists {A} (p : A -> bool) (l : list A) (x : A) :
  In x l -> p x = true -> exists y, find p l = Some y.
Proof.
  intros Hin Hp. destruct (find p l) as [y|] eqn:Hf; [eauto|].
  rewrite (find_none p l Hf x Hin) in Hp. discriminate.
Qed.

(** X9: for a signed-in user and a Categories sheet, a name that no row
    carries is added as an active category with a document count of 0; and
    whatever the first call answered, a second [addCategory] of the same
    name is answered with "Category already exists" and changes nothing. *)
Theorem addCategory_once (rt : runtime) (who name : string) (w : world) (sh : sheet) :
  who <> EmptyString ->
  sheets w !! "Categories" = Some sh ->
  let out := addCategory rt who name w in
  (find (fun r => strict_eq (at_ r 1) (CStr name)) (Sheet.getValues sh) = None ->
     exists id t,
       fst out = AsJson (Reply true None (Some "Category added successfully") (Some id))
       /\ sheets (snd out) !! "Categories"
          = Some (sh ++ [[CStr id; CStr name; CStr who; CDate t; CBool true; CNum 0]]))
  /\ addCategory rt who name (snd out)
     = (AsJson (failure "Category already exists"), snd out).
Proof.
  intros Hwho Hsh out.
  assert (Hexists : forall w1 sh1 x,
            sheets w1 !! "Categories" = Some sh1 ->
            find (fun r => strict_eq (at_ r 1) (CStr name)) (Sheet.getValues sh1) = Some x ->
            addCategory rt who name w1 = (AsJson (failure "Category already exists"), w1)).
  { intros w1 sh1 x Hsh1 Hx. unfold addCategory. rewrite bind_run, getCurrentUser_world.
    destruct (getCurrentUser_signed_in who w1 Hwho) as [-> _]. cbn [negb].
    rewrite bind_run. cbn [getSheetByName fst snd]. rewrite Hsh1, Hx. reflexivity. }
  destruct (find (fun r => strict_eq (at_ r 1) (CStr name)) (Sheet.getValues sh))
    as [x|] eqn:Hfind.
  - split; [discriminate|].
    assert (Hout : out = (AsJson (failure "Category already exists"), w))
      by (apply (Hexists w sh x Hsh Hfind)).
    rewrite Hout. cbn [snd]. apply (Hexists w sh x Hsh Hfind).
  - assert (Hout : exists id t,
              fst out = AsJson (Reply true None (Some "Category added successfully") (Some id))
              /\ sheets (snd out) !! "Categories"
                 = Some (sh ++ [[CStr id; CStr name; CStr who; CDate t; CBool true; CNum 0]])).
    { subst out. unfold addCategory. rewrite bind_run, getCurrentUser_world.
      destruct (getCurrentUser_signed_in who w Hwho) as [-> ->]. cbn [negb].
      rewrite bind_run. cbn [getSheetByName fst snd]. rewrite Hsh, Hfind.
      rewrite !bind_run. cbn [fst snd ret]. do 2 eexists. split; [reflexivity|].
      kept. cbn [onSheet snd sheets].
      rewrite lookup_alter_eq, keeps_now, keeps_generateId, Hsh. reflexivity. }
    split; [intros _; exact Hout|].
    destruct Hout as (id & t & _ & Hsh').
    set (new := [CStr id; CStr name; CStr who; CDate t; CBool true; CNum 0]) in *.
    destruct (find_exists (fun r => strict_eq (at_ r 1) (CStr name))
                (Sheet.getValues (sh ++ [new])) (pad (width (sh ++ [new])) new))
      as [x Hx].
    + destruct sh as [|h rows]; [left; reflexivity|].
      change ((h :: rows) ++ [new]) with (h :: rows ++ [new]). rewrite getValues_cons.
      apply in_map. right. apply in_or_app. right. left. reflexivity.
    + rewrite at_pad_stored by (simpl; lia). apply strict_eq_CStr. reflexivity.
    + apply (Hexists (snd out) (sh ++ [new]) x Hsh' Hx).
Qed.

(** ** Counters *)

Lemma pad_pad (W n : nat) (r : row) : (n <= W)%nat -> pad W (pad n r) = pad W r.
Proof.
  intros Hn. unfold pad at 1. rewrite length_pad. unfold pad.
  rewrite <- app_assoc, <- repeat_app. do 2 f_equal. lia.
Qed.

Lemma pad_insert (W j : nat) (v : cell) (r : row) :
  (S j <= W)%nat -> pad W (<[j := v]> (pad (S j) r)) = <[j := v]> (pad W r).
Proof.
  intros Hj. rewrite <- (pad_pad W (S j) r Hj). unfold pad at 1 3.
  rewrite length_insert. apply eq_sym, insert_app_l. rewrite length_pad. lia.
Qed.

Lemma width_alter (f : row -> row) (n i : nat) (sh : sheet) :
  (forall r, length (f r) = Nat.max n (length r)) -> (i < length sh)%nat ->
  width (alter f i sh) = Nat.max n (width sh).
Proof.
  intros Hf. revert i. induction sh as [|r sh IH]; intros i Hi; [simpl in Hi; lia|].
  destruct i as [|i].
  - change (alter f 0%nat (r :: sh)) with (f r :: sh). rewrite !width_cons, Hf. lia.
  - change (alter f (S i) (r :: sh)) with (r :: alter f i sh).
    rewrite !width_cons, IH by (simpl in Hi; lia). lia.
Qed.

Lemma map_alter {A B} (g : A -> B) (f : A -> A) (h : B -> B) (i : nat) (l : list A) :
  (forall x, g (f x) = h (g x)) -> map g (alter f i l) = alter h i (map g l).
Proof.
  intros Hg. revert i. induction l as [|x l IH]; intros i; [reflexivity|].
  destruct i as [|i].
  - change (alter f 0%nat (x :: l)) with (f x :: l). simpl. rewrite Hg. reflexivity.
  - change (alter f (S i) (x :: l)) with (x :: alter f i l).
    change (map g (x :: alter f i l)) with (g x :: map g (alter f i l)).
    rewrite IH. reflexivity.
Qed.

(** Writing a cell inside the data range changes that cell of the values
    read next, and nothing else. *)
Lemma getValues_setValue (i j : nat) (v : cell) (sh : sheet) :
  (i < length sh)%nat -> (S j <= width sh)%nat ->
  Sheet.getValues (Sheet.setValue (S i) (S j) v sh)
  = alter (fun r => <[j := v]> r) i (Sheet.getValues sh)
  /\ width (Sheet.setValue (S i) (S j) v sh) = width sh
  /\ length (Sheet.setValue (S i) (S j) v sh) = length sh
  /\ (i <> 0%nat -> hd [] (Sheet.setValue (S i) (S j) v sh) = hd [] sh).
Proof.
  intros Hi Hj. unfold Sheet.setValue.
  replace (S i - length sh)%nat with 0%nat by lia. simpl repeat. rewrite app_nil_r.
  assert (Hw : width (alter (fun r => <[j := v]> (pad (S j) r)) i sh) = width sh).
  { rewrite (width_alter _ (S j)); [lia | | exact Hi].
    intros r. rewrite length_insert. apply length_pad. }
  split; [|split; [exact Hw | split; [apply length_alter|]]].
  2: { intros Hi0. destruct i as [|i']; [contradiction|]. destruct sh; reflexivity. }
  destruct sh as [|r0 sh0]; [simpl in Hi; lia|].
  rewrite getValues_cons.
  destruct (alter (fun r => <[j := v]> (pad (S j) r)) i (r0 :: sh0)) as [|r1 sh1] eqn:Halt.
  { apply (f_equal length) in Halt. rewrite length_alter in Halt. discriminate. }
  rewrite getValues_cons, Hw, <- Halt. apply map_alter.
  intros r. apply pad_insert. exact Hj.
Qed.

Lemma at_insert_eq (j : nat) (v : cell) (r : row) :
  (j < length r)%nat -> at_ (<[j := v]> r) j = v.
Proof.
  intros Hj. unfold at_. rewrite nth_lookup, list_lookup_insert_eq by exact Hj. reflexivity.
Qed.

Lemma at_insert_ne (j k : nat) (v : cell) (r : row) :
  j <> k -> at_ (<[j := v]> r) k = at_ r k.
Proof.
  intros Hj. unfold at_. rewrite !nth_lookup, list_lookup_insert_ne by exact Hj. reflexivity.
Qed.

Lemma nth_alter_eq {A} (f : A -> A) (k : nat) (l : list A) (d : A) :
  (k < length l)%nat -> nth k (alter f k l) d = f (nth k l d).
Proof.
  intros Hk. rewrite !nth_lookup, list_lookup_alter_eq.
  destruct (lookup_lt_is_Some_2 l k Hk) as [x ->]. reflexivity.
Qed.

Lemma nth_alter_ne {A} (f : A -> A) (i k : nat) (l : list A) (d : A) :
  k <> i -> nth i (alter f k l) d = nth i l d.
Proof. intros Hk. rewrite !nth_lookup, list_lookup_alter_ne by exact Hk. reflexivity. Qed.

Lemma length_nth_getValues (sh : sheet) (i : nat) :
  (i < length sh)%nat -> length (nth i (Sheet.getValues sh) []) = width sh.
Proof.
  intros Hi. destruct sh as [|r0 sh0]; [simpl in Hi; lia|]. rewrite getValues_cons.
  rewrite (nth_indep _ [] (pad (width (r0 :: sh0)) [])) by (rewrite length_map; exact Hi).
  rewrite map_nth, length_pad.
  pose proof (width_In (nth i (r0 :: sh0) []) (r0 :: sh0) (nth_In _ _ Hi)). lia.
Qed.

Lemma findIndex_lt {A} (p : A -> bool) (l : list A) (i : nat) :
  findIndex p l = Some i -> (i < length l)%nat /\ forall d, p (nth i l d) = true.
Proof.
  intros H. destruct (findIndex_Some p l i H) as (l1 & x & l2 & -> & <- & Hx & _).
  split; [rewrite length_app; simpl; lia|].
  intros d. rewrite app_nth2, Nat.sub_diag by lia. exact Hx.
Qed.

(** [findIndex] reads the rows only through the test. *)
Lemma findIndex_pointwise {A} (p : A -> bool) (l1 l2 : list A) (d : A) :
  length l1 = length l2 -> (forall i, p (nth i l1 d) = p (nth i l2 d)) ->
  findIndex p l1 = findIndex p l2.
Proof.
  revert l2. induction l1 as [|x l1 IH]; intros [|y l2] Hlen Hp; try discriminate;
    [reflexivity|].
  simpl. rewrite (Hp 0%nat : p x = p y).
  rewrite (IH l2); [reflexivity | simpl in Hlen; lia | intros i; apply (Hp (S i))].
Qed.

Lemma find_findIndex {A} (p : A -> bool) (l : list A) (d : A) :
  find p l = (fun i => nth i l d) <$> findIndex p l.
Proof.
  induction l as [|x l IH]; [reflexivity|]. simpl. destruct (p x); [reflexivity|].
  rewrite IH. destruct (findIndex p l); reflexivity.
Qed.

Section Counter.
Variables (name : string) (j : nat) (delta : Z) (sh : sheet).
Hypothesis Hj : j <> 1%nat.

Local Abbreviation data := (Sheet.getValues sh).
Local Abbreviation named t := (fun r : row => strict_eq (at_ r 1) (CStr t)).
Local Abbreviation raised i := (CNum (Z.max 0 (parseIntOr0 (at_ (nth i data []) j) + delta))).

Lemma countersSet_start : countersSet j delta sh [] sh.
Proof. repeat split; reflexivity. Qed.

(** One round of the loop over the names. *)
Lemma countersSet_step (done : list string) (cur : sheet) (tag : string) (w : world) :
  sheets w !! name = Some cur -> (S j <= width sh)%nat -> countersSet j delta sh done cur ->
  exists cur',
    sheets (snd (match positive_index (findIndex (named tag) data) with
                 | Some rowIndex =>
                     onSheet name (Sheet.setValue (rowIndex + 1) (S j) (raised rowIndex))
                 | None => ret tt
                 end w)) !! name = Some cur'
    /\ countersSet j delta sh (done ++ [tag]) cur'.
Proof.
  intros Hcur Hwide (Hlen & Hw & Hhd & Hnames & Hcounts).
  assert (Hother : forall t i, findIndex (named t) data = Some (S i) ->
            positive_index (findIndex (named tag) data) <> Some (S i) ->
            existsb (String.eqb t) (done ++ [tag]) = existsb (String.eqb t) done).
  { intros t i Ht Hne. rewrite existsb_app. simpl. rewrite orb_false_r.
    destruct (String.eqb_spec t tag) as [-> | _]; [|apply orb_false_r].
    rewrite Ht in Hne. contradiction. }
  destruct (positive_index (findIndex (named tag) data)) as [k|] eqn:Hk.
  - destruct (findIndex (named tag) data) as [[|k']|] eqn:Hfind; try discriminate.
    injection Hk as <-.
    destruct (findIndex_lt _ _ _ Hfind) as [Hlt Htag]. specialize (Htag []).
    assert (Hne : sh <> []) by (intros ->; simpl in Hlt; lia).
    rewrite length_getValues in Hlt by exact Hne.
    replace (S k' + 1)%nat with (S (S k')) by lia.
    destruct (getValues_setValue (S k') j (raised (S k')) cur) as (Hvals & Hw' & Hlen' & Hhd');
      [lia | lia |].
    eexists. split; [cbn [onSheet snd sheets]; rewrite lookup_alter_eq, Hcur; reflexivity|].
    split; [lia|]. split; [lia|]. split; [rewrite Hhd' by lia; exact Hhd|].
    cbv zeta. rewrite Hvals. split.
    + intros i. destruct (Nat.eq_dec (S k') i) as [<- | Hi].
      * rewrite nth_alter_eq by (rewrite length_getValues; [lia | intros ->; simpl in *; lia]).
        rewrite at_insert_ne by exact Hj. apply Hnames.
      * rewrite nth_alter_ne by exact Hi. apply Hnames.
    + intros t i Ht. destruct (Nat.eq_dec (S k') (S i)) as [Heq | Hi].
      * rewrite <- Heq.
        rewrite nth_alter_eq by (rewrite length_getValues; [lia | intros ->; simpl in *; lia]).
        rewrite at_insert_eq by (rewrite length_nth_getValues; lia).
        assert (t = tag) as ->.
        { destruct (findIndex_lt _ _ _ Ht) as [_ Hrow]. specialize (Hrow []).
          rewrite <- Heq in Hrow.
          apply strict_eq_CStr in Hrow. apply strict_eq_CStr in Htag. congruence. }
        rewrite existsb_app. simpl. rewrite String.eqb_refl, orb_true_r. reflexivity.
      * rewrite nth_alter_ne by exact Hi. rewrite (Hother t i Ht) by congruence.
        apply Hcounts. exact Ht.
  - exists cur. split; [exact Hcur|]. split; [exact Hlen|]. split; [exact Hw|].
    split; [exact Hhd|]. split; [exact Hnames|]. intros t i Ht.
    rewrite (Hother t i Ht) by discriminate. apply Hcounts. exact Ht.
Qed.

(** The loop over the names, from any state it has reached. *)
Lemma countersSet_forEach (tags done : list string) (cur : sheet) (w : world) :
  sheets w !! name = Some cur -> (S j <= width sh)%nat -> countersSet j delta sh done cur ->
  exists cur',
    sheets (snd (forEach tags (fun tag =>
                   match positive_index (findIndex (named tag) data) with
                   | Some rowIndex =>
                       onSheet name (Sheet.setValue (rowIndex + 1) (S j) (raised rowIndex))
                   | None => ret tt
                   end) w)) !! name = Some cur'
    /\ countersSet j delta sh (done ++ tags) cur'.
Proof.
  intros Hcur Hwide. revert done cur w Hcur.
  induction tags as [|tag tags IH]; intros done cur w Hcur Hinv.
  - exists cur. rewrite app_nil_r. split; [exact Hcur | exact Hinv].
  - cbn [forEach]. rewrite bind_run.
    destruct (countersSet_step done cur tag w Hcur Hwide Hinv) as (cur1 & Hcur1 & Hinv1).
    destruct (IH (done ++ [tag]) cur1 _ Hcur1 Hinv1) as (cur' & Hcur' & Hinv').
    exists cur'. split; [exact Hcur'|]. rewrite <- app_assoc in Hinv'. exact Hinv'.
Qed.

(** What the first data row named [t] holds in cell [j], before and after. *)
Lemma countersSet_read (done : list string) (cur : sheet) (t : string) (h : row)
    (rows : list row) :
  sh = h :: rows -> (2 <= length h)%nat -> at_ h 1 <> CStr t ->
  countersSet j delta sh done cur ->
  (fun r => at_ r j) <$> find (named t) (drop 1 (Sheet.getValues cur))
  = (fun old => if existsb (String.eqb t) done
                then CNum (Z.max 0 (parseIntOr0 old + delta)) else old)
    <$> ((fun r => at_ r j) <$> find (named t) (drop 1 data)).
Proof.
  intros Hsh Hh Hhead (Hlen & Hw & _ & Hnames & Hcounts).
  assert (Hcur : cur <> []) by (intros ->; rewrite Hsh in Hlen; discriminate).
  assert (Hsame : findIndex (named t) (Sheet.getValues cur) = findIndex (named t) data).
  { apply (findIndex_pointwise _ _ _ []).
    - rewrite !length_getValues; [exact Hlen | rewrite Hsh; discriminate | exact Hcur].
    - intros i. rewrite Hnames. reflexivity. }
  assert (Hhd : forall l, length l = length sh ->
            (forall i, at_ (nth i l []) 1 = at_ (nth i data []) 1) ->
            findIndex (named t) l = S <$> findIndex (named t) (drop 1 l)).
  { intros l Hl Hn. destruct l as [|x l]; [rewrite Hsh in Hl; discriminate|].
    simpl. rewrite drop_0. specialize (Hn 0%nat). simpl in Hn. rewrite Hn, Hsh.
    rewrite getValues_cons. simpl. rewrite at_pad_stored by lia.
    rewrite strict_eq_CStr_false by exact Hhead. reflexivity. }
  assert (H1 := Hhd (Sheet.getValues cur)
                  (eq_trans (length_getValues cur Hcur) Hlen) Hnames).
  assert (Hne : sh <> []) by (rewrite Hsh; discriminate).
  assert (H2 := Hhd data (length_getValues sh Hne) (fun i => eq_refl)).
  rewrite H1, H2 in Hsame.
  rewrite !(find_findIndex _ _ []).
  destruct (findIndex (named t) (drop 1 (Sheet.getValues cur))) as [i|] eqn:Hi;
    destruct (findIndex (named t) (drop 1 data)) as [i'|] eqn:Hi'; try discriminate;
    [|reflexivity].
  injection Hsame as <-. simpl.
  assert (Hdrop : forall l : list row, nth i (drop 1 l) [] = nth (S i) l []).
  { intros [|x l]; [destruct i; reflexivity | reflexivity]. }
  rewrite !Hdrop. f_equal. apply Hcounts. rewrite H2. reflexivity.
Qed.

End Counter.

(** X10: [updateTagCounts] sets the counter of every tag its Tags string
    lists to [max(0, old + delta)], where [old] is the counter's value when
    the call began, so that a tag listed twice moves once; the counters of
    the other tags stay as they are.  Here the Tags sheet has its header row
    of five cells or more, the counter of a tag is read in the first data
    row with the tag's name, and the header's name cell is not that name. *)
Theorem tag_counters_move_once (s t : string) (delta : Z) (w : world) (h : row)
    (rows : list row) :
  s <> EmptyString ->
  sheets w !! "Tags" = Some (h :: rows) ->
  (5 <= length h)%nat ->
  at_ h 1 <> CStr t ->
  usageCountOf (snd (updateTagCounts (CStr s) delta w)) t
  = (fun old => if existsb (String.eqb t) (map Js.trim (Js.split "," s))
                then CNum (Z.max 0 (parseIntOr0 old + delta)) else old)
    <$> usageCountOf w t.
Proof.
  intros Hs Hsh Hh Hhead.
  assert (Hwide : (5 <= width (h :: rows))%nat) by (rewrite width_cons; lia).
  unfold updateTagCounts. cbn [truthy].
  destruct (String.eqb_spec s EmptyString) as [-> | _]; [contradiction|]. cbn [negb].
  rewrite bind_run. cbn [getSheetByName fst snd]. rewrite Hsh.
  destruct (countersSet_forEach "Tags" 4 delta (h :: rows) ltac:(lia)
              (map Js.trim (Js.split "," s)) [] (h :: rows) w Hsh Hwide
              (countersSet_start 4 delta (h :: rows))) as (cur & Hcur & Hinv).
  unfold usageCountOf, dataRows. rewrite Hcur, Hsh.
  simpl app in Hinv.
  apply (countersSet_read 4 delta (h :: rows) ltac:(lia) _ cur t h rows eq_refl);
    [lia | assumption..].
Qed.

(** One call of [updateCategoryCount], read through [documentCountOf]. *)
Lemma updateCategoryCount_read (c t : string) (delta : Z) (w : world) (h : row)
    (rows : list row) :
  sheets w !! "Categories" = Some (h :: rows) ->
  (6 <= length h)%nat ->
  at_ h 1 <> CStr t ->
  let w' := snd (updateCategoryCount (CStr c) delta w) in
  (exists rows', sheets w' !! "Categories" = Some (h :: rows'))
  /\ documentCountOf w' t
     = (fun old => if String.eqb t c then CNum (Z.max 0 (parseIntOr0 old + delta)) else old)
       <$> documentCountOf w t.
Proof.
  intros Hsh Hh Hhead w'.
  assert (Hwide : (6 <= width (h :: rows))%nat) by (rewrite width_cons; lia).
  subst w'. unfold updateCategoryCount.
  rewrite bind_run. cbn [getSheetByName fst snd]. rewrite Hsh.
  destruct (countersSet_step "Categories" 5 delta (h :: rows) ltac:(lia)
              [] (h :: rows) c w Hsh Hwide (countersSet_start 5 delta (h :: rows)))
    as (cur & Hcur & Hinv).
  simpl app in Hinv. split.
  - destruct Hinv as (Hlen & _ & Hhd & _). destruct cur as [|h' rows']; [discriminate|].
    simpl in Hhd. subst h'. exists rows'. exact Hcur.
  - unfold documentCountOf, dataRows. rewrite Hcur, Hsh.
    rewrite (countersSet_read 5 delta (h :: rows) ltac:(lia) [c] cur t h rows eq_refl);
      [|lia | assumption..].
    simpl existsb. rewrite orb_false_r. reflexivity.
Qed.

(** X11: on a Categories sheet whose header row has six cells or more, a
    call of [updateCategoryCount] for the category [c] sets the counter in
    the first data row named [c] to [max(0, old + delta)] and leaves the
    counter of every other category as it is. *)
Theorem category_counter_moves (c t : string) (delta : Z) (w : world) (h : row)
    (rows : list row) :
  sheets w !! "Categories" = Some (h :: rows) ->
  (6 <= length h)%nat ->
  at_ h 1 <> CStr t ->
  documentCountOf (snd (updateCategoryCount (CStr c) delta w)) t
  = (fun old => if String.eqb t c then CNum (Z.max 0 (parseIntOr0 old + delta)) else old)
    <$> documentCountOf w t.
Proof. intros Hsh Hh Hhead. apply (updateCategoryCount_read c t delta w h rows Hsh Hh Hhead). Qed.

(** X12: the counter does not go below zero, so the two orders of a
    raise and a lowering differ: a count [n >= 0] raised by one and then
    lowered by one is [n] again, while lowered first and then raised it is
    [max(1, n)], which is 1 for a count of 0. *)
Theorem category_counter_round_trip (c : string) (n : Z) (w : world) (h : row)
    (rows : list row) :
  sheets w !! "Categories" = Some (h :: rows) ->
  (6 <= length h)%nat ->
  at_ h 1 <> CStr c ->
  documentCountOf w c = Some (CNum n) ->
  0 <= n ->
  let raise := updateCategoryCount (CStr c) 1 in
  let lower := updateCategoryCount (CStr c) (-1) in
  documentCountOf (snd (lower (snd (raise w)))) c = Some (CNum n)
  /\ documentCountOf (snd (raise (snd (lower w)))) c = Some (CNum (Z.max 1 n)).
Proof.
  intros Hsh Hh Hhead Hold Hn raise lower. subst raise lower. split.
  - destruct (updateCategoryCount_read c c 1 w h rows Hsh Hh Hhead) as [[rows1 Hsh1] H1].
    destruct (updateCategoryCount_read c c (-1) _ h rows1 Hsh1 Hh Hhead) as [_ H2].
    rewrite H2, H1, Hold. simpl. rewrite String.eqb_refl. simpl. f_equal. f_equal. lia.
  - destruct (updateCategoryCount_read c c (-1) w h rows Hsh Hh Hhead) as [[rows1 Hsh1] H1].
    destruct (updateCategoryCount_read c c 1 _ h rows1 Hsh1 Hh Hhead) as [_ H2].
    rewrite H2, H1, Hold. simpl. rewrite String.eqb_refl. simpl. f_equal. f_equal. lia.
Qed.

(** X13: the row lookup of the counters starts at the header row and
    only a later row is written, so a category or a tag whose name is the
    text of the header's name cell never has its counter moved.  The calls
    change nothing in that case. *)
Theorem header_name_is_never_counted (c : string) (delta : Z) (w : world) (h : row)
    (rows : list row) :
  at_ h 1 = CStr c ->
  (sheets w !! "Categories" = Some (h :: rows) ->
     updateCategoryCount (CStr c) delta w = (tt, w))
  /\ (sheets w !! "Tags" = Some (h :: rows) -> Js.split "," c = [c] -> Js.trim c = c ->
        updateTagCounts (CStr c) delta w = (tt, w)).
Proof.
  intros Hhead.
  assert (Hstored : (1 < length h)%nat).
  { destruct (Nat.ltb_spec 1 (length h)) as [|Hshort]; [assumption|].
    unfold at_ in Hhead. rewrite nth_overflow in Hhead by exact Hshort. discriminate. }
  assert (Hfind : findIndex (fun r => strict_eq (at_ r 1) (CStr c))
                    (Sheet.getValues (h :: rows)) = Some 0%nat).
  { rewrite getValues_cons. simpl. rewrite at_pad_stored by exact Hstored.
    rewrite Hhead. simpl. rewrite String.eqb_refl. reflexivity. }
  split.
  - intros Hsh. unfold updateCategoryCount.
    rewrite bind_run. cbn [getSheetByName fst snd]. rewrite Hsh, Hfind. reflexivity.
  - intros Hsh Hsplit Htrim. unfold updateTagCounts. cbn [truthy].
    destruct (String.eqb_spec c EmptyString) as [-> | _]; [reflexivity|]. cbn [negb].
    rewrite bind_run. cbn [getSheetByName fst snd]. rewrite Hsh, Hsplit. cbn [map].
    rewrite Htrim. cbn [forEach]. rewrite bind_run, Hfind. reflexivity.
Qed.

(** ** Adding a document twice *)

(** An add that passes the checks appends one row to the Documents sheet. *)
Lemma addDocument_appends (rt : runtime) (who u : string) (d : documentData) (w : world)
    (sh : sheet) :
  who <> EmptyString ->
  present (DocumentName d) = true ->
  present (Category d) = true ->
  GoogleDriveURL d = Some u -> u <> EmptyString ->
  sheets w !! "Documents" = Some sh ->
  fst (isDuplicateURL u w) = false ->
  exists docId t,
    fst (addDocument rt who d w)
    = AsJson (Reply true None (Some "Document added successfully") (Some docId))
    /\ sheets (snd (addDocument rt who d w)) !! "Documents"
       = Some (sh ++ [[CStr docId; CStr (default EmptyString (DocumentName d)); CStr u;
                       CStr (default EmptyString (Description d));
                       CStr (default EmptyString (Category d));
                       CStr (detectFileType (Some u)); CStr who;
                       CStr (default EmptyString (Tags d)); CDate t; CDate t;
                       CStr "Active"]]).
Proof.
  intros Hwho Hname Hcat Hurl Hu Hsh Hdup. unfold addDocument.
  rewrite bind_run, getCurrentUser_world.
  destruct (getCurrentUser_signed_in who w Hwho) as [-> ->].
  rewrite Hname, Hcat, Hurl.
  assert (Hpresent : present (Some u) = true) by (destruct u; [contradiction | reflexivity]).
  rewrite Hpresent. cbn [negb orb].
  change (default EmptyString (Some u)) with u. rewrite bind_run.
  assert (Hw : snd (isDuplicateURL u w) = w).
  { unfold isDuplicateURL. rewrite bind_run. cbn [getSheetByName fst snd]. rewrite Hsh.
    destruct (Sheet.getLastRow sh <=? 1)%nat; reflexivity. }
  rewrite Hdup, Hw. rewrite bind_run. cbn [getSheetByName fst snd]. rewrite Hsh.
  rewrite !bind_run. cbn [fst snd ret].
  do 2 eexists. split; [reflexivity|].
  destruct (present (Tags d)); kept; cbn [onSheet snd sheets];
    rewrite lookup_alter_eq, keeps_now, keeps_generateId, Hsh; reflexivity.
Qed.

(** An add whose url a data row already holds is refused. *)
Lemma addDocument_refuses (rt : runtime) (who u : string) (d : documentData) (w : world) :
  who <> EmptyString ->
  present (DocumentName d) = true ->
  present (Category d) = true ->
  GoogleDriveURL d = Some u -> u <> EmptyString ->
  fst (isDuplicateURL u w) = true ->
  addDocument rt who d w = (AsJson (failure "A document with this URL already exists"), w).
Proof.
  intros Hwho Hname Hcat Hurl Hu Hdup. unfold addDocument.
  rewrite bind_run, getCurrentUser_world.
  destruct (getCurrentUser_signed_in who w Hwho) as [-> ->].
  rewrite Hname, Hcat, Hurl.
  assert (Hpresent : present (Some u) = true) by (destruct u; [contradiction | reflexivity]).
  rewrite Hpresent. cbn [negb orb].
  change (default EmptyString (Some u)) with u. rewrite bind_run.
  assert (Hw : snd (isDuplicateURL u w) = w).
  { unfold isDuplicateURL. rewrite bind_run. cbn [getSheetByName fst snd].
    destruct (sheets w !! "Documents") as [sh|]; [|reflexivity].
    destruct (Sheet.getLastRow sh <=? 1)%nat; reflexivity. }
  rewrite Hdup, Hw. reflexivity.
Qed.

(** X14: on a Documents sheet with its header row, an add with the
    required fields by a signed-in user cannot be repeated: whatever the
    first call answered, the same add made again is refused with the
    duplicate-url error and changes nothing. *)
Theorem addDocument_twice (rt : runtime) (who u : string) (d : documentData) (w : world)
    (h : row) (rows : list row) :
  who <> EmptyString ->
  present (DocumentName d) = true ->
  present (Category d) = true ->
  GoogleDriveURL d = Some u -> u <> EmptyString ->
  sheets w !! "Documents" = Some (h :: rows) ->
  let w1 := snd (addDocument rt who d w) in
  addDocument rt who d w1
  = (AsJson (failure "A document with this URL already exists"), w1).
Proof.
  intros Hwho Hname Hcat Hurl Hu Hsh w1.
  destruct (fst (isDuplicateURL u w)) eqn:Hdup.
  - assert (Hfirst := addDocument_refuses rt who u d w Hwho Hname Hcat Hurl Hu Hdup).
    subst w1. rewrite Hfirst. cbn [snd]. exact Hfirst.
  - destruct (addDocument_appends rt who u d w _ Hwho Hname Hcat Hurl Hu Hsh Hdup)
      as (docId & t & _ & Hsh1).
    apply (addDocument_refuses rt who u d w1 Hwho Hname Hcat Hurl Hu).
    unfold isDuplicateURL. rewrite bind_run. cbn [getSheetByName fst snd].
    fold w1 in Hsh1. rewrite Hsh1.
    replace (Sheet.getLastRow _ <=? 1)%nat with false
      by (symmetry; apply Nat.leb_gt; unfold Sheet.getLastRow; simpl;
          rewrite length_app; simpl; lia).
    cbn [fst ret]. change ((h :: rows) ++ ?x) with (h :: rows ++ x). cbn [drop].
    rewrite drop_0, map_app, existsb_app. simpl. rewrite String.eqb_refl.
    rewrite orb_true_r. reflexivity.
Qed.

(** X15: the duplicate check starts at row 2.  On a Documents sheet with
    no row at all, not even the header, the first document is written to
    row 1, and the same add made again succeeds: the sheet then holds two
    rows with the same url. *)
Theorem addDocument_twice_on_blank_sheet (rt : runtime) (who u : string) (d : documentData)
    (w : world) :
  who <> EmptyString ->
  present (DocumentName d) = true ->
  present (Category d) = true ->
  GoogleDriveURL d = Some u -> u <> EmptyString ->
  sheets w !! "Documents" = Some [] ->
  let first := addDocument rt who d w in
  let second := addDocument rt who d (snd first) in
  exists id1 id2 r1 r2,
    fst first = AsJson (Reply true None (Some "Document added successfully") (Some id1))
    /\ fst second = AsJson (Reply true None (Some "Document added successfully") (Some id2))
    /\ sheets (snd second) !! "Documents" = Some [r1; r2]
    /\ at_ r1 0 = CStr id1 /\ at_ r2 0 = CStr id2
    /\ at_ r1 2 = CStr u /\ at_ r2 2 = CStr u.
Proof.
  intros Hwho Hname Hcat Hurl Hu Hsh first second.
  assert (Hblank : forall w0 sh0, sheets w0 !! "Documents" = Some sh0 ->
            (length sh0 <= 1)%nat -> fst (isDuplicateURL u w0) = false).
  { intros w0 sh0 Hsh0 Hlen. unfold isDuplicateURL.
    rewrite bind_run. cbn [getSheetByName fst snd]. rewrite Hsh0.
    unfold Sheet.getLastRow. destruct (Nat.leb_spec (length sh0) 1); [reflexivity | lia]. }
  destruct (addDocument_appends rt who u d w _ Hwho Hname Hcat Hurl Hu Hsh
              (Hblank w [] Hsh ltac:(simpl; lia))) as (id1 & t1 & Hres1 & Hsh1).
  fold first in Hres1, Hsh1. cbn [app] in Hsh1.
  destruct (addDocument_appends rt who u d (snd first) _ Hwho Hname Hcat Hurl Hu Hsh1
              (Hblank (snd first) _ Hsh1 ltac:(simpl; lia))) as (id2 & t2 & Hres2 & Hsh2).
  fold second in Hres2, Hsh2. cbn [app] in Hsh2.
  do 4 eexists. split; [exact Hres1|]. split; [exact Hres2|]. split; [exact Hsh2|].
  repeat split; reflexivity.
Qed.

(** ** The favorites listing *)

(** The ids [getUserFavorites] lists for a signed-in user are those of the
    favorite rows that are theirs. *)
Lemma getUserFavorites_lists (who docId : string) (w : world) :
  who <> EmptyString ->
  exists ids,
    fst (getUserFavorites who w) = AsObject (okWith ids)
    /\ (In (CStr docId) ids <-> isFavorite w who docId = true).
Proof.
  intros Hwho. unfold getUserFavorites, isFavorite, dataRows.
  rewrite bind_run, getCurrentUser_world.
  destruct (getCurrentUser_signed_in who w Hwho) as [-> ->]. cbn [negb].
  rewrite bind_run. cbn [getSheetByName fst snd].
  destruct (sheets w !! "UserFavorites") as [sh|];
    [|exists []; split; [reflexivity | simpl; split; [tauto | discriminate]]].
  destruct (Nat.leb_spec (Sheet.getLastRow sh) 1) as [Hshort | Hlong].
  - exists []. split; [reflexivity|].
    assert (Hnone : drop 1 (Sheet.getValues sh) = []).
    { unfold Sheet.getLastRow in Hshort.
      destruct sh as [|h [|r rows]]; [reflexivity | reflexivity | simpl in Hshort; lia]. }
    rewrite Hnone. simpl. split; [tauto | discriminate].
  - eexists. split; [reflexivity|]. rewrite existsb_exists, in_map_iff.
    split.
    + intros (r & Hr & Hin). apply filter_In in Hin. destruct Hin as [Hin Hmine].
      exists r. split; [exact Hin|]. unfold favMatch. rewrite Hmine, Hr. simpl.
      apply String.eqb_refl.
    + intros (r & Hin & Hfav). unfold favMatch in Hfav. apply andb_true_iff in Hfav.
      destruct Hfav as [Hmine Hdoc]. exists r.
      split; [apply strict_eq_CStr; exact Hdoc | apply filter_In; split; assumption].
Qed.

(** X16: for a signed-in user, [getUserFavorites] lists a document id
    exactly when some favorite row, as the script reads the sheet, holds the
    user's email and that id; it lists nothing when the sheet is missing or
    has no row below the first. *)
Theorem getUserFavorites_lists_own_rows (who docId : string) (w : world) :
  who <> EmptyString ->
  exists ids,
    fst (getUserFavorites who w) = AsObject (okWith ids)
    /\ (In (CStr docId) ids <-> isFavorite w who docId = true)
    /\ ((forall sh, sheets w !! "UserFavorites" = Some sh -> (length sh <= 1)%nat) ->
        ids = []).
Proof.
  intros Hwho. destruct (getUserFavorites_lists who docId w Hwho) as (ids & Hids & Hiff).
  exists ids. split; [exact Hids|]. split; [exact Hiff|].
  intros Hshort. revert Hids. unfold getUserFavorites.
  rewrite bind_run, getCurrentUser_world.
  destruct (getCurrentUser_signed_in who w Hwho) as [-> ->]. cbn [negb].
  rewrite bind_run. cbn [getSheetByName fst snd].
  destruct (sheets w !! "UserFavorites") as [sh|]; [|intros [= <-]; reflexivity].
  unfold Sheet.getLastRow. specialize (Hshort sh eq_refl).
  destruct (Nat.leb_spec (length sh) 1); [|lia]. intros [= <-]. reflexivity.
Qed.

(** X17: the answer of [toggleFavorite] and the listing read next agree.
    On a favorites sheet with a header row that is not a row of the user's,
    and with at most one row for the pair, the document id is listed by
    [getUserFavorites] after the toggle exactly when the toggle answered
    [favorited: true]. *)
Theorem toggleFavorite_then_getUserFavorites (rt : runtime) (who docId : string)
    (w : world) (h : row) (rows : list row) :
  who <> EmptyString -> docId <> EmptyString ->
  sheets w !! "UserFavorites" = Some (h :: rows) ->
  favMatch who docId h = false ->
  (length (List.filter (favMatch who docId) rows) <= 1)%nat ->
  let out := toggleFavorite rt who docId w in
  exists favorited ids,
    fst out = AsJson (okWith favorited)
    /\ fst (getUserFavorites who (snd out)) = AsObject (okWith ids)
    /\ (In (CStr docId) ids <-> favorited = true)
    /\ favorited = negb (isFavorite w who docId).
Proof.
  intros Hwho Hdoc Hsh Hh Hone out.
  pose proof (toggleFavorite_step rt who docId w h rows Hwho Hdoc Hsh Hh) as Hstep.
  fold out in Hstep. cbv zeta in Hstep.
  destruct (getUserFavorites_lists who docId (snd out) Hwho) as (ids & Hids & Hiff).
  rewrite (isFavorite_rows w who docId h rows Hwho Hdoc Hsh).
  destruct (findIndex (favMatch who docId) rows) as [i|] eqn:Hfind.
  - destruct Hstep as [Hres Hsh']. exists false, ids.
    split; [exact Hres|]. split; [exact Hids|].
    destruct (findIndex_Some _ _ _ Hfind) as (l1 & x & l2 & -> & <- & Hx & Hl1).
    rewrite delete_middle in Hsh'.
    rewrite (isFavorite_rows _ who docId h _ Hwho Hdoc Hsh') in Hiff.
    rewrite (findIndex_unique _ l1 l2 x Hx Hl1 Hone) in Hiff.
    split; [exact Hiff|]. rewrite existsb_app. simpl. rewrite Hx, orb_true_r. reflexivity.
  - destruct Hstep as [Hres (id & t & Hsh')]. exists true, ids.
    split; [exact Hres|]. split; [exact Hids|].
    rewrite (isFavorite_rows _ who docId h _ Hwho Hdoc Hsh') in Hiff.
    apply findIndex_None in Hfind. rewrite Hfind.
    split; [|reflexivity]. rewrite Hiff, existsb_app. simpl.
    unfold favMatch at 2. simpl. rewrite !String.eqb_refl, orb_true_r. tauto.
Qed.

(** ** Sorted listings *)

(** [sort] orders its result when the comparator is consistent on the
    elements: [gt] is never true both ways, and its negation is
    transitive. *)
Lemma sort_insert_sorted {A} (gt : A -> A -> bool) (x : A) (l : list A) :
  (forall a b, In a (x :: l) -> In b (x :: l) -> gt a b = true -> gt b a = false) ->
  (forall a b c, In a (x :: l) -> In b (x :: l) -> In c (x :: l) ->
                 gt a b = false -> gt b c = false -> gt a c = false) ->
  StronglySorted (fun a b => gt a b = false) l ->
  StronglySorted (fun a b => gt a b = false) (sort_insert gt x l).
Proof.
  intros Hasym Htrans Hl. induction Hl as [|y l Hl IH Hy]; simpl.
  - repeat constructor.
  - destruct (gt x y) eqn:Hxy.
    + constructor.
      * apply IH.
        -- intros a b Ha Hb. apply Hasym; simpl in *; tauto.
        -- intros a b c Ha Hb Hc. apply Htrans; simpl in *; tauto.
      * apply List.Forall_forall. intros z Hz. apply In_sort_insert in Hz.
        destruct Hz as [-> | Hz].
        -- apply Hasym; simpl; tauto.
        -- rewrite List.Forall_forall in Hy. apply Hy, Hz.
    + constructor; [constructor; assumption|].
      constructor; [exact Hxy|].
      apply List.Forall_forall. intros z Hz. rewrite List.Forall_forall in Hy.
      apply (Htrans x y z); simpl; auto.
Qed.

Lemma sort_sorted {A} (gt : A -> A -> bool) (l : list A) :
  (forall a b, In a l -> In b l -> gt a b = true -> gt b a = false) ->
  (forall a b c, In a l -> In b l -> In c l ->
                 gt a b = false -> gt b c = false -> gt a c = false) ->
  StronglySorted (fun a b => gt a b = false) (sort gt l).
Proof.
  induction l as [|x l IH]; intros Hasym Htrans; simpl; [constructor|].
  apply sort_insert_sorted.
  - intros a b Ha Hb. apply Hasym; simpl in *; rewrite ?In_sort in *; tauto.
  - intros a b c Ha Hb Hc. apply Htrans; simpl in *; rewrite ?In_sort in *; tauto.
  - apply IH.
    + intros a b Ha Hb. apply Hasym; simpl; tauto.
    + intros a b c Ha Hb Hc. apply Htrans; simpl; tauto.
Qed.

Lemma StronglySorted_weaken {A} (R R' : A -> A -> Prop) (l : list A) :
  (forall a b, In a l -> In b l -> R a b -> R' a b) ->
  StronglySorted R l -> StronglySorted R' l.
Proof.
  intros Himpl Hl. induction Hl as [|x l Hl IH Hx]; constructor.
  - apply IH. intros a b Ha Hb. apply Himpl; simpl; tauto.
  - rewrite List.Forall_forall in *. intros y Hy. apply Himpl; simpl; auto.
Qed.

(** ** The online-users listing *)

Section Online.
Variable rt : runtime.

(** What [getOnlineUsers] answers on a sheet with its header row. *)
Lemma getOnlineUsers_listing (w : world) (h : row) (rows : list row) :
  sheets w !! "OnlineUsers" = Some (h :: rows) ->
  let rows' :=
    List.filter (fun r => negb (diff_pos (Some (clock rt (tick w)
                                                - CONFIG_sessionTimeout * 60 * 1000))
                                         (toTime rt (at_ r 4)))) rows in
  fst (getOnlineUsers rt w)
  = AsJson (okWith
      (sort (fun a b => diff_pos (toTime rt (lastActivity b)) (toTime rt (lastActivity a)))
         (map userOfRow
            (List.filter (fun r => strict_eq (at_ r 6) (CStr "Online"))
               (map (pad (width (h :: rows'))) rows'))))).
Proof.
  intros Hsh rows'. unfold getOnlineUsers.
  rewrite bind_run. cbn [getSheetByName fst snd]. rewrite Hsh.
  destruct rows as [|r1 rest]; [reflexivity|].
  change (Sheet.getLastRow (h :: r1 :: rest) <=? 1)%nat with false. cbv iota.
  rewrite !bind_run. cbn [getSheetByName fst snd ret].
  rewrite (cleanupExpiredSessions_rows rt "OnlineUsers" w h (r1 :: rest) Hsh). fold rows'.
  reflexivity.
Qed.

End Online.

(** X18: on an OnlineUsers sheet with its header row, [getOnlineUsers]
    lists only sessions with status "Online" whose last activity is not
    older than the timeout at the clock reading of the call, it lists every
    such row that has its seven cells, and when the listed activity times
    are all dates the listing runs from the most recent activity to the
    oldest. *)
Theorem getOnlineUsers_lists_live_sessions (rt : runtime) (w : world) (h : row)
    (rows : list row) :
  sheets w !! "OnlineUsers" = Some (h :: rows) ->
  let cutoff := clock rt (tick w) - CONFIG_sessionTimeout * 60 * 1000 in
  exists users,
    fst (getOnlineUsers rt w) = AsJson (okWith users)
    /\ (forall x, In x users ->
          ou_status x = CStr "Online"
          /\ diff_pos (Some cutoff) (toTime rt (lastActivity x)) = false)
    /\ (forall r, In r rows -> (7 <= length r)%nat -> at_ r 6 = CStr "Online" ->
          diff_pos (Some cutoff) (toTime rt (at_ r 4)) = false ->
          In (userOfRow r) users)
    /\ ((forall x, In x users -> toTime rt (lastActivity x) <> None) ->
        StronglySorted
          (fun a b => exists ta tb, toTime rt (lastActivity a) = Some ta
                                    /\ toTime rt (lastActivity b) = Some tb /\ tb <= ta)
          users).
Proof.
  intros Hsh cutoff. eexists. split; [apply (getOnlineUsers_listing rt w h rows Hsh)|].
  fold cutoff.
  set (rows' := List.filter (fun r => negb (diff_pos (Some cutoff) (toTime rt (at_ r 4)))) rows).
  set (gt := fun a b : onlineUser =>
               diff_pos (toTime rt (lastActivity b)) (toTime rt (lastActivity a))).
  split; [|split].
  - intros x Hx. apply In_sort, in_map_iff in Hx. destruct Hx as (p & <- & Hp).
    apply filter_In in Hp. destruct Hp as [Hp Honline].
    apply in_map_iff in Hp. destruct Hp as (r & <- & Hr).
    apply filter_In in Hr. destruct Hr as [_ Hlive].
    split; [apply strict_eq_CStr; exact Honline|].
    cbn [userOfRow lastActivity]. rewrite toTime_pad. apply negb_true_iff. exact Hlive.
  - intros r Hr Hfull Honline Hlive. apply In_sort, in_map_iff.
    exists (pad (width (h :: rows')) r). split.
    + unfold userOfRow. rewrite !at_pad_stored by lia. reflexivity.
    + apply filter_In. split.
      * apply in_map, filter_In. split; [exact Hr | rewrite Hlive; reflexivity].
      * rewrite at_pad_stored by lia. apply strict_eq_CStr. exact Honline.
  - intros Hvalid.
    apply (StronglySorted_weaken (fun a b => gt a b = false)).
    + intros a b Ha Hb Hab. unfold gt in Hab.
      destruct (toTime rt (lastActivity a)) as [ta|] eqn:Hta; [|destruct (Hvalid a Ha Hta)].
      destruct (toTime rt (lastActivity b)) as [tb|] eqn:Htb; [|destruct (Hvalid b Hb Htb)].
      exists ta, tb. repeat split. simpl in Hab. lia.
    + apply sort_sorted.
      * intros a b _ _. unfold gt.
        destruct (toTime rt (lastActivity a)), (toTime rt (lastActivity b)); simpl; lia.
      * intros a b c Ha Hb Hc. unfold gt.
        assert (Hin : forall y, In y
                  (map userOfRow
                     (List.filter (fun r => strict_eq (at_ r 6) (CStr "Online"))
                        (map (pad (width (h :: rows'))) rows'))) ->
                  toTime rt (lastActivity y) <> None)
          by (intros y Hy; apply Hvalid, In_sort, Hy).
        apply Hin in Ha, Hb, Hc.
        destruct (toTime rt (lastActivity a)), (toTime rt (lastActivity b)),
          (toTime rt (lastActivity c)); simpl; try congruence; lia.
Qed.

(** ** Sessions *)

Lemma sublist_List_filter {A} (f : A -> bool) (l : list A) : sublist (List.filter f l) l.
Proof.
  induction l as [|x l IH]; simpl; [constructor|].
  destruct (f x); [apply sublist_skip | apply sublist_cons]; exact IH.
Qed.

(** X19: the sweep removes the rows whose last activity is a time older
    than the timeout at the clock reading of the sweep, and no other: a row
    whose last activity is within the timeout, or is not a date at all,
    stays, and the rows that stay keep their order. *)
Theorem sweep_removes_only_expired (rt : runtime) (w : world) (h : row) (rows : list row) :
  sheets w !! "OnlineUsers" = Some (h :: rows) ->
  let cutoff := clock rt (tick w) - CONFIG_sessionTimeout * 60 * 1000 in
  exists rows',
    sheets (snd (cleanupExpiredSessions rt "OnlineUsers" w)) !! "OnlineUsers"
    = Some (h :: rows')
    /\ sublist rows' rows
    /\ forall r, In r rows' <->
                 In r rows /\ (toTime rt (at_ r 4) = None
                               \/ exists t, toTime rt (at_ r 4) = Some t /\ cutoff <= t).
Proof.
  intros Hsh cutoff. eexists.
  split; [apply (cleanupExpiredSessions_rows rt "OnlineUsers" w h rows Hsh)|].
  fold cutoff. split; [apply sublist_List_filter|].
  intros r. rewrite filter_In. apply and_iff_compat_l.
  destruct (toTime rt (at_ r 4)) as [t|]; simpl.
  - rewrite negb_true_iff, Z.ltb_ge. split.
    + intros Ht. right. exists t. split; [reflexivity | lia].
    + intros [Hno | (t' & [= <-] & Ht)]; [discriminate | lia].
  - split; [auto | reflexivity].
Qed.

Lemma setValue_data_row (j k : nat) (v : cell) (h : row) (rows : list row) :
  (j < length rows)%nat ->
  Sheet.setValue (S (S j)) (S k) v (h :: rows)
  = h :: alter (fun r => <[k := v]> (pad (S k) r)) j rows.
Proof.
  intros Hj. unfold Sheet.setValue.
  replace (S (S j) - length (h :: rows))%nat with 0%nat by (simpl; lia).
  simpl repeat. rewrite app_nil_r. reflexivity.
Qed.

Lemma setRowValues_data_row (j : nat) (vs : row) (h : row) (rows : list row) :
  (j < length rows)%nat ->
  Sheet.setRowValues (S (S j)) vs (h :: rows)
  = h :: alter (fun r => vs ++ drop (length vs) r) j rows.
Proof.
  intros Hj. unfold Sheet.setRowValues.
  replace (S (S j) - length (h :: rows))%nat with 0%nat by (simpl; lia).
  simpl repeat. rewrite app_nil_r. reflexivity.
Qed.

Lemma In_alter {A} (f : A -> A) (j : nat) (l : list A) (d : A) :
  (j < length l)%nat -> In (f (nth j l d)) (alter f j l).
Proof.
  intros Hj. rewrite <- (nth_alter_eq f j l d Hj). apply nth_In. rewrite length_alter. exact Hj.
Qed.

(** A row that holds a non-empty string in a cell stores that cell. *)
Lemma at_CStr_stored (r : row) (k : nat) (s : string) :
  at_ r k = CStr s -> (k < length r)%nat.
Proof.
  intros H. destruct (Nat.ltb_spec k (length r)) as [|Hk]; [assumption|].
  unfold at_ in H. rewrite nth_overflow in H by exact Hk. discriminate.
Qed.

Section Track.
Variable rt : runtime.

(** After a login or a heartbeat the sheet holds a full row for the user,
    stamped with the reading the call took first. *)
Lemma trackUserSession_row (who : string) (u : option user) (action : string)
    (w : world) (h : row) (rows : list row) :
  sheets w !! "OnlineUsers" = Some (h :: rows) ->
  isSignedIn (sessionUser who u w) = true ->
  email (sessionUser who u w) <> EmptyString ->
  action <> "logout" ->
  let out := trackUserSession rt who u action w in
  fst out = AsJson ok
  /\ exists rows' r,
       sheets (snd out) !! "OnlineUsers" = Some (h :: rows')
       /\ In r rows' /\ (7 <= length r)%nat
       /\ at_ r 1 = CStr (email (sessionUser who u w))
       /\ at_ r 4 = CDate (clock rt (tick w))
       /\ at_ r 6 = CStr "Online".
Proof.
  intros Hsh Hsigned Hemail Haction out. subst out. unfold trackUserSession.
  rewrite bind_run.
  assert (Huser : (match u with Some x => ret x | None => getCurrentUser who end) w
                  = (sessionUser who u w, w)).
  { destruct u; [reflexivity|]. simpl. rewrite (surjective_pairing (getCurrentUser who w)).
    rewrite getCurrentUser_world. reflexivity. }
  rewrite Huser. cbn [fst snd]. rewrite Hsigned. cbn [negb].
  set (e := email (sessionUser who u w)) in *.
  rewrite bind_run. cbn [getSheetByName fst snd]. rewrite Hsh.
  rewrite bind_run. cbn [now fst snd]. rewrite bind_run.
  set (w1 := World (sheets w) (S (tick w))).
  pose proof (cleanupExpiredSessions_rows rt "OnlineUsers" w1 h rows Hsh) as Hswept.
  cbn [tick w1] in Hswept.
  set (rows1 := List.filter _ rows) in *.
  set (w2 := snd (cleanupExpiredSessions rt "OnlineUsers" w1)) in *.
  destruct (String.eqb_spec action "logout") as [Hlogout | _]; [contradiction|].
  rewrite bind_run. cbn [getSheetByName fst snd]. rewrite Hswept.
  change (default [] (Some (h :: rows1))) with (h :: rows1).
  rewrite getValues_cons. unfold findIndexFrom1. cbn [map drop]. rewrite drop_0.
  set (W := width (h :: rows1)).
  destruct (findIndex (fun r => strict_eq (at_ r 1) (CStr e)) (map (pad W) rows1))
    as [j|] eqn:Hfind; cbn [fmap option_fmap option_map].
  - destruct (findIndex_lt _ _ _ Hfind) as [Hj Hrow]. rewrite length_map in Hj.
    specialize (Hrow (pad W [])). rewrite map_nth in Hrow.
    apply strict_eq_CStr, (at_pad_CStr _ _ _ _ Hemail) in Hrow.
    pose proof (at_CStr_stored _ _ _ Hrow) as Hstored.
    destruct (String.eqb action "login").
    + rewrite !bind_run. cbn [fst snd ret]. split; [reflexivity|].
      cbn [onSheet snd sheets]. rewrite lookup_alter_eq, keeps_generateId, Hswept.
      cbn [fmap option_fmap option_map]. rewrite setRowValues_data_row by exact Hj.
      do 2 eexists. split; [reflexivity|]. split; [apply (In_alter _ j rows1 []), Hj|].
      repeat split. rewrite length_app. simpl. lia.
    + rewrite !bind_run. cbn [fst snd ret]. split; [reflexivity|].
      cbn [onSheet snd sheets]. rewrite lookup_alter_eq, lookup_alter_eq, Hswept.
      cbn [fmap option_fmap option_map].
      rewrite setValue_data_row by exact Hj.
      rewrite setValue_data_row by (rewrite length_alter; exact Hj).
      do 2 eexists. split; [reflexivity|].
      split; [apply (In_alter _ j _ []); rewrite length_alter; exact Hj|].
      rewrite (nth_alter_eq _ j rows1 [] Hj).
      set (r := nth j rows1 []) in *.
      assert (H5 : (5 <= length (<[4%nat := CDate (clock rt (tick w))]> (pad 5 r)))%nat)
        by (rewrite length_insert, length_pad; lia).
      split; [rewrite length_insert, length_pad; lia|]. split; [|split].
      * rewrite at_insert_ne by lia. rewrite at_pad_stored by lia.
        rewrite at_insert_ne by lia. rewrite at_pad_stored by lia. exact Hrow.
      * rewrite at_insert_ne by lia. rewrite at_pad_stored by lia.
        apply at_insert_eq. rewrite length_pad. lia.
      * apply at_insert_eq. rewrite length_pad. lia.
  - assert (Happend : forall b : bool,
              (if b then None else @None nat) = None) by (intros []; reflexivity).
    rewrite Happend.
    rewrite !bind_run. cbn [fst snd ret]. split; [reflexivity|].
    cbn [onSheet snd sheets]. rewrite lookup_alter_eq, keeps_generateId, Hswept.
    cbn [fmap option_fmap option_map].
    do 2 eexists. split; [reflexivity|].
    split; [apply in_or_app; right; left; reflexivity|].
    repeat split. simpl. lia.
Qed.

End Track.

(** A full, live row with status "Online" is listed. *)
Lemma getOnlineUsers_lists_row (rt : runtime) (w : world) (h : row) (rows : list row)
    (r : row) :
  sheets w !! "OnlineUsers" = Some (h :: rows) ->
  In r rows -> (7 <= length r)%nat -> at_ r 6 = CStr "Online" ->
  diff_pos (Some (clock rt (tick w) - CONFIG_sessionTimeout * 60 * 1000))
           (toTime rt (at_ r 4)) = false ->
  exists users,
    fst (getOnlineUsers rt w) = AsJson (okWith users) /\ In (userOfRow r) users.
Proof.
  intros Hsh Hr Hfull Honline Hlive.
  eexists. split; [apply (getOnlineUsers_listing rt w h rows Hsh)|].
  apply In_sort, in_map_iff. eexists (pad _ r). split.
  - unfold userOfRow. rewrite !at_pad_stored by lia. reflexivity.
  - apply filter_In. split.
    + apply in_map, filter_In. split; [exact Hr | rewrite Hlive; reflexivity].
    + rewrite at_pad_stored by lia. apply strict_eq_CStr. exact Honline.
Qed.

(** X20: after a login or a heartbeat of a signed-in user, on an
    OnlineUsers sheet with its header row, the listing read next names the
    user with status "Online" and with the time the call took as the last
    activity, as long as the clock has not moved past the timeout in
    between. *)
Theorem tracked_session_is_listed (rt : runtime) (who : string) (u : option user)
    (action : string) (w : world) (h : row) (rows : list row) :
  sheets w !! "OnlineUsers" = Some (h :: rows) ->
  isSignedIn (sessionUser who u w) = true ->
  email (sessionUser who u w) <> EmptyString ->
  action <> "logout" ->
  let out := trackUserSession rt who u action w in
  clock rt (tick (snd out)) - clock rt (tick w) <= CONFIG_sessionTimeout * 60 * 1000 ->
  fst out = AsJson ok
  /\ exists users x,
       fst (getOnlineUsers rt (snd out)) = AsJson (okWith users)
       /\ In x users
       /\ ou_email x = CStr (email (sessionUser who u w))
       /\ lastActivity x = CDate (clock rt (tick w))
       /\ ou_status x = CStr "Online".
Proof.
  intros Hsh Hsigned Hemail Haction out Hclock.
  destruct (trackUserSession_row rt who u action w h rows Hsh Hsigned Hemail Haction)
    as (Hres & rows' & r & Hsh' & Hin & Hfull & He & Ht & Hs).
  fold out in Hres, Hsh'. split; [exact Hres|].
  destruct (getOnlineUsers_lists_row rt (snd out) h rows' r Hsh' Hin Hfull Hs)
    as (users & Husers & Hlisted).
  { rewrite Ht. simpl. apply Z.ltb_ge. lia. }
  exists users, (userOfRow r). split; [exact Husers|]. split; [exact Hlisted|].
  cbn [userOfRow ou_email lastActivity ou_status]. auto.
Qed.

Lemma length_filter_filter {A} (p q : A -> bool) (l : list A) :
  (length (List.filter p (List.filter q l)) <= length (List.filter p l))%nat.
Proof.
  induction l as [|x l IH]; [reflexivity|]. simpl.
  destruct (q x); simpl; destruct (p x); simpl; lia.
Qed.

(** X21: after a logout of a signed-in user who has at most one session
    row, on a sheet whose header row does not hold the user's email as its
    second cell, no row of the sheet holds that email and the listing read
    next does not name the user. *)
Theorem logout_ends_session (rt : runtime) (who : string) (u : option user) (w : world)
    (h : row) (rows : list row) :
  sheets w !! "OnlineUsers" = Some (h :: rows) ->
  isSignedIn (sessionUser who u w) = true ->
  email (sessionUser who u w) <> EmptyString ->
  at_ h 1 <> CStr (email (sessionUser who u w)) ->
  (length (List.filter (fun r => strict_eq (at_ r 1) (CStr (email (sessionUser who u w))))
             rows) <= 1)%nat ->
  let out := trackUserSession rt who u "logout" w in
  fst out = AsJson ok
  /\ (exists rows', sheets (snd out) !! "OnlineUsers" = Some (h :: rows')
        /\ forall r, In r rows' -> at_ r 1 <> CStr (email (sessionUser who u w)))
  /\ exists users,
       fst (getOnlineUsers rt (snd out)) = AsJson (okWith users)
       /\ forall x, In x users -> ou_email x <> CStr (email (sessionUser who u w)).
Proof.
  intros Hsh Hsigned Hemail Hhead Hone out.
  set (e := email (sessionUser who u w)) in *.
  set (p := fun r : row => strict_eq (at_ r 1) (CStr e)) in *.
  assert (Hpad : forall W r, p (pad W r) = p r).
  { intros W r. unfold p. destruct (strict_eq (at_ r 1) (CStr e)) eqn:Hr.
    - apply strict_eq_CStr in Hr. apply strict_eq_CStr.
      rewrite at_pad_stored by (apply (at_CStr_stored _ _ _ Hr)). exact Hr.
    - apply not_true_is_false. intros Hp. apply strict_eq_CStr in Hp.
      apply (at_pad_CStr _ _ _ _ Hemail) in Hp. apply strict_eq_CStr in Hp. congruence. }
  assert (Hout : fst out = AsJson ok
                 /\ exists rows', sheets (snd out) !! "OnlineUsers" = Some (h :: rows')
                                  /\ existsb p rows' = false).
  { subst out. unfold trackUserSession. rewrite bind_run.
    assert (Huser : (match u with Some x => ret x | None => getCurrentUser who end) w
                    = (sessionUser who u w, w)).
    { destruct u; [reflexivity|]. simpl. rewrite (surjective_pairing (getCurrentUser who w)).
      rewrite getCurrentUser_world. reflexivity. }
    rewrite Huser. cbn [fst snd]. rewrite Hsigned. cbn [negb]. fold e.
    rewrite bind_run. cbn [getSheetByName fst snd]. rewrite Hsh.
    rewrite bind_run. cbn [now fst snd]. rewrite bind_run.
    set (w1 := World (sheets w) (S (tick w))).
    pose proof (cleanupExpiredSessions_rows rt "OnlineUsers" w1 h rows Hsh) as Hswept.
    set (live := fun r : row => negb (diff_pos (Some (clock rt (tick w1)
                                  - CONFIG_sessionTimeout * 60 * 1000)) (toTime rt (at_ r 4))))
      in *.
    set (rows1 := List.filter live rows) in *.
    set (w2 := snd (cleanupExpiredSessions rt "OnlineUsers" w1)) in *.
    assert (Hone1 : (length (List.filter p rows1) <= 1)%nat).
    { etransitivity; [apply length_filter_filter | exact Hone]. }
    change (String.eqb "logout" "logout") with true. cbv iota.
    rewrite bind_run. cbn [fst snd ret]. split; [reflexivity|].
    unfold removeUserSession. rewrite bind_run. cbn [getSheetByName fst snd]. rewrite Hswept.
    destruct rows1 as [|r1 rest] eqn:Hrows1; [exists []; split; [exact Hswept | reflexivity]|].
    rewrite <- Hrows1 in *.
    replace (Sheet.getLastRow (h :: rows1) <=? 1)%nat with false
      by (rewrite Hrows1; reflexivity).
    fold p. rewrite getValues_cons, findIndex_map.
    rewrite (findIndex_ext (fun x => p (pad (width (h :: rows1)) x)) p (h :: rows1))
      by (intros x; apply Hpad).
    cbn [findIndex].
    replace (p h) with false by (symmetry; apply strict_eq_CStr_false; exact Hhead).
    destruct (findIndex p rows1) as [j|] eqn:Hfind; cbn [fmap option_fmap option_map
                                                         positive_index].
    - destruct (findIndex_Some _ _ _ Hfind) as (l1 & x & l2 & Hsplit & Hlen & Hx & Hl1).
      exists (l1 ++ l2). split.
      + cbn [onSheet snd sheets]. rewrite lookup_alter_eq, Hswept, Nat.add_1_r.
        cbn [fmap option_fmap option_map Sheet.deleteRow]. rewrite Hsplit, <- Hlen.
        change (delete (S (length l1)) (h :: l1 ++ x :: l2))
          with (h :: delete (length l1) (l1 ++ x :: l2)).
        rewrite delete_middle. reflexivity.
      + rewrite Hsplit in Hone1. apply (findIndex_unique p l1 l2 x Hx Hl1 Hone1).
    - exists rows1. split; [exact Hswept | apply findIndex_None; exact Hfind]. }
  destruct Hout as (Hres & rows' & Hsh' & Hnone).
  assert (Hrows' : forall r, In r rows' -> at_ r 1 <> CStr e).
  { intros r Hr He. apply strict_eq_CStr in He.
    rewrite (existsb_elem p rows' r Hr He) in Hnone. discriminate. }
  split; [exact Hres|]. split; [exists rows'; split; assumption|].
  eexists. split; [apply (getOnlineUsers_listing rt (snd out) h rows' Hsh')|].
  intros x Hx. apply In_sort, in_map_iff in Hx. destruct Hx as (q & <- & Hq).
  apply filter_In in Hq. destruct Hq as [Hq _].
  apply in_map_iff in Hq. destruct Hq as (r & <- & Hr).
  apply filter_In in Hr. destruct Hr as [Hr _].
  cbn [userOfRow ou_email]. intros He. apply strict_eq_CStr in He.
  change (p (pad (width (h :: List.filter
            (fun r0 => negb (diff_pos (Some (clock rt (tick (snd out))
                                             - CONFIG_sessionTimeout * 60 * 1000))
                                      (toTime rt (at_ r0 4)))) rows')) r) = true) in He.
  rewrite Hpad in He. apply strict_eq_CStr in He. exact (Hrows' r Hr He).
Qed.

Lemma length_filter_alter {A} (p : A -> bool) (f : A -> A) (j : nat) (l : list A) :
  (forall x, l !! j = Some x -> p (f x) = p x) ->
  length (List.filter p (alter f j l)) = length (List.filter p l).
Proof.
  revert j. induction l as [|y l IH]; intros j Hf; [reflexivity|].
  destruct j as [|j].
  - change (alter f 0%nat (y :: l)) with (f y :: l). simpl. rewrite (Hf y eq_refl).
    destruct (p y); reflexivity.
  - change (alter f (S j) (y :: l)) with (y :: alter f j l). simpl.
    specialize (IH j Hf). destruct (p y); simpl; rewrite IH; reflexivity.
Qed.

Lemma length_filter_delete {A} (p : A -> bool) (j : nat) (l : list A) :
  (length (List.filter p (delete j l)) <= length (List.filter p l))%nat.
Proof.
  revert j. induction l as [|y l IH]; intros j; [destruct j; reflexivity|].
  destruct j as [|j].
  - change (delete 0%nat (y :: l)) with l. simpl. destruct (p y); simpl; lia.
  - change (delete (S j) (y :: l)) with (y :: delete j l). simpl.
    specialize (IH j). destruct (p y); simpl; lia.
Qed.

(** X22: [trackUserSession] keeps one session row for an email.  On an
    OnlineUsers sheet with its header row where no email has two rows, no
    email has two rows after a login, a heartbeat or a logout of a
    signed-in user. *)
Theorem one_session_row_per_email (rt : runtime) (who : string) (u : option user)
    (action : string) (w : world) (h : row) (rows : list row) :
  sheets w !! "OnlineUsers" = Some (h :: rows) ->
  isSignedIn (sessionUser who u w) = true ->
  email (sessionUser who u w) <> EmptyString ->
  (forall e, (length (List.filter (fun r => strict_eq (at_ r 1) (CStr e)) rows) <= 1)%nat) ->
  exists rows',
    sheets (snd (trackUserSession rt who u action w)) !! "OnlineUsers" = Some (h :: rows')
    /\ forall e,
         (length (List.filter (fun r => strict_eq (at_ r 1) (CStr e)) rows') <= 1)%nat.
Proof.
  intros Hsh Hsigned Hemail Hone. unfold trackUserSession. rewrite bind_run.
  assert (Huser : (match u with Some x => ret x | None => getCurrentUser who end) w
                  = (sessionUser who u w, w)).
  { destruct u; [reflexivity|]. simpl. rewrite (surjective_pairing (getCurrentUser who w)).
    rewrite getCurrentUser_world. reflexivity. }
  rewrite Huser. cbn [fst snd]. rewrite Hsigned. cbn [negb].
  set (me := email (sessionUser who u w)) in *.
  rewrite bind_run. cbn [getSheetByName fst snd]. rewrite Hsh.
  rewrite bind_run. cbn [now fst snd]. rewrite bind_run.
  set (w1 := World (sheets w) (S (tick w))).
  pose proof (cleanupExpiredSessions_rows rt "OnlineUsers" w1 h rows Hsh) as Hswept.
  set (rows1 := List.filter _ rows) in *.
  set (w2 := snd (cleanupExpiredSessions rt "OnlineUsers" w1)) in *.
  assert (Hone1 : forall e,
            (length (List.filter (fun r => strict_eq (at_ r 1) (CStr e)) rows1) <= 1)%nat).
  { intros e. etransitivity; [apply length_filter_filter | apply Hone]. }
  destruct (String.eqb_spec action "logout") as [Hlogout | Hlogout].
  - rewrite bind_run. cbn [fst snd ret].
    destruct (removeUserSession_rows "OnlineUsers" me w2 h rows1 Hswept)
      as (rows2 & Hsh2 & Hrows2).
    exists rows2. split; [exact Hsh2|]. intros e.
    destruct Hrows2 as [-> | [i ->]]; [apply Hone1|].
    etransitivity; [apply length_filter_delete | apply Hone1].
  - rewrite bind_run. cbn [getSheetByName fst snd]. rewrite Hswept.
    change (default [] (Some (h :: rows1))) with (h :: rows1).
    rewrite getValues_cons. unfold findIndexFrom1. cbn [map drop]. rewrite drop_0.
    set (W := width (h :: rows1)).
    destruct (findIndex (fun r => strict_eq (at_ r 1) (CStr me)) (map (pad W) rows1))
      as [j|] eqn:Hfind; cbn [fmap option_fmap option_map].
    + destruct (findIndex_lt _ _ _ Hfind) as [Hj Hrow]. rewrite length_map in Hj.
      specialize (Hrow (pad W [])). rewrite map_nth in Hrow.
      apply strict_eq_CStr, (at_pad_CStr _ _ _ _ Hemail) in Hrow.
      pose proof (at_CStr_stored _ _ _ Hrow) as Hstored.
      assert (Hx : forall x, rows1 !! j = Some x -> x = nth j rows1 []).
      { intros x Hx. symmetry. apply nth_lookup_Some. exact Hx. }
      destruct (String.eqb action "login").
      * rewrite !bind_run. cbn [fst snd ret].
        cbn [onSheet snd sheets]. rewrite lookup_alter_eq, keeps_generateId, Hswept.
        cbn [fmap option_fmap option_map]. rewrite setRowValues_data_row by exact Hj.
        eexists. split; [reflexivity|]. intros e.
        rewrite length_filter_alter; [apply Hone1|].
        intros x Hlook. rewrite (Hx x Hlook), Hrow. reflexivity.
      * rewrite !bind_run. cbn [fst snd ret].
        cbn [onSheet snd sheets]. rewrite lookup_alter_eq, lookup_alter_eq, Hswept.
        cbn [fmap option_fmap option_map].
        rewrite setValue_data_row by exact Hj.
        rewrite setValue_data_row by (rewrite length_alter; exact Hj).
        eexists. split; [reflexivity|]. intros e.
        rewrite list_alter_alter_eq, length_filter_alter; [apply Hone1|].
        intros x Hlook. rewrite (Hx x Hlook). cbn [compose].
        f_equal.
        assert (H5 : (5 <= length (<[4%nat := CDate (clock rt (tick w))]>
                                     (pad 5 (nth j rows1 []))))%nat)
          by (rewrite length_insert, length_pad; lia).
        rewrite at_insert_ne by lia. rewrite at_pad_stored by lia.
        rewrite at_insert_ne by lia. rewrite at_pad_stored by lia. reflexivity.
    + assert (Happend : forall b : bool,
                (if b then None else @None nat) = None) by (intros []; reflexivity).
      rewrite Happend.
      rewrite !bind_run. cbn [fst snd ret].
      cbn [onSheet snd sheets]. rewrite lookup_alter_eq, keeps_generateId, Hswept.
      cbn [fmap option_fmap option_map].
      eexists. split; [reflexivity|]. intros e.
      rewrite List.filter_app, length_app. simpl.
      destruct (String.eqb_spec me e) as [<- | Hother]; simpl; [|specialize (Hone1 e); lia].
      apply findIndex_None in Hfind. rewrite existsb_map in Hfind.
      assert (Hzero : List.filter (fun r => strict_eq (at_ r 1) (CStr me)) rows1 = []).
      { destruct (List.filter (fun r => strict_eq (at_ r 1) (CStr me)) rows1) as [|x l] eqn:Hf;
          [reflexivity|].
        assert (Hin : In x (List.filter (fun r => strict_eq (at_ r 1) (CStr me)) rows1))
          by (rewrite Hf; left; reflexivity).
        apply filter_In in Hin. destruct Hin as [Hin Hme].
        apply strict_eq_CStr in Hme.
        rewrite (existsb_elem _ rows1 x Hin) in Hfind; [discriminate|].
        apply strict_eq_CStr. rewrite at_pad_stored by (apply (at_CStr_stored _ _ _ Hme)).
        exact Hme. }
      rewrite Hzero. simpl. lia.
Qed.

(** ** The first load *)

Lemma keeps_getOnlineUsers (rt : runtime) (k : string) :
  k <> "OnlineUsers" -> keeps k (getOnlineUsers rt).
Proof.
  intros Hk. unfold getOnlineUsers. frames.
  all: try (apply keeps_onSheet; congruence).
  all: try (apply keeps_cleanupExpiredSessions; exact Hk).
Qed.

(** X23: for a signed-in user [getInitialData] answers with the user and
    with what the reads answer on the store as it is when the call begins:
    the documents without filters, the categories, the tags, the user's
    favorites, the recent activity up to the configured limit and the
    analytics, each replaced by its empty default when the read fails.  The
    only change the call makes is the session sweep of [getOnlineUsers]. *)
Theorem getInitialData_collects_the_reads (rt : runtime) (who : string) (w : world) :
  who <> EmptyString ->
  exists d,
    fst (getInitialData rt who w) = AsJson (okWith d)
    /\ id_user d = fst (getCurrentUser who w)
    /\ id_documents d = default [] (field (fst (getDocuments rt noFilters w)) payload)
    /\ id_categories d = default [] (field (fst (getCategories rt w)) payload)
    /\ id_tags d = default [] (field (fst (getTags rt w)) payload)
    /\ id_favorites d = default [] (field (fst (getUserFavorites who w)) payload)
    /\ id_recentActivity d
       = default [] (field (fst (getRecentActivity CONFIG_recentActivityLimit w)) payload)
    /\ id_analytics d = default NoAnalytics (field (fst (getAnalyticsData w)) payload)
    /\ id_config d = (CONFIG_appName, CONFIG_version)
    /\ snd (getInitialData rt who w) = snd (getOnlineUsers rt w).
Proof.
  intros Hwho.
  destruct (reads_keep_world rt w) as (Hdocs & Hcats & Htags & Hfavs & Hacts & _ & _).
  unfold getInitialData. rewrite bind_run, getCurrentUser_world.
  destruct (getCurrentUser_signed_in who w Hwho) as [Hsigned _]. rewrite Hsigned.
  cbn [negb].
  rewrite bind_run, Hdocs. rewrite bind_run, Hcats. rewrite bind_run, Htags.
  rewrite bind_run, Hfavs. rewrite bind_run, Hacts. rewrite bind_run. rewrite bind_run.
  destruct (reads_keep_world rt (snd (getOnlineUsers rt w))) as (_ & _ & _ & _ & _ & Hana & _).
  rewrite Hana. cbn [ret fst snd].
  eexists. split; [reflexivity|].
  cbn [id_user id_documents id_categories id_tags id_favorites id_recentActivity
       id_analytics id_config].
  repeat split.
  unfold getAnalyticsData. rewrite !bind_run. cbn [getSheetByName fst snd].
  rewrite (keeps_getOnlineUsers rt "Analytics") by discriminate.
  destruct (sheets w !! "Analytics") as [sh|]; [|reflexivity].
  destruct (Sheet.getLastRow sh <=? 1)%nat; reflexivity.
Qed.

(** ** The header row as a document *)

(** X24: the row lookups of [updateDocument] and [deleteDocument] start
    at the header row.  Called with the text of the header's first cell as
    the id, [deleteDocument] answers with success and deletes the header
    row, so that the first document row, if any, becomes the header of the
    sheet. *)
Theorem deleteDocument_takes_header (rt : runtime) (who docId : string) (w : world)
    (h : row) (rows : list row) :
  who <> EmptyString ->
  sheets w !! "Documents" = Some (h :: rows) ->
  at_ h 0 = CStr docId ->
  let out := deleteDocument rt who docId w in
  fst out = AsJson (okMessage "Document deleted successfully")
  /\ sheets (snd out) !! "Documents" = Some rows.
Proof.
  intros Hwho Hsh Hhead out. subst out. unfold deleteDocument.
  signed_in who w Hwho.
  rewrite bind_run. cbn [getSheetByName fst snd]. rewrite Hsh.
  assert (Hfind : findIndex (fun r => strict_eq (at_ r 0) (CStr docId))
                    (Sheet.getValues (h :: rows)) = Some 0%nat).
  { rewrite getValues_cons. cbn [map findIndex].
    rewrite at_pad_stored by (apply (at_CStr_stored _ _ _ Hhead)).
    rewrite Hhead. simpl. rewrite String.eqb_refl. reflexivity. }
  rewrite Hfind. rewrite !bind_run. cbn [fst snd ret]. split; [reflexivity|].
  match goal with
  | |- context [if ?c then _ else _] => destruct c
  end; kept; cbn [onSheet snd sheets]; rewrite lookup_alter_eq, Hsh; reflexivity.
Qed.

(** ** Updating a document *)

Lemma strict_eq_true (a b : cell) : strict_eq a b = true -> a = b.
Proof.
  destruct a, b; simpl; try discriminate; intros H; f_equal.
  - apply String.eqb_eq, H.
  - apply Z.eqb_eq, H.
  - apply Bool.eqb_prop, H.
Qed.

Lemma strict_eq_CUndef (v : cell) : strict_eq v CUndef = false <-> v <> CUndef.
Proof. destruct v; simpl; split; congruence. Qed.

(** The column found for a field name holds that name. *)
Lemma indexOf_header (f : string) (headers : row) (c : nat) :
  indexOf f headers = Some c -> (c < length headers)%nat /\ at_ headers c = CStr f.
Proof.
  intros H. destruct (findIndex_lt _ _ _ H) as [Hc Hcell]. split; [exact Hc|].
  apply strict_eq_CStr, Hcell.
Qed.

Section Writes.
Variables (writes : string * cell -> option nat) (i : nat) (sh : sheet).
Hypothesis Hcols : forall kv c, writes kv = Some c -> (S c <= width sh)%nat.
Hypothesis Hrow : (i < length sh)%nat.

(** The loop over the fields of [updates]: the cells of the other rows
    stay, a cell of the row that no handled field writes stays, and a cell
    that one handled field writes holds that field's value. *)
Lemma forEach_writes (updates done : list (string * cell)) (cur : sheet) (w : world) :
  sheets w !! "Documents" = Some cur ->
  length cur = length sh -> width cur = width sh ->
  (forall i' c, i' <> i ->
     at_ (nth i' (Sheet.getValues cur) []) c = at_ (nth i' (Sheet.getValues sh) []) c) ->
  (forall c, (forall kv, In kv done -> writes kv <> Some c) ->
     at_ (nth i (Sheet.getValues cur) []) c = at_ (nth i (Sheet.getValues sh) []) c) ->
  (forall kv c, In kv done -> writes kv = Some c ->
     (forall kv', In kv' done -> writes kv' = Some c -> kv' = kv) ->
     at_ (nth i (Sheet.getValues cur) []) c = snd kv) ->
  let out := forEach updates (fun kv =>
               match writes kv with
               | Some colIndex =>
                   onSheet "Documents" (Sheet.setValue (i + 1) (colIndex + 1) (snd kv))
               | None => ret tt
               end) w in
  tick (snd out) = tick w
  /\ exists cur',
       sheets (snd out) !! "Documents" = Some cur'
       /\ length cur' = length sh /\ width cur' = width sh
       /\ (forall i' c, i' <> i ->
             at_ (nth i' (Sheet.getValues cur') []) c
             = at_ (nth i' (Sheet.getValues sh) []) c)
       /\ (forall c, (forall kv, In kv (done ++ updates) -> writes kv <> Some c) ->
             at_ (nth i (Sheet.getValues cur') []) c
             = at_ (nth i (Sheet.getValues sh) []) c)
       /\ (forall kv c, In kv (done ++ updates) -> writes kv = Some c ->
             (forall kv', In kv' (done ++ updates) -> writes kv' = Some c -> kv' = kv) ->
             at_ (nth i (Sheet.getValues cur') []) c = snd kv).
Proof.
  revert done cur w. induction updates as [|kv0 updates IH];
    intros done cur w Hcur Hlen Hw Hothers Hkept Hset out; subst out.
  - cbn [forEach ret snd]. split; [reflexivity|]. exists cur. rewrite app_nil_r. auto 10.
  - cbn [forEach]. rewrite bind_run.
    replace (done ++ kv0 :: updates) with ((done ++ [kv0]) ++ updates)
      by (rewrite <- app_assoc; reflexivity).
    destruct (writes kv0) as [c0|] eqn:Hkv0.
    + assert (Hstep : onSheet "Documents" (Sheet.setValue (i + 1) (c0 + 1) (snd kv0)) w
                      = onSheet "Documents" (Sheet.setValue (S i) (S c0) (snd kv0)) w)
        by (rewrite !Nat.add_1_r; reflexivity).
      rewrite Hstep.
      destruct (getValues_setValue i c0 (snd kv0) cur) as (Hvals & Hw' & Hlen' & _);
        [lia | rewrite Hw; apply (Hcols kv0 c0 Hkv0) |].
      assert (Hne : cur <> []) by (intros ->; simpl in Hlen; lia).
      assert (Hi : (i < length (Sheet.getValues cur))%nat)
        by (rewrite length_getValues by exact Hne; lia).
      edestruct (IH (done ++ [kv0]) (Sheet.setValue (S i) (S c0) (snd kv0) cur)
                   (snd (onSheet "Documents" (Sheet.setValue (S i) (S c0) (snd kv0)) w)))
        as (Htick & cur' & Hcur' & Hrest).
      * cbn [onSheet snd sheets]. rewrite lookup_alter_eq, Hcur. reflexivity.
      * lia.
      * lia.
      * intros i' c Hi'. rewrite Hvals, nth_alter_ne by congruence. apply Hothers, Hi'.
      * intros c Hnone. rewrite Hvals, nth_alter_eq by exact Hi.
        assert (c0 <> c).
        { intros <-. apply (Hnone kv0); [apply in_or_app; right; left; reflexivity | exact Hkv0]. }
        rewrite at_insert_ne by assumption. apply Hkept.
        intros kv Hin. apply Hnone, in_or_app. left. exact Hin.
      * intros kv c Hin Hkv Huniq. rewrite Hvals, nth_alter_eq by exact Hi.
        destruct (Nat.eq_dec c0 c) as [<- | Hc].
        -- rewrite at_insert_eq
             by (rewrite length_nth_getValues by lia; rewrite Hw; apply (Hcols kv0 c0 Hkv0)).
           rewrite (Huniq kv0); [reflexivity | apply in_or_app; right; left; reflexivity
                                | exact Hkv0].
        -- rewrite at_insert_ne by exact Hc.
           apply in_app_or in Hin. destruct Hin as [Hin | [<- | []]]; [|congruence].
           apply (Hset kv c Hin Hkv). intros kv' Hin' Hkv'.
           apply Huniq; [apply in_or_app; left; exact Hin' | exact Hkv'].
      * split; [exact Htick|]. exists cur'. split; [exact Hcur' | exact Hrest].
    + edestruct (IH (done ++ [kv0]) cur w) as (Htick & cur' & Hcur' & Hrest);
        [exact Hcur | exact Hlen | exact Hw | exact Hothers | | |].
      * intros c Hnone. apply Hkept. intros kv Hin. apply Hnone, in_or_app. left. exact Hin.
      * intros kv c Hin Hkv Huniq.
        apply in_app_or in Hin. destruct Hin as [Hin | [<- | []]]; [|congruence].
        apply (Hset kv c Hin Hkv). intros kv' Hin' Hkv'.
        apply Huniq; [apply in_or_app; left; exact Hin' | exact Hkv'].
      * split; [exact Htick|]. exists cur'. split; [exact Hcur' | exact Hrest].
Qed.

End Writes.

(** X25: [updateDocument] by a signed-in user, for an id found in row
    [i] of a Documents sheet whose header names LastModified.  The call
    succeeds; in the values read next every other row is as before, the
    LastModified cell of the row holds the time of the call, each field of
    [updates] that has a value and a column of its own in the header is
    stored in that column, and every other cell of the row is as before.
    The fields of an object are distinct, and a field the header does not
    name is ignored. *)
Theorem updateDocument_writes_fields (rt : runtime) (who docId : string)
    (updates : list (string * cell)) (w : world) (sh : sheet) (i cl : nat) :
  who <> EmptyString ->
  sheets w !! "Documents" = Some sh ->
  findIndex (fun r => strict_eq (at_ r 0) (CStr docId)) (Sheet.getValues sh) = Some i ->
  indexOf "LastModified" (hd [] (Sheet.getValues sh)) = Some cl ->
  NoDup (map fst updates) ->
  let out := updateDocument rt who docId updates w in
  let data := Sheet.getValues sh in
  fst out = AsJson (okMessage "Document updated successfully")
  /\ exists sh',
       sheets (snd out) !! "Documents" = Some sh'
       /\ length sh' = length sh
       /\ (forall i' c, i' <> i ->
             at_ (nth i' (Sheet.getValues sh') []) c = at_ (nth i' data []) c)
       /\ at_ (nth i (Sheet.getValues sh') []) cl = CDate (clock rt (tick w))
       /\ (forall f v c, In (f, v) updates -> v <> CUndef ->
             indexOf f (hd [] data) = Some c -> c <> cl ->
             at_ (nth i (Sheet.getValues sh') []) c = v)
       /\ (forall c, c <> cl ->
             (forall f v, In (f, v) updates -> v <> CUndef ->
                          indexOf f (hd [] data) <> Some c) ->
             at_ (nth i (Sheet.getValues sh') []) c = at_ (nth i data []) c).
Proof.
  intros Hwho Hsh Hfind Hcl Hnodup out data.
  assert (Hne : sh <> []).
  { intros ->. discriminate Hcl. }
  destruct (findIndex_lt _ _ _ Hfind) as [Hi _]. rewrite length_getValues in Hi by exact Hne.
  assert (Hheaders : length (hd [] data) = width sh).
  { subst data. destruct sh as [|h rows]; [congruence|].
    rewrite getValues_cons. cbn [map hd]. rewrite length_pad.
    pose proof (width_In h (h :: rows) (or_introl eq_refl)). lia. }
  set (writes := fun kv : string * cell =>
         match indexOf (fst kv) (hd [] data) with
         | Some colIndex =>
             if negb (strict_eq (snd kv) CUndef)
                && negb (strict_eq (at_ (nth i data []) colIndex) (snd kv))
             then Some colIndex else None
         | None => None
         end).
  assert (Hcols : forall kv c, writes kv = Some c -> (S c <= width sh)%nat).
  { intros kv c. unfold writes. destruct (indexOf (fst kv) (hd [] data)) as [c'|] eqn:Hc;
      [|discriminate].
    destruct (_ && _); [|discriminate]. intros [= <-].
    apply indexOf_header in Hc. lia. }
  destruct (forEach_writes writes i sh Hcols Hi updates [] sh w Hsh eq_refl eq_refl)
    as (Htick & cur & Hcur & Hlen & Hw & Hothers & Hkept & Hset); try reflexivity.
  { intros kv c []. }
  cbn [app] in Hkept, Hset.
  subst out. unfold updateDocument. signed_in who w Hwho.
  rewrite bind_run. cbn [getSheetByName fst snd]. rewrite Hsh.
  rewrite Hfind, Hcl. cbv zeta. fold data. fold writes.
  rewrite !bind_run. cbn [fst snd ret]. split; [reflexivity|].
  set (w1 := snd (forEach updates _ w)) in *.
  assert (Hcl' : (S cl <= width sh)%nat).
  { destruct (indexOf_header _ _ _ Hcl) as [Hlt _]. fold data in Hlt. lia. }
  destruct (getValues_setValue i cl (CDate (clock rt (tick w))) cur) as (Hvals & _ & Hlen' & _);
    [lia | lia |].
  assert (Hcur_ne : cur <> []) by (intros ->; simpl in Hlen; lia).
  exists (Sheet.setValue (S i) (S cl) (CDate (clock rt (tick w))) cur).
  split.
  - repeat match goal with
           | |- context [if ?c then _ else _] => destruct c
           end; rewrite ?bind_run; kept; cbn [onSheet snd sheets now fst];
      rewrite lookup_alter_eq, Hcur, Htick, !Nat.add_1_r; reflexivity.
  - split; [lia|]. rewrite Hvals.
    assert (Hi' : (i < length (Sheet.getValues cur))%nat)
      by (rewrite length_getValues by exact Hcur_ne; lia).
    split; [|split; [|split]].
    + intros i' c Hi'c. rewrite nth_alter_ne by congruence. apply Hothers, Hi'c.
    + rewrite nth_alter_eq by exact Hi'. apply at_insert_eq.
      rewrite length_nth_getValues by lia. lia.
    + intros f v c Hin Hv Hc Hccl. rewrite nth_alter_eq by exact Hi'.
      rewrite at_insert_ne by congruence.
      assert (Huniq : forall kv', In kv' updates -> writes kv' = Some c -> kv' = (f, v)).
      { intros [f' v'] Hin' Hkv'. unfold writes in Hkv'. cbn [fst snd] in Hkv'.
        destruct (indexOf f' (hd [] data)) as [c'|] eqn:Hc'; [|discriminate].
        destruct (_ && _); [|discriminate]. injection Hkv' as ->.
        apply indexOf_header in Hc, Hc'. destruct Hc as [_ Hc], Hc' as [_ Hc'].
        assert (f' = f) as -> by congruence.
        f_equal. clear -Hnodup Hin Hin'.
        induction updates as [|[f0 v0] l IH]; [contradiction|].
        cbn [map fst] in Hnodup. apply NoDup_cons in Hnodup. destruct Hnodup as [Hfresh Hl].
        assert (Hkey : forall x, In (f, x) l -> In f (map fst l)).
        { intros x Hx. apply in_map_iff. exists (f, x). split; [reflexivity | exact Hx]. }
        destruct Hin as [[= -> ->] | Hin], Hin' as [[= <-] | Hin'].
        - reflexivity.
        - exfalso. apply Hfresh, list_elem_of_In, (Hkey _ Hin').
        - exfalso. subst. apply Hfresh, list_elem_of_In, (Hkey _ Hin).
        - apply IH; assumption. }
      destruct (writes (f, v)) as [c'|] eqn:Hwrite.
      * assert (c' = c) as ->.
        { unfold writes in Hwrite. cbn [fst snd] in Hwrite. rewrite Hc in Hwrite.
          destruct (_ && _); congruence. }
        apply (Hset (f, v) c Hin Hwrite Huniq).
      * rewrite Hkept.
        -- unfold writes in Hwrite. cbn [fst snd] in Hwrite. rewrite Hc in Hwrite.
           apply strict_eq_CUndef in Hv. rewrite Hv in Hwrite. cbn [negb andb] in Hwrite.
           destruct (strict_eq (at_ (nth i data []) c) v) eqn:Hsame; [|discriminate].
           apply strict_eq_true, Hsame.
        -- intros kv' Hin' Hkv'. rewrite (Huniq kv' Hin' Hkv') in Hkv'. congruence.
    + intros c Hccl Hnone. rewrite nth_alter_eq by exact Hi'.
      rewrite at_insert_ne by congruence. apply Hkept.
      intros [f v] Hin Hkv. unfold writes in Hkv. cbn [fst snd] in Hkv.
      destruct (indexOf f (hd [] data)) as [c'|] eqn:Hc'; [|discriminate].
      destruct (strict_eq v CUndef) eqn:Hv; [discriminate|]. cbn [negb andb] in Hkv.
      destruct (negb _); [|discriminate]. injection Hkv as ->.
      apply strict_eq_CUndef in Hv. exact (Hnone f v Hin Hv Hc').
Qed.

(** ** What no call does to a sheet *)

Section Evolves.
Variables (R : option sheet -> option sheet -> Prop) (k : string).
Hypothesis Rrefl : forall x, R x x.
Hypothesis Rtrans : forall x y z, R x y -> R y z -> R x z.

Lemma evolves_keeps {A} (m : M A) : keeps k m -> evolves R k m.
Proof. intros Hk w. rewrite Hk. apply Rrefl. Qed.

Lemma evolves_ret {A} (a : A) : evolves R k (ret a).
Proof. intros w. apply Rrefl. Qed.

Lemma evolves_bind {A B} (m : M A) (f : A -> M B) :
  evolves R k m -> (forall a, evolves R k (f a)) -> evolves R k (bind m f).
Proof. intros Hm Hf w. rewrite bind_run. eapply Rtrans; [apply Hm | apply Hf]. Qed.

Lemma evolves_forEach {A} (l : list A) (f : A -> M unit) :
  (forall x, evolves R k (f x)) -> evolves R k (forEach l f).
Proof.
  intros Hf. induction l as [|x l IH]; cbn [forEach]; [apply evolves_ret|].
  apply evolves_bind; [apply Hf | intros _; exact IH].
Qed.

Lemma evolves_forEachCount {A} (l : list A) (f : A -> M bool) :
  (forall x, evolves R k (f x)) -> evolves R k (forEachCount l f).
Proof.
  intros Hf. induction l as [|x l IH]; cbn [forEachCount]; [apply evolves_ret|].
  apply evolves_bind; [apply Hf | intros c].
  apply evolves_bind; [exact IH | intros n; apply evolves_ret].
Qed.

Lemma evolves_onSheet (f : sheet -> sheet) :
  (forall sh, R (Some sh) (Some (f sh))) -> evolves R k (onSheet k f).
Proof.
  intros Hf w. cbn [onSheet snd sheets]. rewrite lookup_alter_eq.
  destruct (sheets w !! k); [apply Hf | apply Rrefl].
Qed.

End Evolves.

Lemma appendedTo_refl (x : option sheet) : appendedTo x x.
Proof. destruct x as [sh|]; simpl; [exists []; rewrite app_nil_r; reflexivity | exact I]. Qed.

Lemma appendedTo_trans (x y z : option sheet) :
  appendedTo x y -> appendedTo y z -> appendedTo x z.
Proof.
  destruct x, y, z; simpl; try tauto.
  intros [a ->] [b ->]. exists (a ++ b). rewrite app_assoc. reflexivity.
Qed.

Lemma sameRows_refl (x : option sheet) : sameRows x x.
Proof. reflexivity. Qed.

Lemma sameRows_trans (x y z : option sheet) : sameRows x y -> sameRows y z -> sameRows x z.
Proof. unfold sameRows. congruence. Qed.

(** Walks through a function along a relation with the given proofs of
    reflexivity and transitivity; [leaf] closes the calls that write the
    sheet. *)
Ltac evolve Hrefl Htrans leaf :=
  repeat first
    [ apply (evolves_ret _ _ Hrefl)
    | leaf
    | apply (evolves_bind _ _ Htrans); [|intros ?]
    | apply (evolves_forEach _ _ Hrefl Htrans); intros ?
    | apply (evolves_forEachCount _ _ Hrefl Htrans); intros ?
    | match goal with
      | |- evolves _ _ (match ?x with _ => _ end) => destruct x
      | |- evolves _ _ (if ?x then _ else _) => destruct x
      | |- evolves _ _ (let _ := _ in _) => cbv zeta
      end
    | apply (evolves_keeps _ _ Hrefl); solve [frames] ].

Section Log.
Variable rt : runtime.

Local Abbreviation grows m := (evolves appendedTo "ActivityLog" m).

Lemma grows_logActivity (u : user) (a d det : string) : grows (logActivity rt u a d det).
Proof.
  unfold logActivity.
  evolve appendedTo_refl appendedTo_trans
    ltac:(apply (evolves_onSheet _ _ appendedTo_refl); intros sh; eexists; reflexivity).
Qed.

Ltac log_grows leaf :=
  evolve appendedTo_refl appendedTo_trans ltac:(first [apply grows_logActivity | leaf]).

Lemma grows_updateDocument (who docId : string) (updates : list (string * cell)) :
  grows (updateDocument rt who docId updates).
Proof. unfold updateDocument. log_grows fail. Qed.

Lemma grows_archiveDocument (who docId : string) : grows (archiveDocument rt who docId).
Proof. unfold archiveDocument. log_grows ltac:(apply grows_updateDocument). Qed.

Lemma grows_restoreDocument (who docId : string) : grows (restoreDocument rt who docId).
Proof. unfold restoreDocument. log_grows ltac:(apply grows_updateDocument). Qed.

Lemma grows_deleteDocument (who docId : string) : grows (deleteDocument rt who docId).
Proof. unfold deleteDocument. log_grows fail. Qed.

Lemma grows_addDocument (who : string) (d : documentData) : grows (addDocument rt who d).
Proof.
  unfold addDocument. log_grows ltac:(apply (evolves_keeps _ _ appendedTo_refl);
                                       unfold isDuplicateURL; solve [frames]).
Qed.

Lemma grows_bulkArchiveDocuments (who : string) (docIds : list string) :
  grows (bulkArchiveDocuments rt who docIds).
Proof. unfold bulkArchiveDocuments. log_grows ltac:(apply grows_updateDocument). Qed.

Lemma grows_bulkRestoreDocuments (who : string) (docIds : list string) :
  grows (bulkRestoreDocuments rt who docIds).
Proof. unfold bulkRestoreDocuments. log_grows ltac:(apply grows_updateDocument). Qed.

Lemma grows_addCategory (who name : string) : grows (addCategory rt who name).
Proof. unfold addCategory. log_grows fail. Qed.

Lemma grows_toggleFavorite (who docId : string) : grows (toggleFavorite rt who docId).
Proof. unfold toggleFavorite. log_grows fail. Qed.

Lemma grows_recordDocumentView (who docId : string) : grows (recordDocumentView rt who docId).
Proof. unfold recordDocumentView. log_grows fail. Qed.

Lemma grows_trackUserSession (who : string) (u : option user) (action : string) :
  grows (trackUserSession rt who u action).
Proof.
  unfold trackUserSession, removeUserSession.
  log_grows fail.
Qed.

End Log.

(** The only change [getInitialData] makes is the sweep of the listing. *)
Lemma getInitialData_world (rt : runtime) (who : string) (w : world) :
  who <> EmptyString -> snd (getInitialData rt who w) = snd (getOnlineUsers rt w).
Proof.
  intros Hwho.
  destruct (reads_keep_world rt w) as (Hdocs & Hcats & Htags & Hfavs & Hacts & _ & _).
  unfold getInitialData. signed_in who w Hwho.
  rewrite bind_run, Hdocs. rewrite bind_run, Hcats. rewrite bind_run, Htags.
  rewrite bind_run, Hfavs. rewrite bind_run, Hacts. rewrite bind_run. rewrite bind_run.
  destruct (reads_keep_world rt (snd (getOnlineUsers rt w))) as (_ & _ & _ & _ & _ & Hana & _).
  rewrite Hana. reflexivity.
Qed.

(** X26: the activity log is only ever appended to.  Whoever calls and
    whatever the call answers, the rows the ActivityLog sheet held before a
    call are its first rows after it, unchanged and in the same order; a
    missing sheet stays missing. *)
Theorem activity_log_only_grows (rt : runtime) (who : string) (w : world) :
  let grown {A} (m : M A) :=
    appendedTo (sheets w !! "ActivityLog") (sheets (snd (m w)) !! "ActivityLog") in
  (forall d, grown (addDocument rt who d))
  /\ (forall docId updates, grown (updateDocument rt who docId updates))
  /\ (forall docId, grown (archiveDocument rt who docId))
  /\ (forall docId, grown (restoreDocument rt who docId))
  /\ (forall docId, grown (deleteDocument rt who docId))
  /\ (forall docIds, grown (bulkArchiveDocuments rt who docIds))
  /\ (forall docIds, grown (bulkRestoreDocuments rt who docIds))
  /\ (forall name, grown (addCategory rt who name))
  /\ (forall docId, grown (toggleFavorite rt who docId))
  /\ (forall docId, grown (recordDocumentView rt who docId))
  /\ (forall u action, grown (trackUserSession rt who u action))
  /\ grown (getOnlineUsers rt)
  /\ grown (getInitialData rt who).
Proof.
  cbv zeta. repeat split; intros.
  - apply grows_addDocument.
  - apply grows_updateDocument.
  - apply grows_archiveDocument.
  - apply grows_restoreDocument.
  - apply grows_deleteDocument.
  - apply grows_bulkArchiveDocuments.
  - apply grows_bulkRestoreDocuments.
  - apply grows_addCategory.
  - apply grows_toggleFavorite.
  - apply grows_recordDocumentView.
  - apply grows_trackUserSession.
  - rewrite (keeps_getOnlineUsers rt "ActivityLog") by discriminate. apply appendedTo_refl.
  - destruct (String.eqb_spec who EmptyString) as [-> | Hwho]; [apply appendedTo_refl|].
    rewrite (getInitialData_world rt who w Hwho).
    rewrite (keeps_getOnlineUsers rt "ActivityLog") by discriminate. apply appendedTo_refl.
Qed.

(** ** Rows of the counter sheets *)

Lemma length_setValue (i k : nat) (v : cell) (sh : sheet) :
  (i < length sh)%nat -> length (Sheet.setValue (S i) k v sh) = length sh.
Proof.
  intros Hi. destruct k as [|j]; [reflexivity|]. unfold Sheet.setValue.
  replace (S i - length sh)%nat with 0%nat by lia. simpl repeat.
  rewrite app_nil_r. apply length_alter.
Qed.

(** A positive row index found in the values of a sheet is a row of it. *)
Lemma positive_index_row (p : row -> bool) (sh : sheet) (i : nat) :
  positive_index (findIndex p (Sheet.getValues sh)) = Some i -> (i < length sh)%nat.
Proof.
  destruct (findIndex p (Sheet.getValues sh)) as [[|j]|] eqn:Hfind; try discriminate.
  intros [= <-]. destruct (findIndex_lt _ _ _ Hfind) as [Hlt _].
  destruct sh as [|h rows]; [simpl in Hlt; lia|].
  rewrite length_getValues in Hlt by discriminate. exact Hlt.
Qed.

(** The write of a counter, on a sheet that has kept its rows. *)
Lemma sameRows_counter (name : string) (p : row -> bool) (col : nat) (v : nat -> cell)
    (sh cur : sheet) (w : world) :
  sheets w !! name = Some cur -> length cur = length sh ->
  exists cur',
    sheets (snd (match positive_index (findIndex p (Sheet.getValues sh)) with
                 | Some rowIndex => onSheet name (Sheet.setValue (rowIndex + 1) col (v rowIndex))
                 | None => ret tt
                 end w)) !! name = Some cur'
    /\ length cur' = length sh.
Proof.
  intros Hcur Hlen.
  destruct (positive_index (findIndex p (Sheet.getValues sh))) as [i|] eqn:Hi;
    [|exists cur; split; assumption].
  apply positive_index_row in Hi.
  eexists. split; [cbn [onSheet snd sheets]; rewrite lookup_alter_eq, Hcur; reflexivity|].
  rewrite Nat.add_1_r, length_setValue; lia.
Qed.

Lemma sameRows_updateCategoryCount (c : cell) (delta : Z) :
  evolves sameRows "Categories" (updateCategoryCount c delta).
Proof.
  intros w. unfold updateCategoryCount, sameRows.
  rewrite bind_run. cbn [getSheetByName fst snd].
  destruct (sheets w !! "Categories") as [sh|] eqn:Hsh;
    [|cbn [ret snd]; rewrite ?Hsh; reflexivity].
  destruct (sameRows_counter "Categories" (fun r => strict_eq (at_ r 1) c) 6
              (fun rowIndex => CNum (Z.max 0 (parseIntOr0
                 (at_ (nth rowIndex (Sheet.getValues sh) []) 5) + delta)))
              sh sh w Hsh eq_refl) as (cur' & Hcur' & Hlen).
  rewrite Hcur'. simpl. rewrite Hlen. reflexivity.
Qed.

Lemma sameRows_updateTagCounts (c : cell) (delta : Z) :
  evolves sameRows "Tags" (updateTagCounts c delta).
Proof.
  intros w. unfold updateTagCounts, sameRows.
  destruct (negb (truthy c)); [reflexivity|].
  rewrite bind_run. cbn [getSheetByName fst snd].
  destruct (sheets w !! "Tags") as [sh|] eqn:Hsh;
    [|destruct c; cbn [ret snd]; rewrite ?Hsh; reflexivity].
  destruct c as [|s| | |]; try (cbn [ret snd]; rewrite ?Hsh; reflexivity).
  assert (Hloop : forall tags cur w',
            sheets w' !! "Tags" = Some cur -> length cur = length sh ->
            exists cur',
              sheets (snd (forEach tags (fun tag =>
                match positive_index (findIndex (fun r => strict_eq (at_ r 1) (CStr tag))
                                        (Sheet.getValues sh)) with
                | Some rowIndex =>
                    onSheet "Tags"
                      (Sheet.setValue (rowIndex + 1) 5
                         (CNum (Z.max 0 (parseIntOr0
                            (at_ (nth rowIndex (Sheet.getValues sh) []) 4) + delta))))
                | None => ret tt
                end) w')) !! "Tags" = Some cur'
              /\ length cur' = length sh).
  { induction tags as [|tag tags IH]; intros cur w' Hcur Hlen.
    - exists cur. split; assumption.
    - cbn [forEach]. rewrite bind_run.
      destruct (sameRows_counter "Tags" (fun r => strict_eq (at_ r 1) (CStr tag)) 5
                  (fun rowIndex => CNum (Z.max 0 (parseIntOr0
                     (at_ (nth rowIndex (Sheet.getValues sh) []) 4) + delta)))
                  sh cur w' Hcur Hlen) as (cur1 & Hcur1 & Hlen1).
      apply (IH cur1 _ Hcur1 Hlen1). }
  destruct (Hloop (map Js.trim (Js.split "," s)) sh w Hsh eq_refl) as (cur' & Hcur' & Hlen).
  rewrite Hcur'. simpl. rewrite Hlen. reflexivity.
Qed.

Section Counters.
Variable rt : runtime.

Local Abbreviation tagRows m := (evolves sameRows "Tags" m).
Local Abbreviation categoryRows m := (evolves sameRows "Categories" m).

Ltac rows_kept leaf :=
  evolve sameRows_refl sameRows_trans
    ltac:(first [apply sameRows_updateTagCounts | apply sameRows_updateCategoryCount | leaf]).

Lemma tagRows_updateDocument (who docId : string) (updates : list (string * cell)) :
  tagRows (updateDocument rt who docId updates).
Proof. unfold updateDocument. rows_kept fail. Qed.

Lemma categoryRows_updateDocument (who docId : string) (updates : list (string * cell)) :
  categoryRows (updateDocument rt who docId updates).
Proof. unfold updateDocument. rows_kept fail. Qed.

Ltac rows_of_call :=
  rows_kept ltac:(first [ apply tagRows_updateDocument
                        | apply categoryRows_updateDocument
                        | match goal with
                          | |- evolves _ _ (isDuplicateURL _) =>
                              apply (evolves_keeps _ _ sameRows_refl);
                              unfold isDuplicateURL; solve [frames]
                          | |- evolves _ _ (removeUserSession _ _) =>
                              apply (evolves_keeps _ _ sameRows_refl);
                              unfold removeUserSession; solve [frames]
                          end ]).

Lemma rows_addDocument (who : string) (d : documentData) (k : string) :
  k = "Tags" \/ k = "Categories" -> evolves sameRows k (addDocument rt who d).
Proof. intros [-> | ->]; unfold addDocument; rows_of_call. Qed.

Lemma rows_archiveDocument (who : string) (docId : string) (k : string) :
  k = "Tags" \/ k = "Categories" -> evolves sameRows k (archiveDocument rt who docId).
Proof. intros [-> | ->]; unfold archiveDocument; rows_of_call. Qed.

Lemma rows_restoreDocument (who : string) (docId : string) (k : string) :
  k = "Tags" \/ k = "Categories" -> evolves sameRows k (restoreDocument rt who docId).
Proof. intros [-> | ->]; unfold restoreDocument; rows_of_call. Qed.

Lemma rows_deleteDocument (who : string) (docId : string) (k : string) :
  k = "Tags" \/ k = "Categories" -> evolves sameRows k (deleteDocument rt who docId).
Proof. intros [-> | ->]; unfold deleteDocument; rows_of_call. Qed.

Lemma rows_bulkArchiveDocuments (who : string) (docIds : list string) (k : string) :
  k = "Tags" \/ k = "Categories" -> evolves sameRows k (bulkArchiveDocuments rt who docIds).
Proof. intros [-> | ->]; unfold bulkArchiveDocuments; rows_of_call. Qed.

Lemma rows_bulkRestoreDocuments (who : string) (docIds : list string) (k : string) :
  k = "Tags" \/ k = "Categories" -> evolves sameRows k (bulkRestoreDocuments rt who docIds).
Proof. intros [-> | ->]; unfold bulkRestoreDocuments; rows_of_call. Qed.

Lemma rows_toggleFavorite (who : string) (docId : string) (k : string) :
  k = "Tags" \/ k = "Categories" -> evolves sameRows k (toggleFavorite rt who docId).
Proof. intros [-> | ->]; unfold toggleFavorite; rows_of_call. Qed.

Lemma rows_recordDocumentView (who : string) (docId : string) (k : string) :
  k = "Tags" \/ k = "Categories" -> evolves sameRows k (recordDocumentView rt who docId).
Proof. intros [-> | ->]; unfold recordDocumentView; rows_of_call. Qed.

Lemma rows_updateDocument (who docId : string) (updates : list (string * cell))
    (k : string) :
  k = "Tags" \/ k = "Categories" -> evolves sameRows k (updateDocument rt who docId updates).
Proof.
  intros [-> | ->]; [apply tagRows_updateDocument | apply categoryRows_updateDocument].
Qed.

Lemma rows_trackUserSession (who : string) (u : option user) (action : string)
    (k : string) :
  k = "Tags" \/ k = "Categories" -> evolves sameRows k (trackUserSession rt who u action).
Proof. intros [-> | ->]; unfold trackUserSession; rows_of_call. Qed.

End Counters.

(** X27: no call adds, removes or moves a row of the Tags sheet, and
    only [addCategory] adds one to the Categories sheet, at its end: every
    other call leaves each of the two sheets with the number of rows it
    had.  The script has no way to create a tag or to delete a tag or a
    category. *)
Theorem counter_sheets_keep_their_rows (rt : runtime) (who : string) (w : world)
    (k : string) :
  k = "Tags" \/ k = "Categories" ->
  let same {A} (m : M A) := sameRows (sheets w !! k) (sheets (snd (m w)) !! k) in
  (forall d, same (addDocument rt who d))
  /\ (forall docId updates, same (updateDocument rt who docId updates))
  /\ (forall docId, same (archiveDocument rt who docId))
  /\ (forall docId, same (restoreDocument rt who docId))
  /\ (forall docId, same (deleteDocument rt who docId))
  /\ (forall docIds, same (bulkArchiveDocuments rt who docIds))
  /\ (forall docIds, same (bulkRestoreDocuments rt who docIds))
  /\ (forall docId, same (toggleFavorite rt who docId))
  /\ (forall docId, same (recordDocumentView rt who docId))
  /\ (forall u action, same (trackUserSession rt who u action))
  /\ (forall name,
        sameRows (sheets w !! "Tags") (sheets (snd (addCategory rt who name w)) !! "Tags")
        /\ appendedTo (sheets w !! "Categories")
                      (sheets (snd (addCategory rt who name w)) !! "Categories")).
Proof.
  intros Hk. cbv zeta.
  split; [intros; apply rows_addDocument, Hk|].
  split; [intros; apply rows_updateDocument, Hk|].
  split; [intros; apply rows_archiveDocument, Hk|].
  split; [intros; apply rows_restoreDocument, Hk|].
  split; [intros; apply rows_deleteDocument, Hk|].
  split; [intros; apply rows_bulkArchiveDocuments, Hk|].
  split; [intros; apply rows_bulkRestoreDocuments, Hk|].
  split; [intros; apply rows_toggleFavorite, Hk|].
  split; [intros; apply rows_recordDocumentView, Hk|].
  split; [intros; apply rows_trackUserSession, Hk|].
  intros name. split.
  - assert (Hkeeps : keeps "Tags" (addCategory rt who name))
      by (unfold addCategory; frames).
    unfold sameRows. rewrite Hkeeps. reflexivity.
  - assert (Hgrows : evolves appendedTo "Categories" (addCategory rt who name)).
    { unfold addCategory.
      evolve appendedTo_refl appendedTo_trans
        ltac:(apply (evolves_onSheet _ _ appendedTo_refl); intros sh; eexists; reflexivity). }
    apply Hgrows.
Qed.

(** ** Filtered listings *)

Lemma excludes_allowedBy (allowed : option (list cell)) (v : cell) :
  excludes allowed v = false <-> allowedBy allowed v.
Proof.
  destruct allowed as [[|x l]|]; simpl; try tauto.
  rewrite negb_false_iff. split.
  - intros H. apply orb_true_iff in H. destruct H as [H | H].
    + exists x. auto.
    + apply existsb_exists in H. destruct H as (y & Hy & Hv). exists y. auto.
  - intros (y & [<- | Hy] & Hv); [rewrite Hv; reflexivity|].
    apply orb_true_iff. right. apply existsb_exists. exists y. auto.
Qed.

Lemma passesFilters_allowedBy (rt : runtime) (doc : document) (fl : filters) :
  passesFilters doc fl = true
  <-> allowedBy (status fl) (prop doc "Status")
      /\ allowedBy (categories fl) (prop doc "Category")
      /\ allowedBy (fileTypes fl) (prop doc "FileType").
Proof.
  unfold passesFilters. rewrite <- !excludes_allowedBy.
  destruct (excludes (status fl) _), (excludes (categories fl) _),
    (excludes (fileTypes fl) _); intuition congruence.
Qed.

(** X28: [getDocuments] on a Documents sheet with a header row and at
    least one more row, for a sort key other than the two by name.  The
    documents listed are those of the data rows that every filter lets
    through, a filter that is absent or empty letting every document
    through; with no sort key, or one the script does not know, they run
    from the latest LastModified to the earliest when these are all
    dates. *)
Theorem getDocuments_applies_filters (rt : runtime) (fl : filters) (w : world) (h r1 : row)
    (rest : list row) :
  sheets w !! "Documents" = Some (h :: r1 :: rest) ->
  sortBy fl <> Some "name_asc" -> sortBy fl <> Some "name_desc" ->
  let headers := hd [] (Sheet.getValues (h :: r1 :: rest)) in
  exists docs,
    fst (getDocuments rt fl w) = AsObject (okWith docs)
    /\ (forall doc, In doc docs <->
          (exists r, In r (dataRows w "Documents") /\ doc = fillDoc rt headers 0 r ∅)
          /\ allowedBy (status fl) (prop doc "Status")
          /\ allowedBy (categories fl) (prop doc "Category")
          /\ allowedBy (fileTypes fl) (prop doc "FileType"))
    /\ (sortBy fl <> Some "date_asc" ->
        (forall doc, In doc docs -> toTime rt (prop doc "LastModified") <> None) ->
        StronglySorted
          (fun a b => exists ta tb, toTime rt (prop a "LastModified") = Some ta
                                    /\ toTime rt (prop b "LastModified") = Some tb
                                    /\ tb <= ta)
          docs).
Proof.
  intros Hsh Hasc Hdesc headers.
  unfold getDocuments. rewrite bind_run. cbn [getSheetByName fst snd]. rewrite Hsh.
  change (Sheet.getLastRow (h :: r1 :: rest) <=? 1)%nat with false. cbv iota zeta.
  fold headers.
  set (key := match sortBy fl with
              | None | Some EmptyString => "date_desc"
              | Some s => s
              end).
  assert (Hkey1 : String.eqb key "name_asc" = false).
  { apply String.eqb_neq. subst key. destruct (sortBy fl) as [[|c s]|]; congruence. }
  assert (Hkey2 : String.eqb key "name_desc" = false).
  { apply String.eqb_neq. subst key. destruct (sortBy fl) as [[|c s]|]; congruence. }
  rewrite Hkey1, Hkey2. cbn [orb andb fst ret].
  eexists. split; [reflexivity|]. split.
  - intros doc. rewrite In_sort, filter_In, in_map_iff, (passesFilters_allowedBy rt).
    unfold dataRows. rewrite Hsh. split.
    + intros [(r & <- & Hr) Hpass]. split; [exists r; auto | exact Hpass].
    + intros [(r & Hr & ->) Hpass]. split; [exists r; auto | exact Hpass].
  - intros Hnot Hvalid.
    assert (Hsort : forall a b,
              getSortFunction rt key a b
              = diff_pos (toTime rt (prop b "LastModified")) (toTime rt (prop a "LastModified"))).
    { intros a b. unfold getSortFunction. rewrite Hkey1, Hkey2.
      replace (String.eqb key "date_asc") with false; [reflexivity|].
      symmetry. apply String.eqb_neq. subst key.
      destruct (sortBy fl) as [[|c s]|]; congruence. }
    apply (StronglySorted_weaken (fun a b => getSortFunction rt key a b = false)).
    + intros a b Ha Hb Hab. rewrite Hsort in Hab.
      destruct (toTime rt (prop a "LastModified")) as [ta|] eqn:Hta;
        [|destruct (Hvalid a Ha Hta)].
      destruct (toTime rt (prop b "LastModified")) as [tb|] eqn:Htb;
        [|destruct (Hvalid b Hb Htb)].
      exists ta, tb. repeat split. simpl in Hab. lia.
    + apply sort_sorted.
      * intros a b _ _. rewrite !Hsort.
        destruct (toTime rt (prop a "LastModified")), (toTime rt (prop b "LastModified"));
          simpl; lia.
      * intros a b c Ha Hb Hc. rewrite !Hsort.
        assert (Hin : forall y, In y (List.filter (fun doc => passesFilters doc fl)
                        (map (fun r => fillDoc rt headers 0 r ∅)
                           (drop 1 (Sheet.getValues (h :: r1 :: rest))))) ->
                      toTime rt (prop y "LastModified") <> None)
          by (intros y Hy; apply Hvalid, In_sort, Hy).
        apply Hin in Ha, Hb, Hc.
        destruct (toTime rt (prop a "LastModified")), (toTime rt (prop b "LastModified")),
          (toTime rt (prop c "LastModified")); simpl; try congruence; lia.
Qed.

(** ** Categories and tags as listed *)

(** An add of a new name appends the category's row. *)
Lemma addCategory_appends (rt : runtime) (who name : string) (w : world) (sh : sheet) :
  who <> EmptyString ->
  sheets w !! "Categories" = Some sh ->
  find (fun r => strict_eq (at_ r 1) (CStr name)) (Sheet.getValues sh) = None ->
  exists id t,
    fst (addCategory rt who name w)
    = AsJson (Reply true None (Some "Category added successfully") (Some id))
    /\ sheets (snd (addCategory rt who name w)) !! "Categories"
       = Some (sh ++ [[CStr id; CStr name; CStr who; CDate t; CBool true; CNum 0]]).
Proof.
  intros Hwho Hsh Hfind. unfold addCategory. rewrite bind_run, getCurrentUser_world.
  destruct (getCurrentUser_signed_in who w Hwho) as [-> ->]. cbn [negb].
  rewrite bind_run. cbn [getSheetByName fst snd]. rewrite Hsh, Hfind.
  rewrite !bind_run. cbn [fst snd ret]. do 2 eexists. split; [reflexivity|].
  kept. cbn [onSheet snd sheets].
  rewrite lookup_alter_eq, keeps_now, keeps_generateId, Hsh. reflexivity.
Qed.

Lemma at_pad_CBool (W : nat) (r : row) (k : nat) (b : bool) :
  at_ (pad W r) k = CBool b -> at_ r k = CBool b /\ (k < length r)%nat.
Proof.
  rewrite at_pad. destruct (Nat.ltb_spec k (length r)); [auto|].
  destruct (k <? W)%nat; discriminate.
Qed.

(** X29: a category added by a signed-in user under a name that no row
    holds is listed by [getCategories] next, with the id the add answered,
    the user as its creator and a document count of 0, as long as the
    active categories of the sheet have texts as names.  Every category
    listed is an active row of the sheet. *)
Theorem added_category_is_listed (rt : runtime) (who name : string) (w : world) (h : row)
    (rows : list row) :
  who <> EmptyString ->
  sheets w !! "Categories" = Some (h :: rows) ->
  find (fun r => strict_eq (at_ r 1) (CStr name)) (Sheet.getValues (h :: rows)) = None ->
  (forall r, In r rows -> at_ r 4 = CBool true -> isString (at_ r 1) = true) ->
  let out := addCategory rt who name w in
  exists id t cats,
    fst out = AsJson (Reply true None (Some "Category added successfully") (Some id))
    /\ fst (getCategories rt (snd out)) = AsObject (okWith cats)
    /\ In (CategoryRow (CStr id) (CStr name) (CStr who) (CDate t) (CNum 0)) cats
    /\ forall c, In c cats ->
         exists r, In r (rows ++ [[CStr id; CStr name; CStr who; CDate t; CBool true; CNum 0]])
                   /\ at_ r 4 = CBool true /\ CategoryName c = at_ r 1.
Proof.
  intros Hwho Hsh Hnew Hnames out.
  destruct (addCategory_appends rt who name w _ Hwho Hsh Hnew) as (id & t & Hres & Hsh').
  fold out in Hres, Hsh'. exists id, t.
  set (new := [CStr id; CStr name; CStr who; CDate t; CBool true; CNum 0]) in *.
  change ((h :: rows) ++ [new]) with (h :: rows ++ [new]) in Hsh'.
  set (W := width (h :: rows ++ [new])).
  set (mk := fun r : row =>
               CategoryRow (at_ r 0) (at_ r 1) (at_ r 2) (at_ r 3) (orZero (at_ r 5))).
  set (active := List.filter (fun r => strict_eq (at_ r 4) (CBool true))
                             (map (pad W) (rows ++ [new]))).
  assert (Hactive : forall p, In p active ->
            exists r, In r (rows ++ [new]) /\ p = pad W r /\ at_ r 4 = CBool true
                      /\ at_ p 1 = at_ r 1).
  { intros p Hp. apply filter_In in Hp. destruct Hp as [Hp Hact].
    apply in_map_iff in Hp. destruct Hp as (r & <- & Hr).
    assert (Hb : strict_eq (at_ (pad W r) 4) (CBool true) = true) by exact Hact.
    destruct (at_ (pad W r) 4) as [| | |b|] eqn:Hcell; try discriminate.
    destruct b; [|discriminate].
    apply at_pad_CBool in Hcell. destruct Hcell as [Hcell Hlen].
    exists r. repeat split; [exact Hr | exact Hcell | apply at_pad_stored; lia]. }
  assert (Hrun : fst (getCategories rt (snd out)) = AsObject (okWith
            (sort (fun a b => localeGt rt (CategoryName a) (CategoryName b)) (map mk active)))).
  { unfold getCategories. rewrite bind_run. cbn [getSheetByName fst snd]. rewrite Hsh'.
    replace (Sheet.getLastRow (h :: rows ++ [new]) <=? 1)%nat with false
      by (symmetry; apply Nat.leb_gt; unfold Sheet.getLastRow; simpl;
          rewrite length_app; simpl; lia).
    rewrite getValues_cons. cbn [map drop]. rewrite drop_0. fold W. fold mk. fold active.
    replace (compareRaises CategoryName (map mk active)) with false; [reflexivity|].
    symmetry. unfold compareRaises. apply andb_false_iff. right.
    apply not_true_is_false. intros Hex. apply existsb_exists in Hex.
    destruct Hex as (c & Hc & Hbad). apply in_map_iff in Hc. destruct Hc as (p & <- & Hp).
    destruct (Hactive p Hp) as (r & Hr & _ & Hact & Hname).
    cbn [mk CategoryName] in Hbad. rewrite Hname in Hbad.
    apply in_app_or in Hr. destruct Hr as [Hr | [<- | []]].
    - rewrite (Hnames r Hr Hact) in Hbad. discriminate.
    - discriminate. }
  eexists. split; [exact Hres|]. split; [exact Hrun|]. split.
  - apply In_sort, in_map_iff. exists (pad W new). split.
    + unfold mk. rewrite !at_pad_stored by (simpl; lia). reflexivity.
    + apply filter_In. split.
      * apply in_map, in_or_app. right. left. reflexivity.
      * rewrite at_pad_stored by (simpl; lia). reflexivity.
  - intros c Hc. apply In_sort, in_map_iff in Hc. destruct Hc as (p & <- & Hp).
    destruct (Hactive p Hp) as (r & Hr & _ & Hact & Hname).
    exists r. split; [exact Hr|]. split; [exact Hact | exact Hname].
Qed.

Lemma length_sort_insert {A} (gt : A -> A -> bool) (x : A) (l : list A) :
  length (sort_insert gt x l) = S (length l).
Proof.
  induction l as [|y l IH]; [reflexivity|]. simpl.
  destruct (gt x y); simpl; [rewrite IH|]; reflexivity.
Qed.

Lemma length_sort {A} (gt : A -> A -> bool) (l : list A) : length (sort gt l) = length l.
Proof.
  induction l as [|x l IH]; [reflexivity|]. simpl. rewrite length_sort_insert, IH. reflexivity.
Qed.

(** X30: [getTags] on a Tags sheet with a header row and at least one
    more row lists every data row, active or not, each once; a usage count
    that is empty or zero is listed as the number 0; and when the counts
    listed are all numbers the tags run from the most used to the least. *)
Theorem getTags_lists_by_usage (rt : runtime) (w : world) (h r1 : row) (rest : list row) :
  sheets w !! "Tags" = Some (h :: r1 :: rest) ->
  exists tags,
    fst (getTags rt w) = AsObject (okWith tags)
    /\ length tags = S (length rest)
    /\ (forall t, In t tags <->
          exists r, In r (dataRows w "Tags")
                    /\ t = TagRow (at_ r 0) (at_ r 1) (at_ r 2) (at_ r 3) (orZero (at_ r 4)))
    /\ (forall t, In t tags -> truthy (UsageCount t) = false -> UsageCount t = CNum 0)
    /\ ((forall t, In t tags -> toNumber rt (UsageCount t) <> None) ->
        StronglySorted
          (fun a b => exists na nb, toNumber rt (UsageCount a) = Some na
                                    /\ toNumber rt (UsageCount b) = Some nb /\ nb <= na)
          tags).
Proof.
  intros Hsh. unfold getTags. rewrite bind_run. cbn [getSheetByName fst snd]. rewrite Hsh.
  change (Sheet.getLastRow (h :: r1 :: rest) <=? 1)%nat with false. cbv iota zeta.
  cbn [fst ret]. eexists. split; [reflexivity|].
  set (mk := fun r : row =>
               TagRow (at_ r 0) (at_ r 1) (at_ r 2) (at_ r 3) (orZero (at_ r 4))).
  set (gt := fun a b : tag =>
               diff_pos (toNumber rt (UsageCount b)) (toNumber rt (UsageCount a))).
  assert (Hrows : dataRows w "Tags" = drop 1 (Sheet.getValues (h :: r1 :: rest)))
    by (unfold dataRows; rewrite Hsh; reflexivity).
  split; [|split; [|split]].
  - rewrite length_sort, length_map, getValues_cons. cbn [map drop].
    rewrite ?drop_0. cbn [length]. rewrite length_map. reflexivity.
  - intros t. rewrite In_sort, in_map_iff, Hrows. split.
    + intros (r & <- & Hr). exists r. auto.
    + intros (r & Hr & ->). exists r. auto.
  - intros t Ht Hzero. apply In_sort, in_map_iff in Ht. destruct Ht as (r & <- & _).
    unfold mk in *. cbn [UsageCount] in *. unfold orZero in *.
    destruct (truthy (at_ r 4)) eqn:Hcell; [congruence | reflexivity].
  - intros Hvalid.
    apply (StronglySorted_weaken (fun a b => gt a b = false)).
    + intros a b Ha Hb Hab. unfold gt in Hab.
      destruct (toNumber rt (UsageCount a)) as [na|] eqn:Hna; [|destruct (Hvalid a Ha Hna)].
      destruct (toNumber rt (UsageCount b)) as [nb|] eqn:Hnb; [|destruct (Hvalid b Hb Hnb)].
      exists na, nb. repeat split. simpl in Hab. lia.
    + apply sort_sorted.
      * intros a b _ _. unfold gt.
        destruct (toNumber rt (UsageCount a)), (toNumber rt (UsageCount b)); simpl; lia.
      * intros a b c Ha Hb Hc. unfold gt.
        assert (Hin : forall y, In y (map mk (drop 1 (Sheet.getValues (h :: r1 :: rest)))) ->
                      toNumber rt (UsageCount y) <> None)
          by (intros y Hy; apply Hvalid, In_sort, Hy).
        apply Hin in Ha, Hb, Hc.
        destruct (toNumber rt (UsageCount a)), (toNumber rt (UsageCount b)),
          (toNumber rt (UsageCount c)); simpl; try congruence; lia.
Qed.
